(** * apify-client-js: request descriptors built by the resource method groups

    A shallow embedding of the method groups of the client (tasks, datasets,
    key-value stores, request queues, crawlers, the dataset resource client and
    the [ApifyClient] constructor with its method decorator), followed by the
    properties of the request execution contract that are checked against them.

    JavaScript objects are finite maps from property names to values; a method
    of a group is a function of the [requestPromise] capability it receives
    and of its [options] object; it either throws while it is being called or
    returns a promise.  A promise is a computation over the log of HTTP requests
    handed to the transport, so that "which requests were issued, in which
    order" is an observable part of every result.

    The acts and logs groups, the remaining methods of the crawlers, stores
    and datasets groups, the two earlier versions of the key-value stores
    module and the collection clients are embedded alongside; the last part
    of the file states what these and the methods above do with their
    parameters, their queries and the answers of the server. *)

From Stdlib Require Import ZArith String Ascii List Lia.
From stdpp Require Import gmap strings list fin_maps pretty.

Set Warnings "-register-all".
Open Scope string_scope.
Open Scope Z_scope.

(** ** JavaScript values *)

(** Numbers that occur in this code are counts, limits, offsets, status codes
    and byte sizes, all integers. *)
Inductive JsVal : Type :=
| JUndefined
| JNull
| JBool (b : bool)
| JNum (n : Z)
| JStr (s : string)
| JBuffer (bytes : list Byte.byte)
| JFunc (name : string)
| JArr (items : list JsVal)
| JObj (fields : gmap string JsVal).

Global Instance JsVal_inhabited : Inhabited JsVal := populate JUndefined.

(** A property read [o.k] on an object is [o !!! k]: [undefined] when absent. *)
Abbreviation Obj := (gmap string JsVal).

(** The double quote, for messages that quote a parameter name. *)
Definition dq : string := String "034"%char EmptyString.

(** Errors: the typed errors of the client, the [ArgumentError] of the [ow]
    validator, and the built-in [Error] and [TypeError]. *)
Inductive JsError : Type :=
| MissingParameterError (name : string)
| InvalidParameterTypeError (name : string)
| RequestFailedError (statusCode : Z)
| ArgumentError (message : string)
| Error (message : string)
| TypeError (message : string).

(** The result of evaluating an expression or a callback: a value, or a throw. *)
Inductive Outcome (A : Type) : Type :=
| Ok (a : A)
| Throw (e : JsError).
Arguments Ok {A} a.
Arguments Throw {A} e.

Global Instance Outcome_ret : MRet Outcome := fun _ a => Ok a.
Global Instance Outcome_bind : MBind Outcome :=
  fun _ _ f m => match m with Ok a => f a | Throw e => Throw e end.

(** ToBoolean *)
Definition truthy (v : JsVal) : bool :=
  match v with
  | JUndefined | JNull => false
  | JBool b => b
  | JNum n => negb (n =? 0)
  | JStr s => negb (String.eqb s "")
  | _ => true
  end.

(** ToString, as applied by template literals and by [+] on strings. *)
Fixpoint toStr (v : JsVal) : string :=
  match v with
  | JUndefined => "undefined"
  | JNull => "null"
  | JBool true => "true"
  | JBool false => "false"
  | JNum n => pretty n
  | JStr s => s
  | JBuffer bytes => string_of_list_byte bytes
  | JFunc name => "function " +:+ name +:+ "() { [native code] }"
  | JArr items =>
      String.concat ","
        (map (fun x => match x with JUndefined | JNull => "" | _ => toStr x end) items)
  | JObj _ => "[object Object]"
  end.

(** A property read on an arbitrary value: throws on [undefined] and [null],
    knows [length] of arrays, strings and buffers. *)
Definition getProp (v : JsVal) (k : string) : Outcome JsVal :=
  match v with
  | JUndefined | JNull =>
      Throw (TypeError ("Cannot read property '" +:+ k +:+ "' of " +:+ toStr v))
  | JObj o => Ok (o !!! k)
  | JArr items =>
      if String.eqb k "length" then Ok (JNum (Z.of_nat (length items))) else Ok JUndefined
  | JStr s =>
      if String.eqb k "length" then Ok (JNum (Z.of_nat (String.length s))) else Ok JUndefined
  | JBuffer bytes =>
      if String.eqb k "length" then Ok (JNum (Z.of_nat (length bytes))) else Ok JUndefined
  | _ => Ok JUndefined
  end.

(** A destructuring default [{ k = d }]: used when the property is [undefined]. *)
Definition orDefault (v d : JsVal) : JsVal :=
  match v with JUndefined => d | _ => v end.

(** [_.pick(obj, ...keys)] and [_.omit(obj, key)] *)
Definition pick (o : Obj) (keys : list string) : Obj :=
  filter (fun kv => bool_decide (kv.1 ∈ keys)) o.

Definition omit (v : JsVal) (k : string) : JsVal :=
  match v with
  | JObj o => JObj (delete k o)
  | _ => JObj ∅
  end.

(** [_.isEmpty(value)]: no own enumerable property; for arrays and strings,
    length zero. *)
Definition isEmpty (v : JsVal) : bool :=
  match v with
  | JUndefined | JNull => true
  | JBool _ | JNum _ | JFunc _ => true
  | JStr s => String.eqb s ""
  | JBuffer bytes => match bytes with [] => true | _ => false end
  | JArr items => match items with [] => true | _ => false end
  | JObj o => bool_decide (o = ∅)
  end.

(** The own enumerable properties that [Object.assign] copies from a source. *)
Definition fieldsOf (v : JsVal) : Obj :=
  match v with JObj o => o | _ => ∅ end.

(** An assignment [v.k = x] in strict code.  Named properties of arrays,
    buffers and functions are not represented: [getProp] reads them as
    [undefined] before and after. *)
Definition setProp (v : JsVal) (k : string) (x : JsVal) : Outcome JsVal :=
  match v with
  | JObj o => Ok (JObj (<[k := x]> o))
  | JUndefined | JNull =>
      Throw (TypeError ("Cannot set property '" +:+ k +:+ "' of " +:+ toStr v))
  | JBool _ | JNum _ | JStr _ =>
      Throw (TypeError ("Cannot create property '" +:+ k +:+ "' on " +:+ toStr v))
  | JBuffer _ | JFunc _ | JArr _ => Ok v
  end.

(** ** Promises and the transport *)

(** The log of request descriptors handed to the transport, oldest first. *)
Abbreviation Trace := (list Obj).

Inductive Settled (A : Type) : Type :=
| Fulfilled (a : A)
| Rejected (e : JsError).
Arguments Fulfilled {A} a.
Arguments Rejected {A} e.

Definition Promise (A : Type) : Type := Trace -> Settled A * Trace.

Definition resolve {A} (a : A) : Promise A := fun tr => (Fulfilled a, tr).
Definition reject {A} (e : JsError) : Promise A := fun tr => (Rejected e, tr).

(** What a callback hands back: a promise to adopt, or a throw that rejects. *)
Definition adopt {A} (r : Outcome (Promise A)) : Promise A :=
  match r with Ok p => p | Throw e => reject e end.

(** [p.then(onFulfilled, onRejected)] in full generality. *)
Definition then_full {A B} (p : Promise A)
    (onFulfilled : A -> Outcome (Promise B))
    (onRejected : JsError -> Outcome (Promise B)) : Promise B :=
  fun tr =>
    match p tr with
    | (Fulfilled a, tr') => adopt (onFulfilled a) tr'
    | (Rejected e, tr') => adopt (onRejected e) tr'
    end.

Definition liftOutcome {A} (r : Outcome A) : Outcome (Promise A) :=
  match r with Ok a => Ok (resolve a) | Throw e => Throw e end.

(** [p.then(f)] for a callback that returns a plain value. *)
Definition then_ {A B} (p : Promise A) (f : A -> B) : Promise B :=
  then_full p (fun a => Ok (resolve (f a))) (fun e => Throw e).

(** [p.then(f)] for a callback that may throw. *)
Definition then_try {A B} (p : Promise A) (f : A -> Outcome B) : Promise B :=
  then_full p (fun a => liftOutcome (f a)) (fun e => Throw e).

(** [p.then(f)] for a callback that returns another promise. *)
Definition then_chain {A B} (p : Promise A) (f : A -> Outcome (Promise B)) : Promise B :=
  then_full p f (fun e => Throw e).

(** [p.catch(h)] *)
Definition catch_ {A} (p : Promise A) (h : JsError -> Outcome A) : Promise A :=
  then_full p (fun a => Ok (resolve a)) (fun e => liftOutcome (h e)).

(** [p.then(f, h)]: [h] does not see what [f] throws. *)
Definition then2 {A B} (p : Promise A) (f : A -> Outcome B) (h : JsError -> Outcome B)
    : Promise B :=
  then_full p (fun a => liftOutcome (f a)) (fun e => liftOutcome (h e)).

(** An [async] function: whatever its body throws becomes a rejection. *)
Definition async {A} (body : Outcome (Promise A)) : Outcome (Promise A) :=
  Ok (adopt body).

(** The HTTP transport answers a request descriptor, given the requests that
    came before it. *)
Definition Transport : Type := Trace -> Obj -> Settled JsVal.

(** The [requestPromise] capability handed to every method: it logs the
    descriptor and settles as the transport answers. *)
Definition requestPromise (t : Transport) (opts : Obj) : Promise JsVal :=
  fun tr => (t tr opts, (tr ++ [opts])%list).

(** A method of a method group. *)
Definition Method : Type := (Obj -> Promise JsVal) -> Obj -> Outcome (Promise JsVal).

(** What the caller of a method observes. *)
Inductive Observed : Type :=
| ThrewSynchronously (e : JsError)
| Resolved (v : JsVal)
| RejectedWith (e : JsError).

(** Calling a method and awaiting it, on a transport that has seen nothing yet:
    the observation and the requests issued. *)
Definition dispatch (call : Outcome (Promise JsVal)) : Observed * Trace :=
  match call with
  | Throw e => (ThrewSynchronously e, [])
  | Ok p =>
      match p [] with
      | (Fulfilled v, tr) => (Resolved v, tr)
      | (Rejected e, tr) => (RejectedWith e, tr)
      end
  end.

Definition sent (call : Outcome (Promise JsVal)) : Trace := (dispatch call).2.
Definition observed (call : Outcome (Promise JsVal)) : Observed := (dispatch call).1.

(** ** Platform functions *)

(** Functions of the host platform and of [./utils] that the method groups
    call and whose results the properties below do not depend on. *)
Class Runtime := {
  (** [JSON.stringify] *)
  JSON_stringify : JsVal -> JsVal;
  (** [JSON.parse], which throws on malformed text *)
  JSON_parse : JsVal -> Outcome JsVal;
  (** [zlib.gzip(buffer, callback)]: an error or the compressed bytes *)
  gzip : JsVal -> Outcome (list Byte.byte);
  (** [utils.parseDateFields] *)
  parseDateFields : JsVal -> JsVal;
  (** [utils.stringifyWebhooksToBase64] *)
  stringifyWebhooksToBase64 : JsVal -> JsVal;
  (** [Number(value)] *)
  Number : JsVal -> JsVal;
}.

(** ** ./utils *)

Module Utils.

(** The kinds a parameter may be required to have. *)
Inductive Kind : Type :=
| KString | KNumber | KBoolean | KObject | KArray | KBuffer
| KOr (a b : Kind).

Inductive ParamType : Type :=
| Required (k : Kind)
| Maybe (k : Kind).

Fixpoint hasKind (k : Kind) (v : JsVal) : bool :=
  match k, v with
  | KString, JStr _ => true
  | KNumber, JNum _ => true
  | KBoolean, JBool _ => true
  | KObject, JObj _ => true
  | KArray, JArr _ => true
  | KBuffer, JBuffer _ => true
  | KOr a b, _ => hasKind a v || hasKind b v
  | _, _ => false
  end.

(** Modelled from the spec: [utils.checkParamOrThrow(value, name, type)] is
    not among the sources.  Section 4.1: a required parameter that is absent
    fails with MissingParameter, a present one of the wrong kind with
    InvalidParameterType, both naming the parameter; an optional parameter may
    be absent. *)
Definition checkParamOrThrow (value : JsVal) (name : string) (type : ParamType)
    : Outcome unit :=
  match value with
  | JUndefined | JNull =>
      match type with
      | Maybe _ => Ok tt
      | Required _ => Throw (MissingParameterError name)
      end
  | _ =>
      match type with
      | Maybe k | Required k =>
          if hasKind k value then Ok tt else Throw (InvalidParameterTypeError name)
      end
  end.

(** Modelled from the spec: [utils.pluckData] is not among the sources.
    Section 4.2, "Unwrap envelope": the codec extracts [.data] of a
    [{ data: <payload> }] response. *)
Definition pluckData (response : JsVal) : JsVal :=
  match response with
  | JObj o => match o !! "data" with
              | Some JUndefined | None => JNull
              | Some d => d
              end
  | _ => JNull
  end.

(** Modelled from the spec: [utils.catchNotFoundOrThrow] is not among the
    sources.  Sections 4.3 and 7: HTTP 404 on a lookup is mapped to a null
    result, every other failure is raised again. *)
Definition NOT_FOUND_STATUS_CODE : Z := 404.

Definition isNotFound (err : JsError) : bool :=
  match err with
  | RequestFailedError statusCode => statusCode =? NOT_FOUND_STATUS_CODE
  | _ => false
  end.

Definition catchNotFoundOrThrow (err : JsError) : Outcome JsVal :=
  if isNotFound err then Ok JNull else Throw err.

Definition CONTENT_TYPE_JSON : string := "application/json".

(** Modelled from the spec: [utils.encodeBody] is not among the sources.
    Section 4.2, "Body encoding": a JSON content type and a value that is not
    already a string give the JSON text; anything else passes through. *)
Definition encodeBody `{Runtime} (body contentType : JsVal) : JsVal :=
  match contentType with
  | JStr type =>
      if String.eqb type CONTENT_TYPE_JSON
      then match body with JStr _ => body | _ => JSON_stringify body end
      else body
  | _ => body
  end.

(** Modelled from the spec: [utils.gzipPromise(Promise, buffer)] is not among
    the sources.  Section 4.2, "Compression": the encoded body is compressed
    with gzip before transmission; the promise settles as [zlib.gzip] does. *)
Definition gzipPromise `{Runtime} (Promise_ : JsVal) (buffer : JsVal) : Promise JsVal :=
  match gzip buffer with
  | Ok gzippedBuffer => resolve (JBuffer gzippedBuffer)
  | Throw err => reject err
  end.

(** Modelled from the spec: [utils.parseBody], called [utils.decodeBody] by
    the later key-value stores module, is not among the sources.  Section 4.2,
    "Response decoding": a body whose declared content type is
    [application/json] is parsed as JSON, any other is returned unchanged. *)
Definition parseBody `{Runtime} (body contentType : JsVal) : Outcome JsVal :=
  match contentType with
  | JStr type => if String.eqb type CONTENT_TYPE_JSON then JSON_parse body else Ok body
  | _ => Ok body
  end.

Definition decodeBody `{Runtime} (body contentType : JsVal) : Outcome JsVal :=
  parseBody body contentType.

(** [a < b] on numbers; any other operand compares as [NaN] does. *)
Definition lessThan (a b : JsVal) : bool :=
  match a, b with
  | JNum x, JNum y => x <? y
  | _, _ => false
  end.

End Utils.
Import Utils.

(** ** Tasks method group *)

Module Tasks.
Section Methods.
Context `{Runtime}.

Definition BASE_PATH : string := "/v2/actor-tasks".

(** [str => str.replace('/', '~')]: a string pattern replaces its first
    occurrence. *)
Fixpoint replaceFirst (pattern replacement : ascii) (str : string) : string :=
  match str with
  | EmptyString => EmptyString
  | String c rest =>
      if Ascii.eqb c pattern then String replacement rest
      else String c (replaceFirst pattern replacement rest)
  end.

Definition replaceSlashWithTilde (str : JsVal) : Outcome JsVal :=
  match str with
  | JStr s => Ok (JStr (replaceFirst "/" "~" s))
  | JUndefined | JNull =>
      Throw (TypeError ("Cannot read property 'replace' of " +:+ toStr str))
  | _ => Throw (TypeError "str.replace is not a function")
  end.

(** The query object shared by the list methods. *)
Definition paginationQuery (token limit offset desc : JsVal) : Obj :=
  let query : Obj := {[ "token" := token ]} in
  let query := if truthy limit then <["limit" := limit]> query else query in
  let query := if truthy offset then <["offset" := offset]> query else query in
  if truthy desc then <["desc" := JNum 1]> query else query.

Definition listTasks : Method := fun requestPromise options =>
  let baseUrl := options !!! "baseUrl" in
  let token := options !!! "token" in
  let offset := options !!! "offset" in
  let limit := options !!! "limit" in
  let desc := options !!! "desc" in
  checkParamOrThrow baseUrl "baseUrl" (Required KString) ;;
  checkParamOrThrow token "token" (Required KString) ;;
  checkParamOrThrow limit "limit" (Maybe KNumber) ;;
  checkParamOrThrow offset "offset" (Maybe KNumber) ;;
  checkParamOrThrow desc "desc" (Maybe KBoolean) ;;
  let query := paginationQuery token limit offset desc in
  Ok (then_ (then_ (requestPromise {[
        "url" := JStr (toStr baseUrl +:+ BASE_PATH);
        "json" := JBool true;
        "method" := JStr "GET";
        "qs" := JObj query ]})
      pluckData) parseDateFields).

Definition createTask : Method := fun requestPromise options =>
  let baseUrl := options !!! "baseUrl" in
  let token := options !!! "token" in
  let task := options !!! "task" in
  checkParamOrThrow baseUrl "baseUrl" (Required KString) ;;
  checkParamOrThrow token "token" (Required KString) ;;
  checkParamOrThrow task "task" (Required KObject) ;;
  Ok (then_ (then_ (requestPromise {[
        "url" := JStr (toStr baseUrl +:+ BASE_PATH);
        "json" := JBool true;
        "method" := JStr "POST";
        "qs" := JObj {[ "token" := token ]};
        "body" := task ]})
      pluckData) parseDateFields).

Definition updateTask : Method := fun requestPromise options =>
  let baseUrl := options !!! "baseUrl" in
  let token := options !!! "token" in
  let taskId := options !!! "taskId" in
  let task := options !!! "task" in
  checkParamOrThrow baseUrl "baseUrl" (Required KString) ;;
  checkParamOrThrow token "token" (Required KString) ;;
  checkParamOrThrow task "task" (Required KObject) ;;
  (if truthy taskId then checkParamOrThrow taskId "taskId" (Required KString)
   else task_id ← getProp task "id";
        checkParamOrThrow task_id "task.id" (Required KString)) ;;
  chosen ← (if negb (truthy taskId)
            then task_id ← getProp task "id";
                 Ok (if truthy task_id then task_id else taskId)
            else Ok taskId);
  safeTaskId ← replaceSlashWithTilde chosen;
  Ok (then_ (then_ (requestPromise {[
        "url" := JStr (toStr baseUrl +:+ BASE_PATH +:+ "/" +:+ toStr safeTaskId);
        "json" := JBool true;
        "method" := JStr "PUT";
        "qs" := JObj {[ "token" := token ]};
        "body" := omit task "id" ]})
      pluckData) parseDateFields).

Definition deleteTask : Method := fun requestPromise options =>
  let baseUrl := options !!! "baseUrl" in
  let token := options !!! "token" in
  let taskId := options !!! "taskId" in
  checkParamOrThrow baseUrl "baseUrl" (Required KString) ;;
  checkParamOrThrow token "token" (Required KString) ;;
  checkParamOrThrow taskId "taskId" (Required KString) ;;
  safeTaskId ← replaceSlashWithTilde taskId;
  Ok (then_ (requestPromise {[
        "url" := JStr (toStr baseUrl +:+ BASE_PATH +:+ "/" +:+ toStr safeTaskId);
        "json" := JBool true;
        "method" := JStr "DELETE";
        "qs" := JObj {[ "token" := token ]} ]})
      parseDateFields).

Definition getTask : Method := fun requestPromise options =>
  let baseUrl := options !!! "baseUrl" in
  let token := options !!! "token" in
  let taskId := options !!! "taskId" in
  checkParamOrThrow baseUrl "baseUrl" (Required KString) ;;
  checkParamOrThrow token "token" (Required KString) ;;
  checkParamOrThrow taskId "taskId" (Required KString) ;;
  safeTaskId ← replaceSlashWithTilde taskId;
  let qs : Obj := ∅ in
  let qs := <["token" := token]> qs in
  Ok (catch_ (then_ (then_ (requestPromise {[
        "url" := JStr (toStr baseUrl +:+ BASE_PATH +:+ "/" +:+ toStr safeTaskId);
        "json" := JBool true;
        "method" := JStr "GET";
        "qs" := JObj qs ]})
      pluckData) parseDateFields) catchNotFoundOrThrow).

Definition listRuns : Method := fun requestPromise options =>
  let baseUrl := options !!! "baseUrl" in
  let token := options !!! "token" in
  let taskId := options !!! "taskId" in
  let offset := options !!! "offset" in
  let limit := options !!! "limit" in
  let desc := options !!! "desc" in
  checkParamOrThrow baseUrl "baseUrl" (Required KString) ;;
  checkParamOrThrow token "token" (Required KString) ;;
  checkParamOrThrow taskId "taskId" (Required KString) ;;
  checkParamOrThrow limit "limit" (Maybe KNumber) ;;
  checkParamOrThrow offset "offset" (Maybe KNumber) ;;
  checkParamOrThrow desc "desc" (Maybe KBoolean) ;;
  safeTaskId ← replaceSlashWithTilde taskId;
  let query := paginationQuery token limit offset desc in
  Ok (then_ (then_ (requestPromise {[
        "url" := JStr (toStr baseUrl +:+ BASE_PATH +:+ "/" +:+ toStr safeTaskId +:+ "/runs");
        "json" := JBool true;
        "method" := JStr "GET";
        "qs" := JObj query ]})
      pluckData) parseDateFields).

Definition conflictMessage : string :=
  "You cannot use deprecated parameter " +:+ dq +:+ "body" +:+ dq
  +:+ " along with its replacement " +:+ dq +:+ "input" +:+ dq +:+ "!".

Definition runTask : Method := fun requestPromise options =>
  let baseUrl := options !!! "baseUrl" in
  let token := options !!! "token" in
  let taskId := options !!! "taskId" in
  let waitForFinish := options !!! "waitForFinish" in
  let body := options !!! "body" in
  let contentType := options !!! "contentType" in
  let timeout := options !!! "timeout" in
  let memory := options !!! "memory" in
  let build := options !!! "build" in
  let webhooks := options !!! "webhooks" in
  let input := options !!! "input" in
  checkParamOrThrow baseUrl "baseUrl" (Required KString) ;;
  checkParamOrThrow token "token" (Required KString) ;;
  checkParamOrThrow taskId "taskId" (Required KString) ;;
  checkParamOrThrow waitForFinish "waitForFinish" (Maybe KNumber) ;;
  checkParamOrThrow timeout "timeout" (Maybe KNumber) ;;
  checkParamOrThrow memory "memory" (Maybe KNumber) ;;
  checkParamOrThrow build "build" (Maybe KString) ;;
  checkParamOrThrow webhooks "webhooks" (Maybe KArray) ;;
  checkParamOrThrow input "input" (Maybe KObject) ;;
  safeTaskId ← replaceSlashWithTilde taskId;
  let query : Obj := {[ "token" := token ]} in
  let query := if truthy waitForFinish then <["waitForFinish" := waitForFinish]> query else query in
  let query := if truthy timeout then <["timeout" := timeout]> query else query in
  let query := if truthy memory then <["memory" := memory]> query else query in
  let query := if truthy build then <["build" := build]> query else query in
  let query := if truthy webhooks
               then <["webhooks" := stringifyWebhooksToBase64 webhooks]> query else query in
  let opts : Obj := {[
        "url" := JStr (toStr baseUrl +:+ BASE_PATH +:+ "/" +:+ toStr safeTaskId +:+ "/runs");
        "method" := JStr "POST";
        "qs" := JObj query ]} in
  (* This is for backwards compatiblity. *)
  opts ← (if truthy body then
            (if truthy input then Throw (Error conflictMessage) else Ok tt) ;;
            checkParamOrThrow contentType "contentType" (Maybe KString) ;;
            checkParamOrThrow body "body" (Required KString) ;;
            (* log.deprecated(...) only writes to the log *)
            let opts := <["body" := body]> opts in
            Ok (if truthy contentType
                then <["headers" := JObj {[ "Content-Type" := contentType ]}]> opts
                else opts)
          else Ok opts);
  let opts := if truthy input
              then <["json" := JBool true]> (<["body" := input]> opts)
              else opts in
  Ok (then_ (then_ (then_try (requestPromise opts)
        (fun response => if truthy (opts !!! "json") then Ok response else JSON_parse response))
      pluckData) parseDateFields).

Definition listWebhooks : Method := fun requestPromise options =>
  let baseUrl := options !!! "baseUrl" in
  let token := options !!! "token" in
  let taskId := options !!! "taskId" in
  let offset := options !!! "offset" in
  let limit := options !!! "limit" in
  let desc := options !!! "desc" in
  checkParamOrThrow baseUrl "baseUrl" (Required KString) ;;
  checkParamOrThrow taskId "taskId" (Required KString) ;;
  checkParamOrThrow token "token" (Required KString) ;;
  checkParamOrThrow limit "limit" (Maybe KNumber) ;;
  checkParamOrThrow offset "offset" (Maybe KNumber) ;;
  checkParamOrThrow desc "desc" (Maybe KBoolean) ;;
  safeTaskId ← replaceSlashWithTilde taskId;
  let query := paginationQuery token limit offset desc in
  Ok (then_ (then_ (requestPromise {[
        "url" := JStr (toStr baseUrl +:+ BASE_PATH +:+ "/" +:+ toStr safeTaskId +:+ "/webhooks");
        "json" := JBool true;
        "method" := JStr "GET";
        "qs" := JObj query ]})
      pluckData) parseDateFields).

Definition getInput : Method := fun requestPromise options =>
  let baseUrl := options !!! "baseUrl" in
  let token := options !!! "token" in
  let taskId := options !!! "taskId" in
  checkParamOrThrow baseUrl "baseUrl" (Required KString) ;;
  checkParamOrThrow token "token" (Required KString) ;;
  checkParamOrThrow taskId "taskId" (Required KString) ;;
  safeTaskId ← replaceSlashWithTilde taskId;
  Ok (requestPromise {[
        "url" := JStr (toStr baseUrl +:+ BASE_PATH +:+ "/" +:+ toStr safeTaskId +:+ "/input");
        "json" := JBool true;
        "method" := JStr "GET";
        "qs" := JObj {[ "token" := token ]} ]}).

Definition updateInput : Method := fun requestPromise options =>
  let baseUrl := options !!! "baseUrl" in
  let token := options !!! "token" in
  let taskId := options !!! "taskId" in
  let input := options !!! "input" in
  checkParamOrThrow baseUrl "baseUrl" (Required KString) ;;
  checkParamOrThrow token "token" (Required KString) ;;
  checkParamOrThrow taskId "taskId" (Required KString) ;;
  checkParamOrThrow input "input" (Required KObject) ;;
  safeTaskId ← replaceSlashWithTilde taskId;
  Ok (requestPromise {[
        "url" := JStr (toStr baseUrl +:+ BASE_PATH +:+ "/" +:+ toStr safeTaskId +:+ "/input");
        "json" := JBool true;
        "method" := JStr "PUT";
        "qs" := JObj {[ "token" := token ]};
        "body" := input ]}).

End Methods.
End Tasks.


(** ** Key-value stores method group *)

Module KeyValueStores.
Section Methods.
Context `{Runtime}.

Definition BASE_PATH : string := "/v2/key-value-stores".
Definition SIGNED_URL_UPLOAD_MIN_BYTESIZE : Z := 1024 * 256.

Definition listStores : Method := fun requestPromise options =>
  let baseUrl := options !!! "baseUrl" in
  let token := options !!! "token" in
  let offset := options !!! "offset" in
  let limit := options !!! "limit" in
  let desc := options !!! "desc" in
  let unnamed := options !!! "unnamed" in
  checkParamOrThrow baseUrl "baseUrl" (Required KString) ;;
  checkParamOrThrow token "token" (Required KString) ;;
  checkParamOrThrow limit "limit" (Maybe KNumber) ;;
  checkParamOrThrow offset "offset" (Maybe KNumber) ;;
  checkParamOrThrow desc "desc" (Maybe KBoolean) ;;
  checkParamOrThrow unnamed "unnamed" (Maybe KBoolean) ;;
  let query : Obj := {[ "token" := token ]} in
  let query := if truthy limit then <["limit" := limit]> query else query in
  let query := if truthy offset then <["offset" := offset]> query else query in
  let query := if truthy desc then <["desc" := JNum 1]> query else query in
  let query := if truthy unnamed then <["unnamed" := JNum 1]> query else query in
  Ok (then_ (requestPromise {[
        "url" := JStr (toStr baseUrl +:+ BASE_PATH);
        "json" := JBool true;
        "method" := JStr "GET";
        "qs" := JObj query ]})
      pluckData).

Definition getStore : Method := fun requestPromise options =>
  let baseUrl := options !!! "baseUrl" in
  let storeId := options !!! "storeId" in
  checkParamOrThrow baseUrl "baseUrl" (Required KString) ;;
  checkParamOrThrow storeId "storeId" (Required KString) ;;
  Ok (catch_ (then_ (requestPromise {[
        "url" := JStr (toStr baseUrl +:+ BASE_PATH +:+ "/" +:+ toStr storeId);
        "json" := JBool true;
        "method" := JStr "GET" ]})
      pluckData) catchNotFoundOrThrow).

Definition deleteStore : Method := fun requestPromise options =>
  let baseUrl := options !!! "baseUrl" in
  let storeId := options !!! "storeId" in
  checkParamOrThrow baseUrl "baseUrl" (Required KString) ;;
  checkParamOrThrow storeId "storeId" (Required KString) ;;
  Ok (requestPromise {[
        "url" := JStr (toStr baseUrl +:+ BASE_PATH +:+ "/" +:+ toStr storeId);
        "json" := JBool true;
        "method" := JStr "DELETE" ]}).

(** The descriptor of the upload itself, on either path. *)
Definition putRecord_requestOpts (baseUrl storeId key contentType gzipedBody : JsVal) : Obj :=
  {[ "url" := JStr (toStr baseUrl +:+ BASE_PATH +:+ "/" +:+ toStr storeId
                    +:+ "/records/" +:+ toStr key);
     "method" := JStr "PUT";
     "body" := gzipedBody;
     "json" := JBool false;
     "headers" := JObj {[ "Content-Type" := contentType;
                          "Content-Encoding" := JStr "gzip" ]} ]}.

(** The descriptor of the signed-URL negotiation. *)
Definition putRecord_directUploadUrlOpts (baseUrl storeId key contentType : JsVal) : Obj :=
  {[ "url" := JStr (toStr baseUrl +:+ BASE_PATH +:+ "/" +:+ toStr storeId
                    +:+ "/records/" +:+ toStr key +:+ "/direct-upload-url");
     "method" := JStr "GET";
     "json" := JBool true;
     "headers" := JObj {[ "Content-Type" := contentType ]} ]}.

Definition putRecord : Method := fun requestPromise options =>
  let baseUrl := options !!! "baseUrl" in
  let storeId := options !!! "storeId" in
  let key := options !!! "key" in
  let body := options !!! "body" in
  let contentType := orDefault (options !!! "contentType") (JStr "text/plain") in
  let useRawBody := options !!! "useRawBody" in
  checkParamOrThrow baseUrl "baseUrl" (Required KString) ;;
  checkParamOrThrow storeId "storeId" (Required KString) ;;
  checkParamOrThrow key "key" (Required KString) ;;
  checkParamOrThrow contentType "contentType" (Required KString) ;;
  checkParamOrThrow useRawBody "useRawBody" (Maybe KBoolean) ;;
  let encodedBody := if truthy useRawBody then body else encodeBody body contentType in
  checkParamOrThrow encodedBody "body" (Required (KOr KBuffer KString)) ;;
  Ok (then_chain (gzipPromise (options !!! "promise") encodedBody) (fun gzipedBody =>
        let requestOpts := putRecord_requestOpts baseUrl storeId key contentType gzipedBody in
        gzipedBodyLength ← getProp gzipedBody "length";
        (* Uploading via our servers: *)
        if lessThan gzipedBodyLength (JNum SIGNED_URL_UPLOAD_MIN_BYTESIZE)
        then Ok (requestPromise requestOpts)
        (* ... or via signed url directly to S3: *)
        else Ok (then_chain
                   (requestPromise (putRecord_directUploadUrlOpts baseUrl storeId key contentType))
                   (fun response =>
                      data ← getProp response "data";
                      signedUrl ← getProp data "signedUrl";
                      let s3RequestOpts := <["url" := signedUrl]> requestOpts in
                      Ok (requestPromise s3RequestOpts))))).

Definition deleteRecord : Method := fun requestPromise options =>
  let baseUrl := options !!! "baseUrl" in
  let storeId := options !!! "storeId" in
  let key := options !!! "key" in
  checkParamOrThrow baseUrl "baseUrl" (Required KString) ;;
  checkParamOrThrow storeId "storeId" (Required KString) ;;
  checkParamOrThrow key "key" (Required KString) ;;
  Ok (requestPromise {[
        "url" := JStr (toStr baseUrl +:+ BASE_PATH +:+ "/" +:+ toStr storeId
                       +:+ "/records/" +:+ toStr key);
        "json" := JBool true;
        "method" := JStr "DELETE" ]}).

Definition getOrCreateStore : Method := fun requestPromise options =>
  let baseUrl := options !!! "baseUrl" in
  let token := options !!! "token" in
  let storeName := options !!! "storeName" in
  checkParamOrThrow baseUrl "baseUrl" (Required KString) ;;
  checkParamOrThrow token "token" (Required KString) ;;
  checkParamOrThrow storeName "storeName" (Required KString) ;;
  Ok (then_ (requestPromise {[
        "url" := JStr (toStr baseUrl +:+ BASE_PATH);
        "json" := JBool true;
        "method" := JStr "POST";
        "qs" := JObj {[ "name" := storeName; "token" := token ]} ]})
      pluckData).

(** The [parseResponse] closure of [getRecord]. *)
Definition getRecord_parseResponse (raw useRawBody : JsVal) (response : JsVal)
    : Outcome JsVal :=
  if truthy raw then Ok response
  else
    let data := pluckData response in
    if negb (truthy useRawBody)
    then body ← getProp data "body";
         contentType ← getProp data "contentType";
         decoded ← decodeBody body contentType;
         setProp data "body" decoded
    else Ok data.

Definition getRecord : Method := fun requestPromise options =>
  let baseUrl := options !!! "baseUrl" in
  let storeId := options !!! "storeId" in
  let key := options !!! "key" in
  let raw := options !!! "raw" in
  let useRawBody := options !!! "useRawBody" in
  let url := options !!! "url" in
  checkParamOrThrow baseUrl "baseUrl" (Required KString) ;;
  checkParamOrThrow storeId "storeId" (Required KString) ;;
  checkParamOrThrow key "key" (Required KString) ;;
  checkParamOrThrow raw "raw" (Maybe KBoolean) ;;
  checkParamOrThrow useRawBody "useRawBody" (Maybe KBoolean) ;;
  checkParamOrThrow url "url" (Maybe KBoolean) ;;
  let requestOpts : Obj := {[
        "url" := JStr (toStr baseUrl +:+ BASE_PATH +:+ "/" +:+ toStr storeId
                       +:+ "/records/" +:+ toStr key);
        "method" := JStr "GET";
        "json" := JBool (negb (truthy raw));
        "qs" := JObj ∅;
        "gzip" := JBool true ]} in
  let requestOpts :=
    if truthy raw
    then <["qs" := JObj (<["raw" := JNum 1]> (fieldsOf (requestOpts !!! "qs")))]>
           (<["encoding" := JNull]> requestOpts)
    else requestOpts in
  let parseResponse := getRecord_parseResponse raw useRawBody in
  (* Downloading via our servers: *)
  if negb (truthy url)
  then Ok (then2 (requestPromise requestOpts) parseResponse catchNotFoundOrThrow)
  (* ... or via signed url directly to S3: *)
  else Ok (then_chain (requestPromise {[
        "url" := JStr (toStr baseUrl +:+ BASE_PATH +:+ "/" +:+ toStr storeId
                       +:+ "/records/" +:+ toStr key +:+ "/direct-download-url");
        "method" := JStr "GET";
        "json" := JBool true;
        "gzip" := JBool true;
        "qs" := requestOpts !!! "qs" ]})
      (fun response =>
         data ← getProp response "data";
         let meta := omit data "signedUrl" in
         data ← getProp response "data";
         signedUrl ← getProp data "signedUrl";
         Ok (then2 (then_ (requestPromise {[
                       "method" := JStr "GET";
                       "url" := signedUrl;
                       "json" := JBool false;
                       "gzip" := JBool true ]})
                     (fun body =>
                        if truthy raw then body
                        else JObj {[ "data" :=
                               JObj ({[ "body" := body ]}
                                     ∪ fieldsOf (omit meta "contentEncoding")) ]}))
                   parseResponse catchNotFoundOrThrow))).

Definition listKeys : Method := fun requestPromise options =>
  let baseUrl := options !!! "baseUrl" in
  let storeId := options !!! "storeId" in
  let exclusiveStartKey := options !!! "exclusiveStartKey" in
  let limit := options !!! "limit" in
  checkParamOrThrow baseUrl "baseUrl" (Required KString) ;;
  checkParamOrThrow storeId "storeId" (Required KString) ;;
  checkParamOrThrow exclusiveStartKey "exclusiveStartKey" (Maybe KString) ;;
  checkParamOrThrow limit "limit" (Maybe KNumber) ;;
  let query : Obj := ∅ in
  let query := if truthy exclusiveStartKey
               then <["exclusiveStartKey" := exclusiveStartKey]> query else query in
  let query := if truthy limit then <["limit" := limit]> query else query in
  let requestOpts : Obj := {[
        "url" := JStr (toStr baseUrl +:+ BASE_PATH +:+ "/" +:+ toStr storeId +:+ "/keys");
        "json" := JBool true;
        "method" := JStr "GET";
        "qs" := JObj query ]} in
  Ok (then_ (requestPromise requestOpts) pluckData).

End Methods.
End KeyValueStores.

(** ** Key-value stores method group, the variant that uploads through a signed
    URL on request ([src/key_value_stores.js]) *)

Module KeyValueStoresUrlOption.
Section Methods.
Context `{Runtime}.

Definition BASE_PATH : string := "/v2/key-value-stores".
Definition CONTENT_TYPE_JSON : string := "application/json".

Definition encodeBody (body contentType : JsVal) : JsVal :=
  match contentType with
  | JStr type => if String.eqb type CONTENT_TYPE_JSON then JSON_stringify body else body
  | _ => body
  end.

Definition parseBody (body contentType : JsVal) : Outcome JsVal :=
  match contentType with
  | JStr type => if String.eqb type CONTENT_TYPE_JSON then JSON_parse body else Ok body
  | _ => Ok body
  end.

(** The local [gzipPromise]: [new Promise(...)] around [zlib.gzip]. *)
Definition gzipPromise (Promise_ : JsVal) (buffer : JsVal) : Outcome (Promise JsVal) :=
  match Promise_ with
  | JFunc _ =>
      Ok (match gzip buffer with
          | Ok gzippedBuffer => resolve (JBuffer gzippedBuffer)
          | Throw err => reject err
          end)
  | _ => Throw (TypeError "Promise is not a constructor")
  end.

Definition putRecord : Method := fun requestPromise options =>
  let baseUrl := options !!! "baseUrl" in
  let storeId := options !!! "storeId" in
  let key := options !!! "key" in
  let body := options !!! "body" in
  let contentType := orDefault (options !!! "contentType") (JStr "text/plain") in
  let useRawBody := options !!! "useRawBody" in
  let url := options !!! "url" in
  let promise := options !!! "promise" in
  checkParamOrThrow baseUrl "baseUrl" (Required KString) ;;
  checkParamOrThrow storeId "storeId" (Required KString) ;;
  checkParamOrThrow key "key" (Required KString) ;;
  checkParamOrThrow contentType "contentType" (Required KString) ;;
  checkParamOrThrow useRawBody "useRawBody" (Maybe KBoolean) ;;
  checkParamOrThrow url "url" (Maybe KBoolean) ;;
  let requestOpts : Obj := {[
        "url" := JStr (toStr baseUrl +:+ BASE_PATH +:+ "/" +:+ toStr storeId
                       +:+ "/records/" +:+ toStr key);
        "method" := JStr "PUT";
        "body" := (if truthy useRawBody then body else encodeBody body contentType);
        "json" := JBool false;
        "headers" := JObj {[ "Content-Type" := contentType ]} ]} in
  (* Uploading via our servers: *)
  if negb (truthy url) then Ok (requestPromise requestOpts)
  else
  (* ... or via signed url directly to S3: *)
  let newRequestOpts : Obj :=
    {[ "body" := JNull; "json" := JBool true; "qs" := JObj {[ "url" := JNum 1 ]} ]}
    ∪ requestOpts in
  Ok (then_chain (requestPromise newRequestOpts) (fun response =>
        data ← getProp response "data";
        signedUrl ← getProp data "signedUrl";
        gzipped ← gzipPromise promise (requestOpts !!! "body");
        Ok (then_chain gzipped (fun gzipedBody =>
              let s3RequestOpts : Obj :=
                {[ "url" := signedUrl;
                   "method" := JStr "PUT";
                   "body" := gzipedBody;
                   "json" := JBool false;
                   "headers" := JObj {[ "Content-Type" := contentType;
                                        "Content-Encoding" := JStr "gzip" ]} ]}
                ∪ requestOpts in
              Ok (requestPromise s3RequestOpts))))).

(** The [parseResponse] closure of [getRecord]. *)
Definition getRecord_parseResponse (raw useRawBody : JsVal) (response : JsVal)
    : Outcome JsVal :=
  if truthy raw then Ok response
  else
    let data := pluckData response in
    if negb (truthy useRawBody)
    then body ← getProp data "body";
         contentType ← getProp data "contentType";
         parsed ← parseBody body contentType;
         setProp data "body" parsed
    else Ok data.

(* TODO: Ensure that body is null or string or buffer *)
Definition getRecord : Method := fun requestPromise options =>
  let baseUrl := options !!! "baseUrl" in
  let storeId := options !!! "storeId" in
  let key := options !!! "key" in
  let raw := options !!! "raw" in
  let useRawBody := options !!! "useRawBody" in
  let url := options !!! "url" in
  checkParamOrThrow baseUrl "baseUrl" (Required KString) ;;
  checkParamOrThrow storeId "storeId" (Required KString) ;;
  checkParamOrThrow key "key" (Required KString) ;;
  checkParamOrThrow raw "raw" (Maybe KBoolean) ;;
  checkParamOrThrow useRawBody "useRawBody" (Maybe KBoolean) ;;
  checkParamOrThrow url "url" (Maybe KBoolean) ;;
  let requestOpts : Obj := {[
        "url" := JStr (toStr baseUrl +:+ BASE_PATH +:+ "/" +:+ toStr storeId
                       +:+ "/records/" +:+ toStr key);
        "method" := JStr "GET";
        "json" := JBool (negb (truthy raw));
        "qs" := JObj ∅;
        "gzip" := JBool true ]} in
  let requestOpts :=
    if truthy raw
    then <["qs" := JObj (<["raw" := JNum 1]> (fieldsOf (requestOpts !!! "qs")))]>
           (<["encoding" := JNull]> requestOpts)
    else requestOpts in
  let parseResponse := getRecord_parseResponse raw useRawBody in
  (* Downloading via our servers: *)
  if negb (truthy url)
  then Ok (then2 (requestPromise requestOpts) parseResponse catchNotFoundOrThrow)
  else
  (* ... or via signed url directly to S3: *)
  let requestOpts := <["json" := JBool true]> requestOpts in
  let requestOpts :=
    <["qs" := JObj (<["url" := JNum 1]> (fieldsOf (requestOpts !!! "qs")))]> requestOpts in
  Ok (then_chain (requestPromise requestOpts)
      (fun response =>
         data ← getProp response "data";
         signedUrl ← getProp data "signedUrl";
         let s3RequestOpts : Obj := {[
               "method" := JStr "GET";
               "url" := signedUrl;
               "json" := JBool false;
               "gzip" := JBool true ]} in
         data ← getProp response "data";
         let meta := omit data "signedUrl" in
         Ok (then2 (then_ (requestPromise s3RequestOpts)
                     (fun body =>
                        if truthy raw then body
                        else JObj {[ "data" :=
                               JObj ({[ "body" := body ]}
                                     ∪ fieldsOf (omit meta "contentEncoding")) ]}))
                   parseResponse catchNotFoundOrThrow))).

End Methods.
End KeyValueStoresUrlOption.

(** ** Key-value stores method group, the first version
    ([src/key-value-stores.js]), which the client constructor below exposes *)

Module KeyValueStoresFirst.

Definition BASE_PATH : string := "/v2/key-value-stores".

Definition getOrCreateStore : Method := fun requestPromise options =>
  Ok (requestPromise {[
        "url" := JStr (toStr (options !!! "baseUrl") +:+ BASE_PATH);
        "json" := JBool true;
        "method" := JStr "POST";
        "body" := JObj (pick options ["userId"; "username"; "token"; "storeName"]) ]}).

Definition getStore : Method := fun requestPromise options =>
  let baseUrl := options !!! "baseUrl" in
  let storeId := options !!! "storeId" in
  Ok (requestPromise {[
        "url" := JStr (toStr baseUrl +:+ BASE_PATH +:+ "/" +:+ toStr storeId);
        "json" := JBool true;
        "method" := JStr "GET" ]}).

Definition deleteStore : Method := fun requestPromise options =>
  let baseUrl := options !!! "baseUrl" in
  let storeId := options !!! "storeId" in
  Ok (requestPromise {[
        "url" := JStr (toStr baseUrl +:+ BASE_PATH +:+ "/" +:+ toStr storeId);
        "json" := JBool true;
        "method" := JStr "DELETE" ]}).

Definition putRecord : Method := fun requestPromise options =>
  let baseUrl := options !!! "baseUrl" in
  let storeId := options !!! "storeId" in
  let recordKey := options !!! "recordKey" in
  let body := options !!! "body" in
  let contentType := options !!! "contentType" in
  Ok (requestPromise {[
        "url" := JStr (toStr baseUrl +:+ BASE_PATH +:+ "/" +:+ toStr storeId
                       +:+ "/records/" +:+ toStr recordKey);
        "json" := JBool true;
        "method" := JStr "PUT";
        "body" := body;
        "headers" := JObj {[ "Content-Type" := contentType ]} ]}).

Definition deleteRecord : Method := fun requestPromise options =>
  let baseUrl := options !!! "baseUrl" in
  let storeId := options !!! "storeId" in
  let recordKey := options !!! "recordKey" in
  Ok (requestPromise {[
        "url" := JStr (toStr baseUrl +:+ BASE_PATH +:+ "/" +:+ toStr storeId
                       +:+ "/records/" +:+ toStr recordKey);
        "json" := JBool true;
        "method" := JStr "DELETE" ]}).

End KeyValueStoresFirst.

(** ** Datasets method group *)

Module Datasets.
Section Methods.
Context `{Runtime}.

Definition BASE_PATH : string := "/v2/datasets".
Definition SIGNED_URL_UPLOAD_MIN_BYTESIZE : Z := 1024 * 256.

Definition listDatasets : Method := fun requestPromise options =>
  let baseUrl := options !!! "baseUrl" in
  let token := options !!! "token" in
  let offset := options !!! "offset" in
  let limit := options !!! "limit" in
  let desc := options !!! "desc" in
  let unnamed := options !!! "unnamed" in
  checkParamOrThrow baseUrl "baseUrl" (Required KString) ;;
  checkParamOrThrow token "token" (Required KString) ;;
  checkParamOrThrow limit "limit" (Maybe KNumber) ;;
  checkParamOrThrow offset "offset" (Maybe KNumber) ;;
  checkParamOrThrow desc "desc" (Maybe KBoolean) ;;
  checkParamOrThrow unnamed "unnamed" (Maybe KBoolean) ;;
  let query : Obj := {[ "token" := token ]} in
  let query := if truthy limit then <["limit" := limit]> query else query in
  let query := if truthy offset then <["offset" := offset]> query else query in
  let query := if truthy desc then <["desc" := JNum 1]> query else query in
  let query := if truthy unnamed then <["unnamed" := JNum 1]> query else query in
  Ok (then_ (requestPromise {[
        "url" := JStr (toStr baseUrl +:+ BASE_PATH);
        "json" := JBool true;
        "method" := JStr "GET";
        "qs" := JObj query ]})
      pluckData).

Definition getDataset : Method := fun requestPromise options =>
  let baseUrl := options !!! "baseUrl" in
  let datasetId := options !!! "datasetId" in
  checkParamOrThrow baseUrl "baseUrl" (Required KString) ;;
  checkParamOrThrow datasetId "datasetId" (Required KString) ;;
  Ok (catch_ (then_ (requestPromise {[
        "url" := JStr (toStr baseUrl +:+ BASE_PATH +:+ "/" +:+ toStr datasetId);
        "json" := JBool true;
        "method" := JStr "GET" ]})
      pluckData) catchNotFoundOrThrow).

Definition deleteDataset : Method := fun requestPromise options =>
  let baseUrl := options !!! "baseUrl" in
  let datasetId := options !!! "datasetId" in
  checkParamOrThrow baseUrl "baseUrl" (Required KString) ;;
  checkParamOrThrow datasetId "datasetId" (Required KString) ;;
  Ok (requestPromise {[
        "url" := JStr (toStr baseUrl +:+ BASE_PATH +:+ "/" +:+ toStr datasetId);
        "json" := JBool true;
        "method" := JStr "DELETE" ]}).

Definition putItems : Method := fun requestPromise options =>
  let baseUrl := options !!! "baseUrl" in
  let datasetId := options !!! "datasetId" in
  let data := options !!! "data" in
  checkParamOrThrow baseUrl "baseUrl" (Required KString) ;;
  checkParamOrThrow datasetId "datasetId" (Required KString) ;;
  checkParamOrThrow data "data" (Required (KOr KObject KArray)) ;;
  Ok (then_chain (gzipPromise (options !!! "promise") (JSON_stringify data)) (fun gzipedBody =>
        let requestOpts : Obj := {[
              "url" := JStr (toStr baseUrl +:+ BASE_PATH +:+ "/" +:+ toStr datasetId +:+ "/items");
              "method" := JStr "POST";
              "body" := gzipedBody;
              "json" := JBool false;
              "headers" := JObj {[ "Content-Type" := JStr "application/json; charset=utf-8";
                                   "Content-Encoding" := JStr "gzip" ]} ]} in
        (* Uploading via our servers: *)
        Ok (requestPromise requestOpts))).

Definition getOrCreateDataset : Method := fun requestPromise options =>
  let baseUrl := options !!! "baseUrl" in
  let token := options !!! "token" in
  let datasetName := options !!! "datasetName" in
  checkParamOrThrow baseUrl "baseUrl" (Required KString) ;;
  checkParamOrThrow token "token" (Required KString) ;;
  checkParamOrThrow datasetName "datasetName" (Required KString) ;;
  Ok (then_ (requestPromise {[
        "url" := JStr (toStr baseUrl +:+ BASE_PATH);
        "json" := JBool true;
        "method" := JStr "POST";
        "qs" := JObj {[ "name" := datasetName; "token" := token ]} ]})
      pluckData).

(** [queryString.fields.join(',')]; the parameter check admits only an array
    where [fields] is truthy. *)
Definition getItems_joinFields (fields : JsVal) : Outcome JsVal :=
  match fields with
  | JArr _ => Ok (JStr (toStr fields))
  | _ => Throw (TypeError "queryString.fields.join is not a function")
  end.

(** The [parseResponse] closure of [getItems]. *)
Definition getItems_parseResponse (disableBodyParser : JsVal) (response : JsVal)
    : Outcome JsVal :=
  responseBody ← getProp response "body";
  headers ← getProp response "headers";
  contentType ← getProp headers "content-type";
  if truthy disableBodyParser then Ok responseBody else parseBody responseBody contentType.

Definition getItems : Method := fun requestPromise options =>
  let baseUrl := options !!! "baseUrl" in
  let datasetId := options !!! "datasetId" in
  let offset := options !!! "offset" in
  let limit := options !!! "limit" in
  let fields := options !!! "fields" in
  let omit := options !!! "omit" in
  let unwind := options !!! "unwind" in
  let desc := options !!! "desc" in
  let bom := options !!! "bom" in
  let attachment := options !!! "attachment" in
  let delimiter := options !!! "delimiter" in
  let disableBodyParser := options !!! "disableBodyParser" in
  let xmlRoot := options !!! "xmlRoot" in
  let xmlRow := options !!! "xmlRow" in
  checkParamOrThrow baseUrl "baseUrl" (Required KString) ;;
  checkParamOrThrow datasetId "datasetId" (Required KString) ;;
  checkParamOrThrow limit "limit" (Maybe KNumber) ;;
  checkParamOrThrow offset "offset" (Maybe KNumber) ;;
  checkParamOrThrow fields "fields" (Maybe KArray) ;;
  checkParamOrThrow omit "omit" (Maybe KArray) ;;
  checkParamOrThrow unwind "unwind" (Maybe KString) ;;
  checkParamOrThrow desc "desc" (Maybe KBoolean) ;;
  checkParamOrThrow bom "bom" (Maybe KBoolean) ;;
  checkParamOrThrow attachment "attachment" (Maybe KBoolean) ;;
  checkParamOrThrow delimiter "delimiter" (Maybe KString) ;;
  checkParamOrThrow xmlRoot "xmlRoot" (Maybe KString) ;;
  checkParamOrThrow xmlRow "xmlRow" (Maybe KString) ;;
  let requestOpts : Obj := {[
        "url" := JStr (toStr baseUrl +:+ BASE_PATH +:+ "/" +:+ toStr datasetId +:+ "/items");
        "method" := JStr "GET";
        "qs" := JObj ∅;
        "json" := JBool false;
        "gzip" := JBool true;
        "resolveWithResponse" := JBool true;
        "encoding" := JNull ]} in
  let queryString := pick options
        [ "format"; "fields"; "omit"; "unwind"; "offset";
          "limit"; "desc"; "attachment";
          "delimiter"; "bom"; "xmlRoot"; "xmlRow" ] in
  requestOpts ← (if negb (isEmpty (JObj queryString))
                 then queryString ← (if truthy (queryString !!! "fields")
                                     then joined ← getItems_joinFields (queryString !!! "fields");
                                          Ok (<["fields" := joined]> queryString)
                                     else Ok queryString);
                      Ok (<["qs" := JObj queryString]> requestOpts)
                 else Ok requestOpts);
  let parseResponse := getItems_parseResponse disableBodyParser in
  Ok (catch_ (then_try (requestPromise requestOpts) parseResponse) catchNotFoundOrThrow).

End Methods.
End Datasets.

(** ** Request queues method group *)

Module RequestQueues.
Section Methods.
Context `{Runtime}.

(** 256s - we use more for queries pointing to DynamoDB as it may be slower
    to scale. *)
Definition REQUEST_ENDPOINTS_EXP_BACKOFF_MAX_REPEATS : Z := 9.

Definition BASE_PATH : string := "/v2/request-queues".

Definition getOrCreateQueue : Method := fun requestPromise options =>
  let baseUrl := options !!! "baseUrl" in
  let token := options !!! "token" in
  let queueName := options !!! "queueName" in
  checkParamOrThrow baseUrl "baseUrl" (Required KString) ;;
  checkParamOrThrow token "token" (Required KString) ;;
  checkParamOrThrow queueName "queueName" (Required KString) ;;
  Ok (then_ (then_ (requestPromise {[
        "url" := JStr (toStr baseUrl +:+ BASE_PATH);
        "json" := JBool true;
        "method" := JStr "POST";
        "qs" := JObj {[ "name" := queueName; "token" := token ]} ]})
      pluckData) parseDateFields).

Definition listQueues : Method := fun requestPromise options =>
  let baseUrl := options !!! "baseUrl" in
  let token := options !!! "token" in
  let offset := options !!! "offset" in
  let limit := options !!! "limit" in
  let desc := options !!! "desc" in
  let unnamed := options !!! "unnamed" in
  checkParamOrThrow baseUrl "baseUrl" (Required KString) ;;
  checkParamOrThrow token "token" (Required KString) ;;
  checkParamOrThrow limit "limit" (Maybe KNumber) ;;
  checkParamOrThrow offset "offset" (Maybe KNumber) ;;
  checkParamOrThrow desc "desc" (Maybe KBoolean) ;;
  checkParamOrThrow unnamed "unnamed" (Maybe KBoolean) ;;
  let query : Obj := {[ "token" := token ]} in
  let query := if truthy limit then <["limit" := limit]> query else query in
  let query := if truthy offset then <["offset" := offset]> query else query in
  let query := if truthy desc then <["desc" := JNum 1]> query else query in
  let query := if truthy unnamed then <["unnamed" := JNum 1]> query else query in
  Ok (then_ (then_ (requestPromise {[
        "url" := JStr (toStr baseUrl +:+ BASE_PATH);
        "json" := JBool true;
        "method" := JStr "GET";
        "qs" := JObj query ]})
      pluckData) parseDateFields).

Definition getQueue : Method := fun requestPromise options =>
  let baseUrl := options !!! "baseUrl" in
  let queueId := options !!! "queueId" in
  let token := options !!! "token" in
  checkParamOrThrow baseUrl "baseUrl" (Required KString) ;;
  checkParamOrThrow queueId "queueId" (Required KString) ;;
  checkParamOrThrow token "token" (Maybe KString) ;;
  let query : Obj := ∅ in
  let query := if truthy token then <["token" := token]> query else query in
  Ok (catch_ (then_ (then_ (requestPromise {[
        "url" := JStr (toStr baseUrl +:+ BASE_PATH +:+ "/" +:+ toStr queueId);
        "json" := JBool true;
        "method" := JStr "GET";
        "qs" := JObj query ]})
      pluckData) parseDateFields) catchNotFoundOrThrow).

Definition deleteQueue : Method := fun requestPromise options =>
  let baseUrl := options !!! "baseUrl" in
  let queueId := options !!! "queueId" in
  let token := options !!! "token" in
  checkParamOrThrow baseUrl "baseUrl" (Required KString) ;;
  checkParamOrThrow queueId "queueId" (Required KString) ;;
  checkParamOrThrow token "token" (Required KString) ;;
  Ok (requestPromise {[
        "url" := JStr (toStr baseUrl +:+ BASE_PATH +:+ "/" +:+ toStr queueId);
        "json" := JBool true;
        "method" := JStr "DELETE";
        "qs" := JObj {[ "token" := token ]} ]}).

Definition addRequest : Method := fun requestPromise options =>
  let baseUrl := options !!! "baseUrl" in
  let queueId := options !!! "queueId" in
  let request := options !!! "request" in
  let forefront := orDefault (options !!! "forefront") (JBool false) in
  let token := options !!! "token" in
  checkParamOrThrow baseUrl "baseUrl" (Required KString) ;;
  checkParamOrThrow queueId "queueId" (Required KString) ;;
  checkParamOrThrow request "request" (Required KObject) ;;
  checkParamOrThrow forefront "forefront" (Required KBoolean) ;;
  checkParamOrThrow token "token" (Required KString) ;;
  Ok (then_ (then_ (requestPromise {[
        "url" := JStr (toStr baseUrl +:+ BASE_PATH +:+ "/" +:+ toStr queueId +:+ "/requests");
        "json" := JBool true;
        "method" := JStr "POST";
        "body" := request;
        "qs" := JObj {[ "forefront" := forefront; "token" := token ]};
        "expBackOffMaxRepeats" := JNum REQUEST_ENDPOINTS_EXP_BACKOFF_MAX_REPEATS ]})
      pluckData) parseDateFields).

Definition getRequest : Method := fun requestPromise options =>
  let baseUrl := options !!! "baseUrl" in
  let queueId := options !!! "queueId" in
  let requestId := options !!! "requestId" in
  let token := options !!! "token" in
  checkParamOrThrow baseUrl "baseUrl" (Required KString) ;;
  checkParamOrThrow queueId "queueId" (Required KString) ;;
  checkParamOrThrow requestId "requestId" (Required KString) ;;
  checkParamOrThrow token "token" (Maybe KString) ;;
  let query : Obj := ∅ in
  let query := if truthy token then <["token" := token]> query else query in
  Ok (catch_ (then_ (then_ (requestPromise {[
        "url" := JStr (toStr baseUrl +:+ BASE_PATH +:+ "/" +:+ toStr queueId
                       +:+ "/requests/" +:+ toStr requestId);
        "json" := JBool true;
        "method" := JStr "GET";
        "qs" := JObj query;
        "expBackOffMaxRepeats" := JNum REQUEST_ENDPOINTS_EXP_BACKOFF_MAX_REPEATS ]})
      pluckData) parseDateFields) catchNotFoundOrThrow).

Definition deleteRequest : Method := fun requestPromise options =>
  let baseUrl := options !!! "baseUrl" in
  let queueId := options !!! "queueId" in
  let requestId := options !!! "requestId" in
  let token := options !!! "token" in
  checkParamOrThrow baseUrl "baseUrl" (Required KString) ;;
  checkParamOrThrow queueId "queueId" (Required KString) ;;
  checkParamOrThrow requestId "requestId" (Required KString) ;;
  checkParamOrThrow token "token" (Required KString) ;;
  Ok (requestPromise {[
        "url" := JStr (toStr baseUrl +:+ BASE_PATH +:+ "/" +:+ toStr queueId
                       +:+ "/requests/" +:+ toStr requestId);
        "json" := JBool true;
        "method" := JStr "DELETE";
        "qs" := JObj {[ "token" := token ]};
        "expBackOffMaxRepeats" := JNum REQUEST_ENDPOINTS_EXP_BACKOFF_MAX_REPEATS ]}).

Definition updateRequest : Method := fun requestPromise options =>
  let baseUrl := options !!! "baseUrl" in
  let queueId := options !!! "queueId" in
  let requestId := options !!! "requestId" in
  let request := options !!! "request" in
  let forefront := orDefault (options !!! "forefront") (JBool false) in
  let token := options !!! "token" in
  checkParamOrThrow request "request" (Required KObject) ;;
  safeRequestId ← (if truthy requestId then Ok requestId else getProp request "id");
  checkParamOrThrow baseUrl "baseUrl" (Required KString) ;;
  checkParamOrThrow queueId "queueId" (Required KString) ;;
  checkParamOrThrow safeRequestId "requestId" (Required KString) ;;
  checkParamOrThrow forefront "forefront" (Required KBoolean) ;;
  checkParamOrThrow token "token" (Required KString) ;;
  Ok (then_ (then_ (requestPromise {[
        "url" := JStr (toStr baseUrl +:+ BASE_PATH +:+ "/" +:+ toStr queueId
                       +:+ "/requests/" +:+ toStr safeRequestId);
        "json" := JBool true;
        "method" := JStr "PUT";
        "body" := request;
        "qs" := JObj {[ "forefront" := forefront; "token" := token ]};
        "expBackOffMaxRepeats" := JNum REQUEST_ENDPOINTS_EXP_BACKOFF_MAX_REPEATS ]})
      pluckData) parseDateFields).

Definition getHead : Method := fun requestPromise options =>
  let baseUrl := options !!! "baseUrl" in
  let queueId := options !!! "queueId" in
  let limit := options !!! "limit" in
  let token := options !!! "token" in
  checkParamOrThrow baseUrl "baseUrl" (Required KString) ;;
  checkParamOrThrow queueId "queueId" (Required KString) ;;
  checkParamOrThrow limit "limit" (Required KNumber) ;;
  checkParamOrThrow token "token" (Maybe KString) ;;
  let query : Obj := ∅ in
  let query := if truthy limit then <["limit" := limit]> query else query in
  let query := if truthy token then <["token" := token]> query else query in
  Ok (then_ (then_ (requestPromise {[
        "url" := JStr (toStr baseUrl +:+ BASE_PATH +:+ "/" +:+ toStr queueId +:+ "/head");
        "json" := JBool true;
        "method" := JStr "GET";
        "qs" := JObj query;
        "expBackOffMaxRepeats" := JNum REQUEST_ENDPOINTS_EXP_BACKOFF_MAX_REPEATS ]})
      pluckData) parseDateFields).

End Methods.
End RequestQueues.

(** ** Acts method group *)

Module Acts.
Section Methods.
Context `{Runtime}.

Definition BASE_PATH : string := "/v2/acts".

Definition listActs : Method := fun requestPromise options =>
  let baseUrl := options !!! "baseUrl" in
  let token := options !!! "token" in
  let offset := options !!! "offset" in
  let limit := options !!! "limit" in
  checkParamOrThrow baseUrl "baseUrl" (Required KString) ;;
  checkParamOrThrow token "token" (Required KString) ;;
  checkParamOrThrow limit "limit" (Maybe KNumber) ;;
  checkParamOrThrow offset "offset" (Maybe KNumber) ;;
  let query : Obj := {[ "token" := token ]} in
  let query := if truthy limit then <["limit" := limit]> query else query in
  let query := if truthy offset then <["offset" := offset]> query else query in
  Ok (then_ (requestPromise {[
        "url" := JStr (toStr baseUrl +:+ BASE_PATH);
        "json" := JBool true;
        "method" := JStr "GET";
        "qs" := JObj query ]})
      pluckData).

Definition createAct : Method := fun requestPromise options =>
  let baseUrl := options !!! "baseUrl" in
  let token := options !!! "token" in
  let act := options !!! "act" in
  checkParamOrThrow baseUrl "baseUrl" (Required KString) ;;
  checkParamOrThrow token "token" (Required KString) ;;
  checkParamOrThrow act "act" (Required KObject) ;;
  Ok (then_ (requestPromise {[
        "url" := JStr (toStr baseUrl +:+ BASE_PATH);
        "json" := JBool true;
        "method" := JStr "POST";
        "qs" := JObj {[ "token" := token ]};
        "body" := act ]})
      pluckData).

Definition updateAct : Method := fun requestPromise options =>
  let baseUrl := options !!! "baseUrl" in
  let token := options !!! "token" in
  let actId := options !!! "actId" in
  let act := options !!! "act" in
  safeActId ← (if negb (truthy actId)
               then act_id ← getProp act "id";
                    if truthy act_id then getProp act "id" else Ok actId
               else Ok actId);
  checkParamOrThrow baseUrl "baseUrl" (Required KString) ;;
  checkParamOrThrow token "token" (Required KString) ;;
  checkParamOrThrow safeActId "actId" (Required KString) ;;
  checkParamOrThrow act "act" (Required KObject) ;;
  Ok (then_ (requestPromise {[
        "url" := JStr (toStr baseUrl +:+ BASE_PATH +:+ "/" +:+ toStr safeActId);
        "json" := JBool true;
        "method" := JStr "PUT";
        "qs" := JObj {[ "token" := token ]};
        "body" := omit act "id" ]})
      pluckData).

Definition deleteAct : Method := fun requestPromise options =>
  let baseUrl := options !!! "baseUrl" in
  let token := options !!! "token" in
  let actId := options !!! "actId" in
  checkParamOrThrow baseUrl "baseUrl" (Required KString) ;;
  checkParamOrThrow actId "actId" (Required KString) ;;
  Ok (requestPromise {[
        "url" := JStr (toStr baseUrl +:+ BASE_PATH +:+ "/" +:+ toStr actId);
        "json" := JBool true;
        "method" := JStr "DELETE";
        "qs" := JObj {[ "token" := token ]} ]}).

Definition getAct : Method := fun requestPromise options =>
  let baseUrl := options !!! "baseUrl" in
  let token := options !!! "token" in
  let actId := options !!! "actId" in
  checkParamOrThrow baseUrl "baseUrl" (Required KString) ;;
  checkParamOrThrow actId "actId" (Required KString) ;;
  Ok (catch_ (then_ (requestPromise {[
        "url" := JStr (toStr baseUrl +:+ BASE_PATH +:+ "/" +:+ toStr actId);
        "json" := JBool true;
        "method" := JStr "GET";
        "qs" := JObj {[ "token" := token ]} ]})
      pluckData) catchNotFoundOrThrow).

Definition listRuns : Method := fun requestPromise options =>
  let baseUrl := options !!! "baseUrl" in
  let token := options !!! "token" in
  let actId := options !!! "actId" in
  let offset := options !!! "offset" in
  let limit := options !!! "limit" in
  checkParamOrThrow baseUrl "baseUrl" (Required KString) ;;
  checkParamOrThrow actId "actId" (Required KString) ;;
  checkParamOrThrow token "token" (Required KString) ;;
  checkParamOrThrow limit "limit" (Maybe KNumber) ;;
  checkParamOrThrow offset "offset" (Maybe KNumber) ;;
  let query : Obj := {[ "token" := token ]} in
  let query := if truthy limit then <["limit" := limit]> query else query in
  let query := if truthy offset then <["offset" := offset]> query else query in
  Ok (then_ (requestPromise {[
        "url" := JStr (toStr baseUrl +:+ BASE_PATH +:+ "/" +:+ toStr actId +:+ "/runs");
        "json" := JBool true;
        "method" := JStr "GET";
        "qs" := JObj query ]})
      pluckData).

(* TODO: Ensure that body is null or string or buffer *)
Definition runAct : Method := fun requestPromise options =>
  let baseUrl := options !!! "baseUrl" in
  let token := options !!! "token" in
  let actId := options !!! "actId" in
  let contentType := options !!! "contentType" in
  let body := options !!! "body" in
  let useRawBody := options !!! "useRawBody" in
  checkParamOrThrow baseUrl "baseUrl" (Required KString) ;;
  checkParamOrThrow token "token" (Required KString) ;;
  checkParamOrThrow actId "actId" (Required KString) ;;
  checkParamOrThrow contentType "contentType" (Maybe KString) ;;
  checkParamOrThrow useRawBody "useRawBody" (Maybe KBoolean) ;;
  let encodedBody := if truthy useRawBody then body else encodeBody body contentType in
  Ok (then_ (then_try (requestPromise {[
        "url" := JStr (toStr baseUrl +:+ BASE_PATH +:+ "/" +:+ toStr actId +:+ "/runs");
        "method" := JStr "POST";
        "qs" := JObj {[ "token" := token ]};
        "headers" := JObj {[ "Content-Type" := contentType ]};
        "body" := encodedBody ]})
      (fun response => JSON_parse response))
      pluckData).

Definition getRun : Method := fun requestPromise options =>
  let baseUrl := options !!! "baseUrl" in
  let token := options !!! "token" in
  let actId := options !!! "actId" in
  let runId := options !!! "runId" in
  checkParamOrThrow baseUrl "baseUrl" (Required KString) ;;
  checkParamOrThrow actId "actId" (Required KString) ;;
  checkParamOrThrow runId "runId" (Required KString) ;;
  Ok (catch_ (then_ (requestPromise {[
        "url" := JStr (toStr baseUrl +:+ BASE_PATH +:+ "/" +:+ toStr actId
                       +:+ "/runs/" +:+ toStr runId);
        "json" := JBool true;
        "method" := JStr "GET";
        "qs" := JObj {[ "token" := token ]} ]})
      pluckData) catchNotFoundOrThrow).

Definition listBuilds : Method := fun requestPromise options =>
  let baseUrl := options !!! "baseUrl" in
  let token := options !!! "token" in
  let actId := options !!! "actId" in
  let offset := options !!! "offset" in
  let limit := options !!! "limit" in
  checkParamOrThrow baseUrl "baseUrl" (Required KString) ;;
  checkParamOrThrow actId "actId" (Required KString) ;;
  checkParamOrThrow token "token" (Required KString) ;;
  checkParamOrThrow limit "limit" (Maybe KNumber) ;;
  checkParamOrThrow offset "offset" (Maybe KNumber) ;;
  let query : Obj := {[ "token" := token ]} in
  let query := if truthy limit then <["limit" := limit]> query else query in
  let query := if truthy offset then <["offset" := offset]> query else query in
  Ok (then_ (requestPromise {[
        "url" := JStr (toStr baseUrl +:+ BASE_PATH +:+ "/" +:+ toStr actId +:+ "/builds");
        "json" := JBool true;
        "method" := JStr "GET";
        "qs" := JObj query ]})
      pluckData).

Definition buildAct : Method := fun requestPromise options =>
  let baseUrl := options !!! "baseUrl" in
  let token := options !!! "token" in
  let actId := options !!! "actId" in
  checkParamOrThrow baseUrl "baseUrl" (Required KString) ;;
  checkParamOrThrow token "token" (Required KString) ;;
  checkParamOrThrow actId "actId" (Required KString) ;;
  Ok (then_ (requestPromise {[
        "url" := JStr (toStr baseUrl +:+ BASE_PATH +:+ "/" +:+ toStr actId +:+ "/builds");
        "json" := JBool true;
        "method" := JStr "POST";
        "qs" := JObj {[ "token" := token ]} ]})
      pluckData).

Definition getBuild : Method := fun requestPromise options =>
  let baseUrl := options !!! "baseUrl" in
  let token := options !!! "token" in
  let actId := options !!! "actId" in
  let buildId := options !!! "buildId" in
  checkParamOrThrow baseUrl "baseUrl" (Required KString) ;;
  checkParamOrThrow actId "actId" (Required KString) ;;
  checkParamOrThrow buildId "buildId" (Required KString) ;;
  Ok (catch_ (then_ (requestPromise {[
        "url" := JStr (toStr baseUrl +:+ BASE_PATH +:+ "/" +:+ toStr actId
                       +:+ "/builds/" +:+ toStr buildId);
        "json" := JBool true;
        "method" := JStr "GET";
        "qs" := JObj {[ "token" := token ]} ]})
      pluckData) catchNotFoundOrThrow).

End Methods.
End Acts.

(** ** Logs method group *)

Module Logs.

Definition BASE_PATH : string := "/v2/logs".

Definition getLog : Method := fun requestPromise options =>
  let baseUrl := options !!! "baseUrl" in
  let logId := options !!! "logId" in
  checkParamOrThrow logId "logId" (Required KString) ;;
  Ok (requestPromise {[
        "url" := JStr (toStr baseUrl +:+ BASE_PATH +:+ "/" +:+ toStr logId);
        "method" := JStr "GET";
        "gzip" := JBool true ]}).

End Logs.

(** ** Crawlers method group *)

Module Crawlers.

Definition BASE_PATH : string := "/v1".

Definition wrapArray (response : JsVal) : Outcome JsVal :=
  items ← getProp response "body";
  headers ← getProp response "headers";
  total ← getProp headers "x-apifier-pagination-total";
  headers ← getProp response "headers";
  offset ← getProp headers "x-apifier-pagination-offset";
  headers ← getProp response "headers";
  count ← getProp headers "x-apifier-pagination-count";
  headers ← getProp response "headers";
  limit ← getProp headers "x-apifier-pagination-limit";
  Ok (JObj {[
        "items" := items;
        "total" := total;
        "offset" := offset;
        "count" := count;
        "limit" := limit ]}).

Definition listCrawlers : Method := fun requestPromise options =>
  let userId := options !!! "userId" in
  let token := options !!! "token" in
  checkParamOrThrow userId "userId" (Required KString) ;;
  checkParamOrThrow token "token" (Required KString) ;;
  let queryString := pick options ["token"; "offset"; "limit"; "desc"] in
  Ok (then_try (requestPromise {[
        "url" := JStr (toStr (options !!! "baseUrl") +:+ BASE_PATH +:+ "/" +:+ toStr userId
                       +:+ "/crawlers");
        "json" := JBool true;
        "method" := JStr "GET";
        "qs" := JObj queryString;
        "resolveWithResponse" := JBool true ]})
      wrapArray).

Definition getListOfExecutions : Method := fun requestPromise options =>
  let userId := options !!! "userId" in
  let crawlerId := options !!! "crawlerId" in
  let token := options !!! "token" in
  checkParamOrThrow userId "userId" (Required KString) ;;
  checkParamOrThrow crawlerId "crawlerId" (Required KString) ;;
  checkParamOrThrow token "token" (Required KString) ;;
  let queryString := pick options ["token"; "status"; "offset"; "limit"; "desc"] in
  Ok (then_try (requestPromise {[
        "url" := JStr (toStr (options !!! "baseUrl") +:+ BASE_PATH +:+ "/" +:+ toStr userId
                       +:+ "/crawlers/" +:+ toStr crawlerId +:+ "/execs");
        "json" := JBool true;
        "method" := JStr "GET";
        "qs" := JObj queryString;
        "resolveWithResponse" := JBool true ]})
      wrapArray).

Definition createCrawler : Method := fun requestPromise options =>
  let userId := options !!! "userId" in
  let token := options !!! "token" in
  let settings := options !!! "settings" in
  checkParamOrThrow userId "userId" (Required KString) ;;
  checkParamOrThrow token "token" (Required KString) ;;
  checkParamOrThrow settings "settings" (Required KObject) ;;
  customId ← getProp settings "customId";
  checkParamOrThrow customId "settings.customId" (Required KString) ;;
  let requestParams : Obj := {[
        "json" := JBool true;
        "method" := JStr "POST";
        "url" := JStr (toStr (options !!! "baseUrl") +:+ BASE_PATH +:+ "/" +:+ toStr userId
                       +:+ "/crawlers");
        "qs" := JObj {[ "token" := token ]};
        "body" := settings ]} in
  Ok (requestPromise requestParams).

Definition updateCrawler : Method := fun requestPromise options =>
  let userId := options !!! "userId" in
  let token := options !!! "token" in
  let settings := options !!! "settings" in
  let crawlerId := options !!! "crawlerId" in
  checkParamOrThrow userId "userId" (Required KString) ;;
  checkParamOrThrow token "token" (Required KString) ;;
  checkParamOrThrow crawlerId "crawlerId" (Required KString) ;;
  checkParamOrThrow settings "settings" (Required KObject) ;;
  let requestParams : Obj := {[
        "json" := JBool true;
        "method" := JStr "PUT";
        "url" := JStr (toStr (options !!! "baseUrl") +:+ BASE_PATH +:+ "/" +:+ toStr userId
                       +:+ "/crawlers/" +:+ toStr crawlerId);
        "qs" := JObj {[ "token" := token ]};
        "body" := settings ]} in
  Ok (requestPromise requestParams).

Definition getCrawlerSettings : Method := fun requestPromise options =>
  let userId := options !!! "userId" in
  let token := options !!! "token" in
  let crawlerId := options !!! "crawlerId" in
  checkParamOrThrow userId "userId" (Required KString) ;;
  checkParamOrThrow token "token" (Required KString) ;;
  checkParamOrThrow crawlerId "crawlerId" (Required KString) ;;
  let queryString := pick options ["token"; "nosecrets"] in
  Ok (catch_ (requestPromise {[
        "url" := JStr (toStr (options !!! "baseUrl") +:+ BASE_PATH +:+ "/" +:+ toStr userId
                       +:+ "/crawlers/" +:+ toStr crawlerId);
        "json" := JBool true;
        "method" := JStr "GET";
        "qs" := JObj queryString ]})
      catchNotFoundOrThrow).

Definition deleteCrawler : Method := fun requestPromise options =>
  let userId := options !!! "userId" in
  let token := options !!! "token" in
  let crawlerId := options !!! "crawlerId" in
  checkParamOrThrow userId "userId" (Required KString) ;;
  checkParamOrThrow token "token" (Required KString) ;;
  checkParamOrThrow crawlerId "crawlerId" (Required KString) ;;
  Ok (requestPromise {[
        "url" := JStr (toStr (options !!! "baseUrl") +:+ BASE_PATH +:+ "/" +:+ toStr userId
                       +:+ "/crawlers/" +:+ toStr crawlerId);
        "json" := JBool true;
        "method" := JStr "DELETE";
        "qs" := JObj {[ "token" := token ]} ]}).

Definition startExecution : Method := fun requestPromise options =>
  let crawlerId := options !!! "crawlerId" in
  let userId := options !!! "userId" in
  let token := options !!! "token" in
  let settings := options !!! "settings" in
  checkParamOrThrow userId "userId" (Required KString) ;;
  checkParamOrThrow token "token" (Required KString) ;;
  checkParamOrThrow crawlerId "crawlerId" (Required KString) ;;
  checkParamOrThrow settings "settings" (Maybe KObject) ;;
  let queryString := pick options ["token"; "tag"; "wait"] in
  let requestParams : Obj := {[
        "json" := JBool true;
        "method" := JStr "POST";
        "url" := JStr (toStr (options !!! "baseUrl") +:+ BASE_PATH +:+ "/" +:+ toStr userId
                       +:+ "/crawlers/" +:+ toStr crawlerId +:+ "/execute");
        "qs" := JObj queryString ]} in
  let requestParams := if negb (isEmpty settings)
                       then <["body" := settings]> requestParams
                       else requestParams in
  Ok (requestPromise requestParams).

Definition stopExecution : Method := fun requestPromise options =>
  let executionId := options !!! "executionId" in
  let token := options !!! "token" in
  checkParamOrThrow executionId "executionId" (Required KString) ;;
  checkParamOrThrow token "token" (Required KString) ;;
  let requestParams : Obj := {[
        "json" := JBool true;
        "method" := JStr "POST";
        "url" := JStr (toStr (options !!! "baseUrl") +:+ BASE_PATH +:+ "/execs/"
                       +:+ toStr executionId +:+ "/stop");
        "qs" := JObj {[ "token" := token ]} ]} in
  Ok (requestPromise requestParams).

Definition getExecutionDetails : Method := fun requestPromise options =>
  let executionId := options !!! "executionId" in
  checkParamOrThrow executionId "executionId" (Required KString) ;;
  Ok (catch_ (requestPromise {[
        "url" := JStr (toStr (options !!! "baseUrl") +:+ BASE_PATH +:+ "/execs/"
                       +:+ toStr executionId);
        "json" := JBool true;
        "method" := JStr "GET" ]})
      catchNotFoundOrThrow).

Definition getLastExecution : Method := fun requestPromise options =>
  let userId := options !!! "userId" in
  let crawlerId := options !!! "crawlerId" in
  let token := options !!! "token" in
  checkParamOrThrow userId "userId" (Required KString) ;;
  checkParamOrThrow crawlerId "crawlerId" (Required KString) ;;
  checkParamOrThrow token "token" (Required KString) ;;
  let queryString := pick options ["token"; "status"] in
  Ok (requestPromise {[
        "url" := JStr (toStr (options !!! "baseUrl") +:+ BASE_PATH +:+ "/" +:+ toStr userId
                       +:+ "/crawlers/" +:+ toStr crawlerId +:+ "/lastExec");
        "json" := JBool true;
        "method" := JStr "GET";
        "qs" := JObj queryString ]}).

Definition getExecutionResults : Method := fun requestPromise options =>
  let executionId := options !!! "executionId" in
  checkParamOrThrow executionId "executionId" (Required KString) ;;
  let requestParams : Obj := {[
        "url" := JStr (toStr (options !!! "baseUrl") +:+ BASE_PATH +:+ "/execs/"
                       +:+ toStr executionId +:+ "/results");
        "json" := JBool true;
        "method" := JStr "GET";
        "resolveWithResponse" := JBool true ]} in
  let queryString := pick options
        ["format"; "simplified"; "offset"; "limit"; "desc"; "attachment"; "delimiter"; "bom"] in
  let requestParams := if negb (isEmpty (JObj queryString))
                       then <["qs" := JObj queryString]> requestParams
                       else requestParams in
  Ok (then_try (requestPromise requestParams) wrapArray).

Definition getLastExecutionResults : Method := fun requestPromise options =>
  let userId := options !!! "userId" in
  let token := options !!! "token" in
  let crawlerId := options !!! "crawlerId" in
  checkParamOrThrow userId "userId" (Required KString) ;;
  checkParamOrThrow token "token" (Required KString) ;;
  checkParamOrThrow crawlerId "crawlerId" (Required KString) ;;
  let requestParams : Obj := {[
        "url" := JStr (toStr (options !!! "baseUrl") +:+ BASE_PATH +:+ "/" +:+ toStr userId
                       +:+ "/crawlers/" +:+ toStr crawlerId +:+ "/lastExec/results");
        "json" := JBool true;
        "method" := JStr "GET";
        "resolveWithResponse" := JBool true ]} in
  let queryString := pick options
        ["status"; "token"; "format"; "simplified"; "offset"; "limit"; "desc"; "attachment";
         "delimiter"; "bom"] in
  let requestParams := if negb (isEmpty (JObj queryString))
                       then <["qs" := JObj queryString]> requestParams
                       else requestParams in
  Ok (then_try (requestPromise requestParams) wrapArray).

Definition _resurrectExecution : Method := fun requestPromise options =>
  let baseUrl := options !!! "baseUrl" in
  let executionId := options !!! "executionId" in
  Ok (requestPromise {[
        "url" := JStr (toStr baseUrl +:+ BASE_PATH +:+ "/execs/" +:+ toStr executionId
                       +:+ "/resurrect");
        "json" := JBool true;
        "method" := JStr "POST" ]}).

Definition _enqueuePage : Method := fun requestPromise options =>
  let baseUrl := options !!! "baseUrl" in
  let executionId := options !!! "executionId" in
  let urls := options !!! "urls" in
  Ok (requestPromise {[
        "url" := JStr (toStr baseUrl +:+ BASE_PATH +:+ "/execs/" +:+ toStr executionId
                       +:+ "/enqueue");
        "json" := JBool true;
        "method" := JStr "POST";
        "body" := urls ]}).

End Crawlers.

(** ** The [ow] argument validator, as far as the resource clients use it *)

Module Ow.

Definition Predicate : Type := JsVal -> bool.

Definition boolean : Predicate := fun v => match v with JBool _ => true | _ => false end.
Definition number : Predicate := fun v => match v with JNum _ => true | _ => false end.
Definition string : Predicate := fun v => match v with JStr _ => true | _ => false end.
Definition object : Predicate :=
  fun v => match v with JObj _ | JArr _ | JBuffer _ | JFunc _ => true | _ => false end.
Definition optional (p : Predicate) : Predicate :=
  fun v => match v with JUndefined => true | _ => p v end.
Definition array_ofType (p : Predicate) : Predicate :=
  fun v => match v with JArr items => forallb p items | _ => false end.
Definition any (ps : list Predicate) : Predicate :=
  fun v => existsb (fun p => p v) ps.

(** [ow.object.exactShape(shape)]: every property of the shape is satisfied
    and the object has no property outside the shape. *)
Definition object_exactShape (shape : list (String.string * Predicate)) : Predicate :=
  fun v =>
    match v with
    | JObj o =>
        forallb (fun kp => kp.2 (o !!! kp.1)) shape
        && forallb (fun kv => bool_decide (kv.1 ∈ shape.*1)) (map_to_list o)
    | _ => false
    end.

(** [ow(value, predicate)] throws an [ArgumentError] when the predicate fails. *)
Definition ow (value : JsVal) (predicate : Predicate) : Outcome unit :=
  if predicate value then Ok tt
  else Throw (ArgumentError "Expected argument to match the predicate").

End Ow.

(** ** The dataset resource client *)

Module DatasetClient.
Section Client.
Context `{Runtime}.

(** What the class inherits from [ResourceClient] and reaches through
    [this]: the HTTP client, and the builders of the URL and of the query
    parameters. *)
Variable httpClient_call : Obj -> Promise JsVal.
Variable _url : string -> JsVal.
Variable _params : JsVal -> JsVal.

Definition _createPaginationList (response : JsVal) : Outcome JsVal :=
  items ← getProp response "data";
  headers ← getProp response "headers";
  total ← getProp headers "x-apify-pagination-total";
  headers ← getProp response "headers";
  offset ← getProp headers "x-apify-pagination-offset";
  data ← getProp response "data";
  (* because x-apify-pagination-count returns invalid values when
     hidden/empty items are skipped *)
  count ← getProp data "length";
  headers ← getProp response "headers";
  (* API returns 999999999999 when no limit is used *)
  limit ← getProp headers "x-apify-pagination-limit";
  Ok (JObj {[
        "items" := items;
        "total" := Number total;
        "offset" := Number offset;
        "count" := count;
        "limit" := Number limit ]}).

Definition listItems (options : JsVal) : Outcome (Promise JsVal) :=
  async (
    let options := orDefault options (JObj ∅) in
    Ow.ow options (Ow.object_exactShape [
      ("clean", Ow.optional Ow.boolean);
      ("desc", Ow.optional Ow.boolean);
      ("fields", Ow.optional (Ow.array_ofType Ow.string));
      ("omit", Ow.optional (Ow.array_ofType Ow.string));
      ("limit", Ow.optional Ow.number);
      ("offset", Ow.optional Ow.number);
      ("skipEmpty", Ow.optional Ow.boolean);
      ("skipHidden", Ow.optional Ow.boolean);
      ("unwind", Ow.optional Ow.string) ]) ;;
    Ok (then_try (httpClient_call {[
          "url" := _url "items";
          "method" := JStr "GET";
          "params" := _params options ]})
        _createPaginationList)).

Definition pushItems (items : JsVal) : Outcome (Promise JsVal) :=
  async (
    Ow.ow items (Ow.any [
      Ow.object;
      Ow.string;
      Ow.array_ofType (Ow.any [Ow.object; Ow.string]) ]) ;;
    Ok (then_ (httpClient_call {[
          "url" := _url "items";
          "method" := JStr "POST";
          "data" := items;
          "params" := _params JUndefined ]})
        (fun _ => JUndefined))).

End Client.
End DatasetClient.

(** ** The collection clients *)

(** Each [list] validates its options and hands them to the [list] of
    [ResourceCollectionClient], which is reached through [this] or [super]. *)
Module BuildCollectionClient.
Section Client.
Variable _list : JsVal -> Outcome (Promise JsVal).

Definition list (options : JsVal) : Outcome (Promise JsVal) :=
  async (
    let options := orDefault options (JObj ∅) in
    Ow.ow options (Ow.object_exactShape [
      ("limit", Ow.optional Ow.number);
      ("offset", Ow.optional Ow.number);
      ("desc", Ow.optional Ow.boolean) ]) ;;
    _list options).

End Client.
End BuildCollectionClient.

Module TaskCollectionClient.
Section Client.
Variable super_list : JsVal -> Outcome (Promise JsVal).

Definition list (options : JsVal) : Outcome (Promise JsVal) :=
  async (
    let options := orDefault options (JObj ∅) in
    Ow.ow options (Ow.object_exactShape [
      ("limit", Ow.optional Ow.number);
      ("offset", Ow.optional Ow.number);
      ("desc", Ow.optional Ow.boolean) ]) ;;
    super_list options).

End Client.
End TaskCollectionClient.

Module ScheduleCollectionClient.
Section Client.
Variable super_list : JsVal -> Outcome (Promise JsVal).

Definition list (options : JsVal) : Outcome (Promise JsVal) :=
  async (
    let options := orDefault options (JObj ∅) in
    Ow.ow options (Ow.object_exactShape [
      ("limit", Ow.optional Ow.number);
      ("offset", Ow.optional Ow.number);
      ("desc", Ow.optional Ow.boolean) ]) ;;
    super_list options).

End Client.
End ScheduleCollectionClient.

Module DatasetCollectionClient.
Section Client.
Variable super_list : JsVal -> Outcome (Promise JsVal).

Definition list (options : JsVal) : Outcome (Promise JsVal) :=
  async (
    let options := orDefault options (JObj ∅) in
    Ow.ow options (Ow.object_exactShape [
      ("unnamed", Ow.optional Ow.boolean);
      ("limit", Ow.optional Ow.number);
      ("offset", Ow.optional Ow.number);
      ("desc", Ow.optional Ow.boolean) ]) ;;
    super_list options).

End Client.
End DatasetCollectionClient.

(** ** The client constructor and its method decorator *)

Module ApifyClient.

(** Objects that outlive a call live in a heap; the instance options are one
    of them and [setOptions] writes to it in place. *)
Abbreviation Loc := nat.
Abbreviation Heap := (gmap nat (gmap string JsVal)).

Definition alloc (o : Obj) (h : Heap) : Loc * Heap :=
  let l := fresh (dom h) in (l, <[l := o]> h).

Definition getDefaultOptions (APIFY_ACT_RUN_ID : JsVal) : Obj :=
  {[ "protocol" := JStr "https";
     "host" := JStr "api.apifier.com";
     "basePath" := JStr "";
     (* When used inside of Act we set default storeId to act's run ID. *)
     "storeId" := APIFY_ACT_RUN_ID ]}.

Record Client := {
  instanceOpts : Loc;
  preconfiguredRequest : Obj -> Promise JsVal;
}.

(** [new ApifyClient(options)].  [options] is the object the caller passes,
    which the constructor writes to, or nothing, in which case the default
    parameter [{}] is a new object; [nativePromise] tells whether the
    platform has a [Promise] of its own. *)
Definition new (nativePromise : bool) (APIFY_ACT_RUN_ID : JsVal) (t : Transport)
    (options : option Loc) (h : Heap) : Outcome Client * Heap :=
  let '(options, h) := match options with
                       | Some options => (options, h)
                       | None => alloc ∅ h
                       end in
  (* This is used only internally for unit testing of ApifyClient. *)
  let h := alter (delete "_overrideMethodGroups") options h in
  let opts := (h !!! options) ∪ getDefaultOptions APIFY_ACT_RUN_ID in
  let '(l, h) := alloc opts h in
  (* Choose Promises dependency and throw if no one is set. *)
  if truthy (opts !!! "promise")
  then (Ok {| instanceOpts := l; preconfiguredRequest := requestPromise t |}, h)
  else if nativePromise
  then (Ok {| instanceOpts := l; preconfiguredRequest := requestPromise t |},
        <[l := <["promise" := JFunc "Promise"]> opts]> h)
  else (Throw (Error ("The " +:+ dq +:+ "options.promise" +:+ dq
                      +:+ " parameter is required when native Promise is not available.")), h).

(** [['protocol', 'host', 'promise'].forEach((key) => { if (!instanceOpts[key])
    throw new Error(...) })] *)
Fixpoint checkRequired (instanceOpts : Obj) (keys : list string) : Outcome unit :=
  match keys with
  | [] => Ok tt
  | key :: rest =>
      if negb (truthy (instanceOpts !!! key))
      then Throw (Error (dq +:+ "options." +:+ key +:+ dq +:+ " parameter is required"))
      else checkRequired instanceOpts rest
  end.

(** A Node-style callback [(error, result) => ...]. *)
Definition Callback : Type := option JsError -> JsVal -> Outcome JsVal.

(** What a decorated method hands back: the promise, or nothing once the
    callback is attached to it. *)
Inductive Returned : Type :=
| ReturnedPromise (promise : Promise JsVal)
| ReturnedUndefined (attached : Promise JsVal).

(** [mergedOpts.protocol + '://' + mergedOpts.host
     + (mergedOpts.port ? `:${mergedOpts.port}` : '') + mergedOpts.basePath] *)
Definition baseUrlOf (mergedOpts : Obj) : string :=
  toStr (mergedOpts !!! "protocol")
  +:+ "://"
  +:+ toStr (mergedOpts !!! "host")
  +:+ (if truthy (mergedOpts !!! "port") then ":" +:+ toStr (mergedOpts !!! "port") else "")
  +:+ toStr (mergedOpts !!! "basePath").

(** The decorated method.  Besides what it returns, the result names the
    location of the [mergedOpts] object the call was built with. *)
Definition methodDecorator (this : Client) (method : Method)
    (callOpts : Obj) (callback : option Callback) (h : Heap)
    : Outcome (Loc * Returned) * Heap :=
  let instanceOpts : Obj := h !!! instanceOpts this in
  let '(mergedOpts, h) := alloc (callOpts ∪ instanceOpts) h in
  (* Check that all required parameters are set. *)
  match checkRequired instanceOpts ["protocol"; "host"; "promise"] with
  | Throw e => (Throw e, h)
  | Ok _ =>
      let h := alter (fun m : Obj => <["baseUrl" := JStr (baseUrlOf m)]> m) mergedOpts h in
      match method (preconfiguredRequest this) (h !!! mergedOpts) with
      | Throw e => (Throw e, h)
      | Ok promise =>
          match callback with
          | None => (Ok (mergedOpts, ReturnedPromise promise), h)
          | Some callback =>
              (Ok (mergedOpts,
                   ReturnedUndefined
                     (then2 promise
                        (fun result => callback None result)
                        (fun error => callback (Some error) JUndefined))), h)
          end
      end
  end.

(** [setOptions(newOptions)] *)
Definition setOptions (this : Client) (newOptions : Obj) (h : Heap) : Heap :=
  <[instanceOpts this := newOptions ∪ (h !!! instanceOpts this)]> h.

End ApifyClient.

(** ** Vocabulary of the properties: concrete platforms, transports and
    calls, and the predicates the statements below are written with *)

Section Vocabulary.
Context `{Runtime}.
Implicit Types (t : Transport) (options : Obj).

(** A platform whose gzip output is as long as its input. *)
Definition plainRuntime : Runtime := {|
  JSON_stringify := fun v => JStr (toStr v);
  JSON_parse := fun v => Ok v;
  gzip := fun v => Ok (list_byte_of_string (toStr v));
  parseDateFields := fun v => v;
  stringifyWebhooksToBase64 := fun v => v;
  Number := fun v => v |}.

(** A platform whose gzip output is always [output]. *)
Definition fixedGzipRuntime (output : list Byte.byte) : Runtime := {|
  JSON_stringify := fun v => JStr (toStr v);
  JSON_parse := fun v => Ok v;
  gzip := fun _ => Ok output;
  parseDateFields := fun v => v;
  stringifyWebhooksToBase64 := fun v => v;
  Number := fun v => v |}.

(** A compressed body of 300 KiB. *)
Definition compressed300KiB : list Byte.byte := repeat Byte.x00 307200.

(** A server that answers every request with the same response. *)
Definition respondWith (response : JsVal) : Transport := fun _ _ => Fulfilled response.

(** A server that fails every request with the same HTTP status. *)
Definition failWith (statusCode : Z) : Transport :=
  fun _ _ => Rejected (RequestFailedError statusCode).

(** Whether a call got past its synchronous part. *)
Definition returnsPromise {A} (call : Outcome A) : bool :=
  match call with Ok _ => true | Throw _ => false end.

(** What the caller observes of a call whose promise settles as [settled]. *)
Definition observes (call : Outcome (Promise JsVal)) (settled : Observed) : Prop :=
  observed call = match call with
                  | Throw e => ThrewSynchronously e
                  | Ok _ => settled
                  end.


(** The methods that work on the requests of a queue. *)
Definition requestEndpoints : list Method :=
  [ RequestQueues.addRequest; RequestQueues.getRequest; RequestQueues.deleteRequest;
    RequestQueues.updateRequest; RequestQueues.getHead ].

(** The methods that work on a queue as a whole. *)
Definition queueEndpoints : list Method :=
  [ RequestQueues.getOrCreateQueue; RequestQueues.listQueues; RequestQueues.getQueue;
    RequestQueues.deleteQueue ].

(** Methods of the other groups that issue one request. *)
Definition otherEndpoints : list Method :=
  [ Tasks.listTasks; Tasks.createTask; Tasks.updateTask; Tasks.deleteTask; Tasks.getTask;
    Tasks.listRuns; Tasks.runTask; Tasks.listWebhooks; Tasks.getInput; Tasks.updateInput;
    KeyValueStores.listStores; KeyValueStores.getStore; KeyValueStores.deleteStore;
    KeyValueStores.deleteRecord;
    Datasets.listDatasets; Datasets.getDataset; Datasets.deleteDataset ].

(** A call that issues exactly one request when it gets past its parameter
    checks, none when it throws, and whose request satisfies [P]. *)
Definition issuesOne (P : Obj -> Prop) (call : Outcome (Promise JsVal)) : Prop :=
  length (sent call) = (if returnsPromise call then 1 else 0)%nat /\ Forall P (sent call).

(** [result.count === result.items.length], for a call that produced a list. *)
Definition countIsItemsLength (result : Outcome JsVal) : Prop :=
  match result with
  | Ok (JObj list) => getProp (list !!! "items") "length" = Ok (list !!! "count")
  | Ok _ => False
  | Throw _ => True
  end.

(** A response of the crawler list endpoint whose count header disagrees with
    its body. *)
Definition crawlersResponse : JsVal :=
  JObj {[ "body" := JArr [];
          "headers" := JObj {[ "x-apifier-pagination-total" := JStr "0";
                               "x-apifier-pagination-offset" := JStr "0";
                               "x-apifier-pagination-count" := JStr "1";
                               "x-apifier-pagination-limit" := JStr "1000" ]} ]}.

Definition crawlersOptions : Obj :=
  {[ "baseUrl" := JStr "https://api.apifier.com";
     "userId" := JStr "RWnGtczasdwP63Mak";
     "token" := JStr "f5J7XsdaKDyRywwuGGo9" ]}.

(** The list of stores of the test suite: five are counted, two are listed. *)
Definition storesResponse : JsVal :=
  JObj {[ "data" := JObj {[ "limit" := JNum 5;
                            "offset" := JNum 3;
                            "count" := JNum 5;
                            "total" := JNum 10;
                            "items" := JArr [JStr "store1"; JStr "store2"] ]} ]}.

(** Lookups of a single resource that attach [catchNotFoundOrThrow]. *)
Definition lookups : list Method :=
  [ Datasets.getDataset; KeyValueStores.getStore; Tasks.getTask;
    RequestQueues.getQueue; RequestQueues.getRequest ].

(** Deletions of a single resource. *)
Definition deletions : list Method :=
  [ Datasets.deleteDataset; KeyValueStores.deleteStore; KeyValueStores.deleteRecord;
    Tasks.deleteTask; RequestQueues.deleteQueue; RequestQueues.deleteRequest ].

Definition missingDataset : Obj :=
  {[ "baseUrl" := JStr "https://api.apify.com"; "datasetId" := JStr "missing" ]}.

(** The content type and the encoded body of a [putRecord] call. *)
Definition contentTypeOf options : JsVal :=
  orDefault (options !!! "contentType") (JStr "text/plain").

Definition encodedBodyOf options : JsVal :=
  if truthy (options !!! "useRawBody") then options !!! "body"
  else encodeBody (options !!! "body") (contentTypeOf options).

(** The upload request of [putRecord] and its signed-URL negotiation. *)
Definition recordUpload options (gzipedBody : list Byte.byte) : Obj :=
  KeyValueStores.putRecord_requestOpts
    (options !!! "baseUrl") (options !!! "storeId") (options !!! "key")
    (contentTypeOf options) (JBuffer gzipedBody).

Definition recordNegotiation options : Obj :=
  KeyValueStores.putRecord_directUploadUrlOpts
    (options !!! "baseUrl") (options !!! "storeId") (options !!! "key")
    (contentTypeOf options).

(** [response.data.signedUrl] *)
Definition signedUrlOf (response : JsVal) : Outcome JsVal :=
  data ← getProp response "data"; getProp data "signedUrl".

(** The upload request of [putItems]. *)
Definition itemsUpload options (gzipedBody : list Byte.byte) : Obj :=
  {[ "url" := JStr (toStr (options !!! "baseUrl") +:+ Datasets.BASE_PATH +:+ "/"
                    +:+ toStr (options !!! "datasetId") +:+ "/items");
     "method" := JStr "POST";
     "body" := JBuffer gzipedBody;
     "json" := JBool false;
     "headers" := JObj {[ "Content-Type" := JStr "application/json; charset=utf-8";
                          "Content-Encoding" := JStr "gzip" ]} ]}.

(** The requests of a [putRecord] call that got past its parameter checks:
    below 256 KiB of compressed body the upload to the record endpoint alone;
    from 256 KiB on, one negotiation followed, if it yields a signed URL, by
    the upload to that URL. *)
Definition recordRequests t options : Trace :=
  match gzip (encodedBodyOf options) with
  | Throw _ => []
  | Ok gzipedBody =>
      if Z.of_nat (length gzipedBody) <? 1024 * 256
      then [recordUpload options gzipedBody]
      else recordNegotiation options ::
           match t [] (recordNegotiation options) with
           | Rejected _ => []
           | Fulfilled response =>
               match signedUrlOf response with
               | Throw _ => []
               | Ok signedUrl => [<["url" := signedUrl]> (recordUpload options gzipedBody)]
               end
           end
  end.

(** The requests of a [putItems] call that got past its parameter checks. *)
Definition itemsRequests options : Trace :=
  match gzip (JSON_stringify (options !!! "data")) with
  | Throw _ => []
  | Ok gzipedBody => [itemsUpload options gzipedBody]
  end.

(** 300 KiB of items, once compressed. *)
Definition largeItems : Obj :=
  {[ "baseUrl" := JStr "https://api.apify.com";
     "datasetId" := JStr "some-id";
     "data" := JArr [JObj {[ "someData" := JStr "someValue" ]}] ]}.

(** A request whose body is the gzip compression of [encoded] and that
    declares it, together with the content type [contentType]. *)
Definition gzippedUpload (encoded contentType : JsVal) (r : Obj) : Prop :=
  exists gzipedBody : list Byte.byte,
    gzip encoded = Ok gzipedBody
    /\ r !! "body" = Some (JBuffer gzipedBody)
    /\ r !! "headers" = Some (JObj {[ "Content-Type" := contentType;
                                        "Content-Encoding" := JStr "gzip" ]}).


Definition plainRecord : Obj :=
  {[ "baseUrl" := JStr "https://api.apify.com";
     "storeId" := JStr "some-id";
     "key" := JStr "foo";
     "body" := JStr "bar";
     "promise" := JFunc "Promise" ]}.

(** Every occurrence of [pattern] replaced. *)
Fixpoint replaceAll (pattern replacement : ascii) (str : string) : string :=
  match str with
  | EmptyString => EmptyString
  | String c rest =>
      String (if Ascii.eqb c pattern then replacement else c)
             (replaceAll pattern replacement rest)
  end.

Fixpoint occurrences (c : ascii) (str : string) : nat :=
  match str with
  | EmptyString => 0
  | String c' rest => (if Ascii.eqb c' c then 1 else 0) + occurrences c rest
  end.

Definition johnsQueue : Obj :=
  {[ "baseUrl" := JStr "https://api.apify.com";
     "queueId" := JStr "john/my-queue";
     "token" := JStr "f5J7XsdaKDyRywwuGGo9" ]}.

(** The methods of the tasks group that address one task, with what follows
    the task identifier in their path. *)
Definition taskMethods : list (Method * string) :=
  [ (Tasks.deleteTask, ""); (Tasks.getTask, ""); (Tasks.listRuns, "/runs");
    (Tasks.runTask, "/runs"); (Tasks.listWebhooks, "/webhooks");
    (Tasks.getInput, "/input"); (Tasks.updateInput, "/input") ].

(** The URL of a task with the given path segment. *)
Definition taskUrl (options : Obj) (segment suffix : string) : JsVal :=
  JStr (toStr (options !!! "baseUrl") +:+ Tasks.BASE_PATH +:+ "/" +:+ segment +:+ suffix).

(** The parameter checks of [runTask] that do not depend on [body]. *)
Definition runTaskChecks (options : Obj) : Outcome unit :=
  checkParamOrThrow (options !!! "baseUrl") "baseUrl" (Required KString) ;;
  checkParamOrThrow (options !!! "token") "token" (Required KString) ;;
  checkParamOrThrow (options !!! "taskId") "taskId" (Required KString) ;;
  checkParamOrThrow (options !!! "waitForFinish") "waitForFinish" (Maybe KNumber) ;;
  checkParamOrThrow (options !!! "timeout") "timeout" (Maybe KNumber) ;;
  checkParamOrThrow (options !!! "memory") "memory" (Maybe KNumber) ;;
  checkParamOrThrow (options !!! "build") "build" (Maybe KString) ;;
  checkParamOrThrow (options !!! "webhooks") "webhooks" (Maybe KArray) ;;
  checkParamOrThrow (options !!! "input") "input" (Maybe KObject).

(** The checks of the legacy [body] and of its [contentType]. *)
Definition runTaskBodyChecks (options : Obj) : Outcome unit :=
  checkParamOrThrow (options !!! "contentType") "contentType" (Maybe KString) ;;
  checkParamOrThrow (options !!! "body") "body" (Required KString).

(** One parameter check: the value checked, the name reported, the type. *)
Definition ParamCheck : Type := JsVal * string * ParamType.


(** The shape that [listItems] requires of its options. *)
Definition listItemsShape : Ow.Predicate :=
  Ow.object_exactShape [
    ("clean", Ow.optional Ow.boolean);
    ("desc", Ow.optional Ow.boolean);
    ("fields", Ow.optional (Ow.array_ofType Ow.string));
    ("omit", Ow.optional (Ow.array_ofType Ow.string));
    ("limit", Ow.optional Ow.number);
    ("offset", Ow.optional Ow.number);
    ("skipEmpty", Ow.optional Ow.boolean);
    ("skipHidden", Ow.optional Ow.boolean);
    ("unwind", Ow.optional Ow.string) ].

Definition itemsUrl (path : string) : JsVal :=
  JStr ("https://api.apify.com/v2/datasets/some-id/" +:+ path).

(** The [mergedOpts] object of a decorated call. *)
Definition mergedOptsOf (instanceOpts callOpts : Obj) : Obj :=
  <["baseUrl" := JStr (ApifyClient.baseUrlOf (callOpts ∪ instanceOpts))]>
    (callOpts ∪ instanceOpts).

Definition everyIdentifier : Obj :=
  {[ "baseUrl" := JStr "https://api.apify.com";
     "token" := JStr "f5J7XsdaKDyRywwuGGo9";
     "datasetId" := JStr "some-dataset";
     "storeId" := JStr "some-store";
     "key" := JStr "foo";
     "taskId" := JStr "john/my-task";
     "queueId" := JStr "some-queue";
     "requestId" := JStr "some-request" ]}.

Definition runOptions : Obj :=
  {[ "baseUrl" := JStr "https://api.apify.com";
     "token" := JStr "f5J7XsdaKDyRywwuGGo9";
     "taskId" := JStr "some-task" ]}.

Definition legacyBody : JsVal := JStr "{ foo: 1 }".
Definition structuredInput : JsVal := JObj {[ "foo" := JNum 1 ]}.

(** A client as the constructor leaves it, and a method that resolves to the
    base URL it was called with. *)
Definition instanceObject : Obj :=
  {[ "protocol" := JStr "http";
     "host" := JStr "myhost-1";
     "basePath" := JStr "/mypath-1";
     "port" := JNum 80;
     "promise" := JFunc "Promise" ]}.

Definition clientHeap : ApifyClient.Heap := {[ 0%nat := instanceObject ]}.

Definition client : ApifyClient.Client :=
  {| ApifyClient.instanceOpts := 0%nat;
     ApifyClient.preconfiguredRequest := requestPromise (respondWith JUndefined) |}.

Definition method1 : Method := fun _ params => Ok (resolve (params !!! "baseUrl")).

Definition newHost : Obj := {[ "host" := JStr "my-very-new-host" ]}.

(** The scenario of section 8: a record of 300 KiB, once compressed, is
    negotiated once and uploaded once, to the signed URL. *)
Definition signedUrlResponse : JsVal :=
  JObj {[ "data" := JObj {[ "signedUrl" := JStr "https://s3.amazonaws.com/bucket/foo" ]} ]}.

Definition someRequest : Obj :=
  {[ "baseUrl" := JStr "https://api.apify.com";
     "token" := JStr "f5J7XsdaKDyRywwuGGo9";
     "queueId" := JStr "some-queue";
     "request" := JObj {[ "url" := JStr "http://example.com";
                          "uniqueKey" := JStr "http://example.com" ]} ]}.

(** The query of a request: what the method puts under each key. *)
Definition hasQuery (expected : string -> option JsVal) (r : Obj) : Prop :=
  exists q : Obj, r !! "qs" = Some (JObj q) /\ forall k, q !! k = expected k.

(** A query built by [query.k = v] assignments: the keys that are always
    set, the keys that are set when the option is truthy, and the keys that
    are set to [1] when the option is truthy. *)
Definition builtQuery options (always whenTruthy asOne : list string) (k : string)
    : option JsVal :=
  if bool_decide (k ∈ always) then Some (options !!! k)
  else if bool_decide (k ∈ whenTruthy)
  then (if truthy (options !!! k) then Some (options !!! k) else None)
  else if bool_decide (k ∈ asOne)
  then (if truthy (options !!! k) then Some (JNum 1) else None)
  else None.

(** The methods that build their query by assignments, with the keys of each
    kind. *)
Definition queryBuilders
    : list (Method * (list string * list string * list string)) :=
  [ (Tasks.listTasks, (["token"], ["limit"; "offset"], ["desc"]));
    (Tasks.listRuns, (["token"], ["limit"; "offset"], ["desc"]));
    (Tasks.listWebhooks, (["token"], ["limit"; "offset"], ["desc"]));
    (KeyValueStores.listStores, (["token"], ["limit"; "offset"], ["desc"; "unnamed"]));
    (RequestQueues.listQueues, (["token"], ["limit"; "offset"], ["desc"; "unnamed"]));
    (Acts.listActs, (["token"], ["limit"; "offset"], []));
    (Acts.listRuns, (["token"], ["limit"; "offset"], []));
    (Acts.listBuilds, (["token"], ["limit"; "offset"], []));
    (KeyValueStores.listKeys, ([], ["exclusiveStartKey"; "limit"], []));
    (RequestQueues.getHead, ([], ["limit"; "token"], []));
    (RequestQueues.getQueue, ([], ["token"], []));
    (RequestQueues.getRequest, ([], ["token"], [])) ].

(** A query picked from the options: the listed keys, with the values the
    caller gave. *)
Definition pickedQuery options (keys : list string) (k : string) : option JsVal :=
  if bool_decide (k ∈ keys) then options !! k else None.

(** The crawler methods that pick their query from the options. *)
Definition queryPickers : list (Method * list string) :=
  [ (Crawlers.listCrawlers, ["token"; "offset"; "limit"; "desc"]);
    (Crawlers.getCrawlerSettings, ["token"; "nosecrets"]);
    (Crawlers.startExecution, ["token"; "tag"; "wait"]);
    (Crawlers.getListOfExecutions, ["token"; "status"; "offset"; "limit"; "desc"]);
    (Crawlers.getLastExecution, ["token"; "status"]);
    (Crawlers.getLastExecutionResults,
     ["status"; "token"; "format"; "simplified"; "offset"; "limit"; "desc"; "attachment";
      "delimiter"; "bom"]) ].

Definition executionResultsKeys : list string :=
  ["format"; "simplified"; "offset"; "limit"; "desc"; "attachment"; "delimiter"; "bom"].

(** A server that settles every request in the same way. *)
Definition answerWith (answer : Settled JsVal) : Transport := fun _ _ => answer.

(** What a lookup that attaches [catchNotFoundOrThrow] makes of the answer
    of the server, after [unwrap] has been applied to a response. *)
Definition lookupResult (unwrap : JsVal -> JsVal) (answer : Settled JsVal) : Observed :=
  match answer with
  | Fulfilled response => Resolved (unwrap response)
  | Rejected e => if isNotFound e then Resolved JNull else RejectedWith e
  end.

(** What a method without a rejection handler makes of it. *)
Definition plainResult (unwrap : JsVal -> JsVal) (answer : Settled JsVal) : Observed :=
  match answer with
  | Fulfilled response => Resolved (unwrap response)
  | Rejected e => RejectedWith e
  end.

(** The methods of the acts group, with what they unwrap and whether they
    map a missing resource to null. *)
Definition actLookups : list Method := [Acts.getAct; Acts.getRun; Acts.getBuild].

Definition actUnwrapping : list Method :=
  [Acts.listActs; Acts.createAct; Acts.updateAct; Acts.listRuns; Acts.listBuilds; Acts.buildAct].

(** The methods of the crawlers and logs groups that hand the response on as
    it is. *)
Definition crawlerLookups : list Method :=
  [Crawlers.getCrawlerSettings; Crawlers.getExecutionDetails].

Definition crawlerPlain : list Method :=
  [Crawlers.createCrawler; Crawlers.updateCrawler; Crawlers.deleteCrawler;
   Crawlers.startExecution; Crawlers.stopExecution; Crawlers.getLastExecution;
   Crawlers._resurrectExecution; Crawlers._enqueuePage; Logs.getLog].

Definition crawlerLists : list Method :=
  [Crawlers.listCrawlers; Crawlers.getListOfExecutions; Crawlers.getExecutionResults;
   Crawlers.getLastExecutionResults].

(** The error of the first parameter check that fails, in the order the
    checks are made. *)
Fixpoint firstFailure (checks : list ParamCheck) : option JsError :=
  match checks with
  | [] => None
  | c :: rest =>
      match checkParamOrThrow c.1.1 c.1.2 c.2 with
      | Throw e => Some e
      | Ok _ => firstFailure rest
      end
  end.

(** A call that reports the first failed check at the call site, before any
    request, and returns a promise when no check fails. *)
Definition reportsFirstFailure (checks : list ParamCheck)
    (call : Outcome (Promise JsVal)) : Prop :=
  match firstFailure checks with
  | Some e => dispatch call = (ThrewSynchronously e, [])
  | None => returnsPromise call = true
  end.

(** The parameter checks of the acts group ([updateAct] apart), of the
    crawlers group and of the remaining methods of the stores and datasets
    groups, in the order of the source. *)
Definition checkedMethods (options : Obj) : list (Method * list ParamCheck) :=
  let required (name : string) : ParamCheck := (options !!! name, name, Required KString) in
  let maybe (name : string) (kind : Kind) : ParamCheck := (options !!! name, name, Maybe kind) in
  let object (name : string) : ParamCheck := (options !!! name, name, Required KObject) in
  [ (Acts.listActs, [required "baseUrl"; required "token";
                     maybe "limit" KNumber; maybe "offset" KNumber]);
    (Acts.createAct, [required "baseUrl"; required "token"; object "act"]);
    (Acts.deleteAct, [required "baseUrl"; required "actId"]);
    (Acts.getAct, [required "baseUrl"; required "actId"]);
    (Acts.listRuns, [required "baseUrl"; required "actId"; required "token";
                     maybe "limit" KNumber; maybe "offset" KNumber]);
    (Acts.runAct, [required "baseUrl"; required "token"; required "actId";
                   maybe "contentType" KString; maybe "useRawBody" KBoolean]);
    (Acts.getRun, [required "baseUrl"; required "actId"; required "runId"]);
    (Acts.listBuilds, [required "baseUrl"; required "actId"; required "token";
                       maybe "limit" KNumber; maybe "offset" KNumber]);
    (Acts.buildAct, [required "baseUrl"; required "token"; required "actId"]);
    (Acts.getBuild, [required "baseUrl"; required "actId"; required "buildId"]);
    (Crawlers.listCrawlers, [required "userId"; required "token"]);
    (Crawlers.getListOfExecutions,
       [required "userId"; required "crawlerId"; required "token"]);
    (Crawlers.createCrawler,
       [required "userId"; required "token"; object "settings";
        (fieldsOf (options !!! "settings") !!! "customId", "settings.customId",
         Required KString)]);
    (Crawlers.updateCrawler,
       [required "userId"; required "token"; required "crawlerId"; object "settings"]);
    (Crawlers.getCrawlerSettings, [required "userId"; required "token"; required "crawlerId"]);
    (Crawlers.deleteCrawler, [required "userId"; required "token"; required "crawlerId"]);
    (Crawlers.startExecution,
       [required "userId"; required "token"; required "crawlerId"; maybe "settings" KObject]);
    (Crawlers.stopExecution, [required "executionId"; required "token"]);
    (Crawlers.getExecutionDetails, [required "executionId"]);
    (Crawlers.getLastExecution, [required "userId"; required "crawlerId"; required "token"]);
    (Crawlers.getExecutionResults, [required "executionId"]);
    (Crawlers.getLastExecutionResults,
       [required "userId"; required "token"; required "crawlerId"]);
    (Crawlers._resurrectExecution, []);
    (Crawlers._enqueuePage, []);
    (KeyValueStores.getOrCreateStore,
       [required "baseUrl"; required "token"; required "storeName"]);
    (KeyValueStores.getRecord,
       [required "baseUrl"; required "storeId"; required "key";
        maybe "raw" KBoolean; maybe "useRawBody" KBoolean; maybe "url" KBoolean]);
    (KeyValueStores.listKeys,
       [required "baseUrl"; required "storeId";
        maybe "exclusiveStartKey" KString; maybe "limit" KNumber]);
    (Datasets.getOrCreateDataset,
       [required "baseUrl"; required "token"; required "datasetName"]);
    (Datasets.getItems,
       [required "baseUrl"; required "datasetId";
        maybe "limit" KNumber; maybe "offset" KNumber;
        maybe "fields" KArray; maybe "omit" KArray; maybe "unwind" KString;
        maybe "desc" KBoolean; maybe "bom" KBoolean; maybe "attachment" KBoolean;
        maybe "delimiter" KString; maybe "xmlRoot" KString; maybe "xmlRow" KString]) ].

(** The option that names the resource of an update, or failing that the
    [id] of the object that is sent: [!id && object.id ? object.id : id]. *)
Definition idOrOwnId (id : JsVal) (object : Obj) : JsVal :=
  if truthy id then id else if truthy (object !!! "id") then object !!! "id" else id.

(** An update of an act that carries its id in the act itself. *)
Definition actUpdate : Obj :=
  {[ "baseUrl" := JStr "https://api.apifier.com";
     "token" := JStr "f5J7XsdaKDyRywwuGGo9";
     "act" := JObj {[ "id" := JStr "E2jjCZBezvAZnX8Rb"; "name" := JStr "my-act" ]} ]}.

(** An update of a request that carries its id in the request itself. *)
Definition requestUpdate : Obj :=
  {[ "baseUrl" := JStr "https://api.apify.com";
     "token" := JStr "f5J7XsdaKDyRywwuGGo9";
     "queueId" := JStr "some-queue";
     "request" := JObj {[ "id" := JStr "dnjkDMKLmdlkmlkmld";
                          "url" := JStr "http://example.com" ]} ]}.

(** An update of a task whose [id] is the empty string. *)
Definition taskUpdate : Obj :=
  {[ "baseUrl" := JStr "https://api.apify.com";
     "token" := JStr "f5J7XsdaKDyRywwuGGo9";
     "task" := JObj {[ "id" := JStr ""; "name" := JStr "my-task" ]} ]}.

(** The request of [getRecord] that reads the record through the API: the
    record endpoint, asked for JSON unless the record is wanted raw. *)
Definition readsRecord options (r : Obj) : Prop :=
  let raw := truthy (options !!! "raw") in
  r !! "url" = Some (JStr (toStr (options !!! "baseUrl") +:+ KeyValueStores.BASE_PATH
                           +:+ "/" +:+ toStr (options !!! "storeId")
                           +:+ "/records/" +:+ toStr (options !!! "key")))
  /\ r !! "method" = Some (JStr "GET")
  /\ r !! "json" = Some (JBool (negb raw))
  /\ r !! "qs" = Some (JObj (if raw then {[ "raw" := JNum 1 ]} else ∅))
  /\ r !! "encoding" = (if raw then Some JNull else None).

(** The request of [getRecord] that asks for a signed URL, and the download
    from that URL. *)
Definition downloadNegotiation options : Obj :=
  {[ "url" := JStr (toStr (options !!! "baseUrl") +:+ KeyValueStores.BASE_PATH
                    +:+ "/" +:+ toStr (options !!! "storeId")
                    +:+ "/records/" +:+ toStr (options !!! "key")
                    +:+ "/direct-download-url");
     "method" := JStr "GET";
     "json" := JBool true;
     "gzip" := JBool true;
     "qs" := JObj (if truthy (options !!! "raw") then {[ "raw" := JNum 1 ]} else ∅) ]}.

Definition signedDownload (signedUrl : JsVal) : Obj :=
  {[ "method" := JStr "GET";
     "url" := signedUrl;
     "json" := JBool false;
     "gzip" := JBool true ]}.

(** The record put together from the answer to the negotiation and from the
    downloaded body. *)
Definition signedRecord (meta : Obj) (body : JsVal) : JsVal :=
  JObj (<["body" := body]> (delete "contentEncoding" (delete "signedUrl" meta))).

(** A record read with the signed-URL option, and a server that answers the
    negotiation and then the download. *)
Definition signedRead : Obj :=
  {[ "baseUrl" := JStr "https://api.apify.com";
     "storeId" := JStr "some-id";
     "key" := JStr "foo";
     "url" := JBool true;
     "useRawBody" := JBool true ]}.

Definition recordMeta : Obj :=
  {[ "signedUrl" := JStr "https://s3.amazonaws.com/bucket/foo";
     "contentType" := JStr "text/plain";
     "contentEncoding" := JStr "gzip" ]}.

Definition storeServer : Transport :=
  fun tr _ =>
    match tr with
    | [] => Fulfilled (JObj {[ "data" := JObj recordMeta ]})
    | _ => Fulfilled (JStr "bar")
    end.

(** A server on which the negotiation succeeds and the download fails. *)
Definition expiredServer (statusCode : Z) : Transport :=
  fun tr _ =>
    match tr with
    | [] => Fulfilled (JObj {[ "data" := JObj recordMeta ]})
    | _ => Rejected (RequestFailedError statusCode)
    end.

(** The options that [getItems] sends as its query. *)
Definition itemsQueryKeys : list string :=
  [ "format"; "fields"; "omit"; "unwind"; "offset"; "limit"; "desc"; "attachment";
    "delimiter"; "bom"; "xmlRoot"; "xmlRow" ].

(** The query of [getItems]: the options of [itemsQueryKeys] as the caller
    gave them, except that an array of [fields] is joined by commas, as
    [toStr] joins an array. *)
Definition itemsQuery options (k : string) : option JsVal :=
  if bool_decide (k ∈ itemsQueryKeys)
  then if bool_decide (k = "fields")
       then match options !! "fields" with
            | Some (JArr fields) => Some (JStr (toStr (JArr fields)))
            | other => other
            end
       else options !! k
  else None.

(** What a rejection handler placed after the parser makes of an error. *)
Definition caughtResult (result : Outcome JsVal) : Observed :=
  match result with
  | Ok v => Resolved v
  | Throw e => if isNotFound e then Resolved JNull else RejectedWith e
  end.

(** The first of the options [protocol], [host] and [promise] that is
    missing from the instance options. *)
Definition firstMissing (instanceOpts : Obj) : option string :=
  List.find (fun key => negb (truthy (instanceOpts !!! key))) ["protocol"; "host"; "promise"].

(** What a decorated method hands to its caller. *)
Definition returned (callback : option ApifyClient.Callback) (promise : Promise JsVal)
    : ApifyClient.Returned :=
  match callback with
  | None => ApifyClient.ReturnedPromise promise
  | Some callback =>
      ApifyClient.ReturnedUndefined
        (then2 promise
           (fun result => callback None result)
           (fun error => callback (Some error) JUndefined))
  end.

(** The shapes that the collection clients require of their options. *)
Definition listShape : Ow.Predicate :=
  Ow.object_exactShape [
    ("limit", Ow.optional Ow.number);
    ("offset", Ow.optional Ow.number);
    ("desc", Ow.optional Ow.boolean) ].

Definition datasetListShape : Ow.Predicate :=
  Ow.object_exactShape [
    ("unnamed", Ow.optional Ow.boolean);
    ("limit", Ow.optional Ow.number);
    ("offset", Ow.optional Ow.number);
    ("desc", Ow.optional Ow.boolean) ].

(** A [list] that validates with [shape] before it hands its options on. *)
Definition validatesBefore (shape : Ow.Predicate)
    (inherited : JsVal -> Outcome (Promise JsVal)) (options : JsVal)
    (call : Outcome (Promise JsVal)) : Prop :=
  returnsPromise call = true
  /\ if shape (orDefault options (JObj ∅))
     then call = Ok (adopt (inherited (orDefault options (JObj ∅))))
     else exists message, dispatch call = (RejectedWith (ArgumentError message), []).

(** The request of [pushItems]. *)
Definition itemsPush (_url : string -> JsVal) (_params : JsVal -> JsVal) (items : JsVal)
    : Obj :=
  {[ "url" := _url "items";
     "method" := JStr "POST";
     "data" := items;
     "params" := _params JUndefined ]}.

(** The methods of the tasks, request queues, key-value stores and datasets
    groups that issue one request, with what they make of a response and
    whether they map a missing resource to null. *)
Definition unwrappingMethods : list (Method * ((JsVal -> JsVal) * bool)) :=
  let data := fun response => parseDateFields (pluckData response) in
  let whole := fun response : JsVal => response in
  [ (Tasks.listTasks, (data, false));
    (Tasks.createTask, (data, false));
    (Tasks.updateTask, (data, false));
    (Tasks.deleteTask, (parseDateFields, false));
    (Tasks.getTask, (data, true));
    (Tasks.listRuns, (data, false));
    (Tasks.listWebhooks, (data, false));
    (Tasks.getInput, (whole, false));
    (Tasks.updateInput, (whole, false));
    (RequestQueues.getOrCreateQueue, (data, false));
    (RequestQueues.listQueues, (data, false));
    (RequestQueues.getQueue, (data, true));
    (RequestQueues.deleteQueue, (whole, false));
    (RequestQueues.addRequest, (data, false));
    (RequestQueues.getRequest, (data, true));
    (RequestQueues.deleteRequest, (whole, false));
    (RequestQueues.updateRequest, (data, false));
    (RequestQueues.getHead, (data, false));
    (KeyValueStores.getOrCreateStore, (pluckData, false));
    (KeyValueStores.listStores, (pluckData, false));
    (KeyValueStores.getStore, (pluckData, true));
    (KeyValueStores.deleteStore, (whole, false));
    (KeyValueStores.deleteRecord, (whole, false));
    (KeyValueStores.listKeys, (pluckData, false));
    (Datasets.getOrCreateDataset, (pluckData, false));
    (Datasets.listDatasets, (pluckData, false));
    (Datasets.getDataset, (pluckData, true));
    (Datasets.deleteDataset, (whole, false)) ].

(** The methods of the first version of the key-value stores module. *)
Definition firstVersion : list Method :=
  [ KeyValueStoresFirst.getOrCreateStore; KeyValueStoresFirst.getStore;
    KeyValueStoresFirst.deleteStore; KeyValueStoresFirst.putRecord;
    KeyValueStoresFirst.deleteRecord ].

(** A server that settles the first request in one way and every later one
    in another. *)
Definition answersInOrder (first second : Settled JsVal) : Transport :=
  fun tr _ => match tr with [] => first | _ => second end.

(** The negotiation of the earlier [getRecord]: the record endpoint itself,
    asked for a signed URL by [url=1]. *)
Definition negotiatesOnTheRecord options (r : Obj) : Prop :=
  r !! "url" = Some (JStr (toStr (options !!! "baseUrl")
                           +:+ KeyValueStoresUrlOption.BASE_PATH
                           +:+ "/" +:+ toStr (options !!! "storeId")
                           +:+ "/records/" +:+ toStr (options !!! "key")))
  /\ r !! "method" = Some (JStr "GET")
  /\ r !! "json" = Some (JBool true)
  /\ r !! "qs" = Some (JObj (<["url" := JNum 1]>
                               (if truthy (options !!! "raw")
                                then {[ "raw" := JNum 1 ]} else ∅))).

(** How a promise settles on what a callback returns or throws. *)
Definition settles (result : Outcome JsVal) : Settled JsVal :=
  match result with Ok v => Fulfilled v | Throw e => Rejected e end.

(** A callback that answers with what it was given, and a method that asks the
    server once. *)
Definition echo : ApifyClient.Callback :=
  fun error result => match error with Some e => Throw e | None => Ok result end.

Definition ping : Method := fun requestPromise params =>
  Ok (requestPromise {[ "url" := params !!! "baseUrl" ]}).

(** The body that the earlier [putRecord] uploads. *)
Definition legacyBodyOf options : JsVal :=
  if truthy (options !!! "useRawBody") then options !!! "body"
  else KeyValueStoresUrlOption.encodeBody (options !!! "body") (contentTypeOf options).

(** The negotiation of the earlier [putRecord]: the upload request itself,
    without the body and with [url=1] in the query. *)
Definition negotiatesTheUpload options (r : Obj) : Prop :=
  r !! "url" = Some (JStr (toStr (options !!! "baseUrl")
                           +:+ KeyValueStoresUrlOption.BASE_PATH
                           +:+ "/" +:+ toStr (options !!! "storeId")
                           +:+ "/records/" +:+ toStr (options !!! "key")))
  /\ r !! "method" = Some (JStr "PUT")
  /\ r !! "body" = Some JNull
  /\ r !! "json" = Some (JBool true)
  /\ r !! "qs" = Some (JObj {[ "url" := JNum 1 ]}).

(** A record written with the signed-URL option. *)
Definition signedWrite : Obj :=
  {[ "baseUrl" := JStr "https://api.apify.com";
     "storeId" := JStr "some-id";
     "key" := JStr "foo";
     "body" := JStr "bar";
     "url" := JBool true;
     "promise" := JFunc "Promise" ]}.

(** The options of a caller that overrides the method groups, as the unit
    tests of the client do, in a heap that holds nothing else. *)
Definition overridingOptions : Obj :=
  {[ "protocol" := JStr "http";
     "host" := JStr "myhost-1";
     "basePath" := JStr "/mypath-1";
     "port" := JNum 80;
     "_overrideMethodGroups" := JObj ∅ ]}.

Definition callerHeap : ApifyClient.Heap := {[ 0%nat := overridingOptions ]}.


(** The remaining methods of the other groups that issue one request. *)
Definition furtherEndpoints : list Method :=
  [ KeyValueStores.getOrCreateStore; KeyValueStores.listKeys;
    Datasets.getOrCreateDataset; Datasets.getItems;
    Acts.listActs; Acts.createAct; Acts.updateAct; Acts.deleteAct; Acts.getAct;
    Acts.listRuns; Acts.runAct; Acts.getRun; Acts.listBuilds; Acts.buildAct; Acts.getBuild;
    Logs.getLog;
    Crawlers.listCrawlers; Crawlers.getListOfExecutions; Crawlers.createCrawler;
    Crawlers.updateCrawler; Crawlers.getCrawlerSettings; Crawlers.deleteCrawler;
    Crawlers.startExecution; Crawlers.stopExecution; Crawlers.getExecutionDetails;
    Crawlers.getLastExecution; Crawlers.getExecutionResults;
    Crawlers.getLastExecutionResults; Crawlers._resurrectExecution; Crawlers._enqueuePage;
    KeyValueStoresFirst.getOrCreateStore; KeyValueStoresFirst.getStore;
    KeyValueStoresFirst.deleteStore; KeyValueStoresFirst.putRecord;
    KeyValueStoresFirst.deleteRecord ].

(** Whether the compression of a body fails. *)
Definition gzipFails (body : JsVal) : bool :=
  match gzip body with Ok _ => false | Throw _ => true end.

(** The methods that may issue a second request, or that compress a body
    before their first, with whether that compression fails. *)
Definition negotiatingEndpoints options : list (Method * bool) :=
  [ (KeyValueStores.putRecord, gzipFails (encodedBodyOf options));
    (KeyValueStores.getRecord, false);
    (Datasets.putItems, gzipFails (JSON_stringify (options !!! "data")));
    (KeyValueStoresUrlOption.putRecord, false);
    (KeyValueStoresUrlOption.getRecord, false) ].

(** A call that issues requests when it gets past its parameter checks,
    unless it is [idle], none otherwise, and whose requests all satisfy [P]. *)
Definition issuesSome (P : Obj -> Prop) (idle : bool) (call : Outcome (Promise JsVal)) : Prop :=
  (sent call = [] <-> returnsPromise call = false \/ idle = true)
  /\ Forall P (sent call).


(** The URL of a record and of the items of a dataset. *)
Definition recordUrl options : JsVal :=
  JStr (toStr (options !!! "baseUrl") +:+ KeyValueStores.BASE_PATH +:+ "/"
        +:+ toStr (options !!! "storeId") +:+ "/records/" +:+ toStr (options !!! "key")).

Definition itemsEndpoint options : JsVal :=
  JStr (toStr (options !!! "baseUrl") +:+ Datasets.BASE_PATH +:+ "/"
        +:+ toStr (options !!! "datasetId") +:+ "/items").










(** The methods of the other groups that address a resource by an
    identifier and issue one request, with the URL of that request. *)
Definition verbatimPaths options : list (Method * string) :=
  let baseUrl := toStr (options !!! "baseUrl") in
  let id (name : string) : string := toStr (options !!! name) in
  let dataset := baseUrl +:+ Datasets.BASE_PATH +:+ "/" +:+ id "datasetId" in
  let store := baseUrl +:+ KeyValueStores.BASE_PATH +:+ "/" +:+ id "storeId" in
  let queue := baseUrl +:+ RequestQueues.BASE_PATH +:+ "/" +:+ id "queueId" in
  let crawlers := baseUrl +:+ Crawlers.BASE_PATH +:+ "/" +:+ id "userId" +:+ "/crawlers" in
  [ (Datasets.getDataset, dataset);
    (Datasets.deleteDataset, dataset);
    (Datasets.getItems,
     baseUrl +:+ Datasets.BASE_PATH +:+ "/" +:+ id "datasetId" +:+ "/items");
    (KeyValueStores.getStore, store);
    (KeyValueStores.deleteStore, store);
    (KeyValueStores.deleteRecord,
     baseUrl +:+ KeyValueStores.BASE_PATH +:+ "/" +:+ id "storeId"
     +:+ "/records/" +:+ id "key");
    (KeyValueStores.listKeys,
     baseUrl +:+ KeyValueStores.BASE_PATH +:+ "/" +:+ id "storeId" +:+ "/keys");
    (KeyValueStoresFirst.getStore, store);
    (KeyValueStoresFirst.deleteStore, store);
    (KeyValueStoresFirst.putRecord,
     baseUrl +:+ KeyValueStoresFirst.BASE_PATH +:+ "/" +:+ id "storeId"
     +:+ "/records/" +:+ id "recordKey");
    (KeyValueStoresFirst.deleteRecord,
     baseUrl +:+ KeyValueStoresFirst.BASE_PATH +:+ "/" +:+ id "storeId"
     +:+ "/records/" +:+ id "recordKey");
    (RequestQueues.getQueue, queue);
    (RequestQueues.deleteQueue, queue);
    (RequestQueues.addRequest,
     baseUrl +:+ RequestQueues.BASE_PATH +:+ "/" +:+ id "queueId" +:+ "/requests");
    (RequestQueues.getRequest,
     baseUrl +:+ RequestQueues.BASE_PATH +:+ "/" +:+ id "queueId"
     +:+ "/requests/" +:+ id "requestId");
    (RequestQueues.deleteRequest,
     baseUrl +:+ RequestQueues.BASE_PATH +:+ "/" +:+ id "queueId"
     +:+ "/requests/" +:+ id "requestId");
    (RequestQueues.updateRequest,
     baseUrl +:+ RequestQueues.BASE_PATH +:+ "/" +:+ id "queueId"
     +:+ "/requests/"
     +:+ toStr (if truthy (options !!! "requestId") then options !!! "requestId"
                else fieldsOf (options !!! "request") !!! "id"));
    (RequestQueues.getHead,
     baseUrl +:+ RequestQueues.BASE_PATH +:+ "/" +:+ id "queueId" +:+ "/head");
    (Acts.updateAct,
     baseUrl +:+ Acts.BASE_PATH +:+ "/"
     +:+ toStr (idOrOwnId (options !!! "actId") (fieldsOf (options !!! "act"))));
    (Acts.deleteAct, baseUrl +:+ Acts.BASE_PATH +:+ "/" +:+ id "actId");
    (Acts.getAct, baseUrl +:+ Acts.BASE_PATH +:+ "/" +:+ id "actId");
    (Acts.listRuns, baseUrl +:+ Acts.BASE_PATH +:+ "/" +:+ id "actId" +:+ "/runs");
    (Acts.runAct, baseUrl +:+ Acts.BASE_PATH +:+ "/" +:+ id "actId" +:+ "/runs");
    (Acts.getRun,
     baseUrl +:+ Acts.BASE_PATH +:+ "/" +:+ id "actId" +:+ "/runs/" +:+ id "runId");
    (Acts.listBuilds, baseUrl +:+ Acts.BASE_PATH +:+ "/" +:+ id "actId" +:+ "/builds");
    (Acts.buildAct, baseUrl +:+ Acts.BASE_PATH +:+ "/" +:+ id "actId" +:+ "/builds");
    (Acts.getBuild,
     baseUrl +:+ Acts.BASE_PATH +:+ "/" +:+ id "actId" +:+ "/builds/" +:+ id "buildId");
    (Logs.getLog, baseUrl +:+ Logs.BASE_PATH +:+ "/" +:+ id "logId");
    (Crawlers.listCrawlers, crawlers);
    (Crawlers.createCrawler, crawlers);
    (Crawlers.updateCrawler,
     baseUrl +:+ Crawlers.BASE_PATH +:+ "/" +:+ id "userId"
     +:+ "/crawlers/" +:+ id "crawlerId");
    (Crawlers.getCrawlerSettings,
     baseUrl +:+ Crawlers.BASE_PATH +:+ "/" +:+ id "userId"
     +:+ "/crawlers/" +:+ id "crawlerId");
    (Crawlers.deleteCrawler,
     baseUrl +:+ Crawlers.BASE_PATH +:+ "/" +:+ id "userId"
     +:+ "/crawlers/" +:+ id "crawlerId");
    (Crawlers.startExecution,
     baseUrl +:+ Crawlers.BASE_PATH +:+ "/" +:+ id "userId"
     +:+ "/crawlers/" +:+ id "crawlerId" +:+ "/execute");
    (Crawlers.stopExecution,
     baseUrl +:+ Crawlers.BASE_PATH +:+ "/execs/" +:+ id "executionId" +:+ "/stop");
    (Crawlers.getListOfExecutions,
     baseUrl +:+ Crawlers.BASE_PATH +:+ "/" +:+ id "userId"
     +:+ "/crawlers/" +:+ id "crawlerId" +:+ "/execs");
    (Crawlers.getExecutionDetails,
     baseUrl +:+ Crawlers.BASE_PATH +:+ "/execs/" +:+ id "executionId");
    (Crawlers.getLastExecution,
     baseUrl +:+ Crawlers.BASE_PATH +:+ "/" +:+ id "userId"
     +:+ "/crawlers/" +:+ id "crawlerId" +:+ "/lastExec");
    (Crawlers.getExecutionResults,
     baseUrl +:+ Crawlers.BASE_PATH +:+ "/execs/" +:+ id "executionId" +:+ "/results");
    (Crawlers.getLastExecutionResults,
     baseUrl +:+ Crawlers.BASE_PATH +:+ "/" +:+ id "userId"
     +:+ "/crawlers/" +:+ id "crawlerId" +:+ "/lastExec/results");
    (Crawlers._resurrectExecution,
     baseUrl +:+ Crawlers.BASE_PATH +:+ "/execs/" +:+ id "executionId" +:+ "/resurrect");
    (Crawlers._enqueuePage,
     baseUrl +:+ Crawlers.BASE_PATH +:+ "/execs/" +:+ id "executionId" +:+ "/enqueue") ].

(** A call whose first request, if it issues one, satisfies [P], and that
    issues one when it gets past its parameter checks unless it is [idle]. *)
Definition issuesFirst (P : Obj -> Prop) (idle : bool) (call : Outcome (Promise JsVal)) : Prop :=
  (sent call = [] <-> returnsPromise call = false \/ idle = true)
  /\ forall (first : Obj) (rest : Trace), sent call = first :: rest -> P first.

(** A request to the record of a store, or to an endpoint under it. *)
Definition addressesRecord options (r : Obj) : Prop :=
  exists suffix : string,
    r !! "url" = Some (JStr (toStr (options !!! "baseUrl") +:+ KeyValueStores.BASE_PATH
                             +:+ "/" +:+ toStr (options !!! "storeId")
                             +:+ "/records/" +:+ toStr (options !!! "key") +:+ suffix)).

(** The methods that read or write a record, with whether the compression
    that precedes their first request fails. *)
Definition recordEndpoints options : list (Method * bool) :=
  [ (KeyValueStores.putRecord, gzipFails (encodedBodyOf options));
    (KeyValueStores.getRecord, false);
    (KeyValueStoresUrlOption.putRecord, false);
    (KeyValueStoresUrlOption.getRecord, false) ].

(** Options that name every resource by an identifier with a slash. *)
Definition slashedIdentifiers : Obj :=
  {[ "baseUrl" := JStr "https://api.apify.com";
     "token" := JStr "f5J7XsdaKDyRywwuGGo9";
     "taskId" := JStr "john/my-task";
     "task" := JObj {[ "name" := JStr "my-task" ]};
     "input" := JObj {[ "foo" := JNum 1 ]};
     "queueId" := JStr "john/my-queue";
     "datasetId" := JStr "john/my-dataset";
     "storeId" := JStr "john/my-store";
     "key" := JStr "some/key" ]}.

(** An update of a task that carries its id in the task itself. *)
Definition ownIdUpdate : Obj :=
  {[ "baseUrl" := JStr "https://api.apify.com";
     "token" := JStr "f5J7XsdaKDyRywwuGGo9";
     "task" := JObj {[ "id" := JStr "john/my-task"; "name" := JStr "my-task" ]} ]}.

End Vocabulary.

Lemma compressed300KiB_length : Z.of_nat (length compressed300KiB) = 307200.
Proof. unfold compressed300KiB. rewrite repeat_length. vm_compute. reflexivity. Qed.

(** ** Traces of the promise combinators *)

Section Traces.
Context {A B : Type}.
Implicit Types (p : Promise A) (tr : Trace).

Lemma then__trace p (f : A -> B) tr : (then_ p f tr).2 = (p tr).2.
Proof. unfold then_, then_full. by destruct (p tr) as [[a|e] tr']. Qed.

Lemma then_try_trace p (f : A -> Outcome B) tr : (then_try p f tr).2 = (p tr).2.
Proof.
  unfold then_try, then_full. destruct (p tr) as [[a|e] tr']; [|done].
  by destruct (f a).
Qed.

Lemma catch__trace p (h : JsError -> Outcome A) tr : (catch_ p h tr).2 = (p tr).2.
Proof.
  unfold catch_, then_full. destruct (p tr) as [[a|e] tr']; [done|].
  by destruct (h e).
Qed.

Lemma then2_trace p (f : A -> Outcome B) (h : JsError -> Outcome B) tr :
  (then2 p f h tr).2 = (p tr).2.
Proof.
  unfold then2, then_full. destruct (p tr) as [[a|e] tr'].
  - by destruct (f a).
  - by destruct (h e).
Qed.

Lemma then__settled p (f : A -> B) tr :
  (then_ p f tr).1 = match (p tr).1 with
                     | Fulfilled a => Fulfilled (f a)
                     | Rejected e => Rejected e
                     end.
Proof. unfold then_, then_full. by destruct (p tr) as [[a|e] tr']. Qed.

Lemma catch__settled p (h : JsError -> Outcome A) tr :
  (catch_ p h tr).1 = match (p tr).1 with
                      | Fulfilled a => Fulfilled a
                      | Rejected e => match h e with
                                      | Ok a => Fulfilled a
                                      | Throw e' => Rejected e'
                                      end
                      end.
Proof.
  unfold catch_, then_full. destruct (p tr) as [[a|e] tr']; [done|].
  cbn. by destruct (h e).
Qed.

End Traces.

Lemma requestPromise_trace (t : Transport) (opts : Obj) (tr : Trace) :
  (requestPromise t opts tr).2 = (tr ++ [opts])%list.
Proof. done. Qed.

Lemma requestPromise_settled (t : Transport) (opts : Obj) (tr : Trace) :
  (requestPromise t opts tr).1 = t tr opts.
Proof. done. Qed.

Lemma sent_Ok (p : Promise JsVal) : sent (Ok p) = (p []).2.
Proof. unfold sent, dispatch. by destruct (p []) as [[v|e] tr]. Qed.

Lemma sent_Throw (e : JsError) : sent (Throw e) = [].
Proof. done. Qed.

Lemma observed_Ok (p : Promise JsVal) :
  observed (Ok p) = match (p []).1 with
                    | Fulfilled v => Resolved v
                    | Rejected e => RejectedWith e
                    end.
Proof. unfold observed, dispatch. by destruct (p []) as [[v|e] tr]. Qed.

Create Rewrite HintDb trace.
Create Rewrite HintDb settled.
#[global] Hint Rewrite @then__trace @then_try_trace @catch__trace @then2_trace
  requestPromise_trace sent_Ok sent_Throw : trace.
#[global] Hint Rewrite @then__settled @catch__settled requestPromise_settled observed_Ok
  : settled.

Section Settled.
Context {A B : Type}.
Implicit Types (p : Promise A) (tr : Trace).

Lemma then_try_settled p (f : A -> Outcome B) tr :
  (then_try p f tr).1 = match (p tr).1 with
                        | Fulfilled a => match f a with
                                         | Ok b => Fulfilled b
                                         | Throw e => Rejected e
                                         end
                        | Rejected e => Rejected e
                        end.
Proof.
  unfold then_try, then_full. destruct (p tr) as [[a|e] tr']; [|done].
  cbn. by destruct (f a).
Qed.

Lemma then2_settled p (f : A -> Outcome B) (h : JsError -> Outcome B) tr :
  (then2 p f h tr).1 = match (p tr).1 with
                       | Fulfilled a => match f a with
                                        | Ok b => Fulfilled b
                                        | Throw e => Rejected e
                                        end
                       | Rejected e => match h e with
                                       | Ok b => Fulfilled b
                                       | Throw e' => Rejected e'
                                       end
                       end.
Proof.
  unfold then2, then_full. destruct (p tr) as [[a|e] tr']; cbn.
  - by destruct (f a).
  - by destruct (h e).
Qed.

End Settled.

(** Evaluate the sequencing of the synchronous part. *)
Ltac js_beta := cbv beta iota zeta delta [mbind Outcome_bind mret Outcome_ret negb].

(** Case analysis on every parameter check, in program order. *)
Ltac step_checks :=
  js_beta;
  repeat match goal with
  | |- context [checkParamOrThrow ?v ?n ?ty] =>
      destruct (checkParamOrThrow v n ty) as [[]|?] eqn:?; js_beta
  end.

(** The requests of a method that issues at most one. *)
Ltac one_request := autorewrite with trace; cbn [app].

(** ** Parameter checks *)

Lemma checkParamOrThrow_String (v : JsVal) (name : string) :
  checkParamOrThrow v name (Required KString) = Ok tt -> exists s, v = JStr s.
Proof. destruct v; try discriminate; eauto. Qed.

Lemma checkParamOrThrow_Object (v : JsVal) (name : string) :
  checkParamOrThrow v name (Required KObject) = Ok tt -> exists o, v = JObj o.
Proof. destruct v; try discriminate; eauto. Qed.


Lemma lookup_total_empty_undefined (k : string) : (∅ : Obj) !!! k = JUndefined.
Proof. by rewrite lookup_total_alt, lookup_empty. Qed.

(** ** The requests of an upload *)

Section Uploads.
Context `{Runtime}.
Implicit Types (t : Transport) (options : Obj).

Lemma putRecord_sent t options :
  sent (KeyValueStores.putRecord (requestPromise t) options)
  = if returnsPromise (KeyValueStores.putRecord (requestPromise t) options)
    then recordRequests t options else [].
Proof.
  unfold KeyValueStores.putRecord. step_checks; try reflexivity.
  cbn [returnsPromise]. rewrite sent_Ok.
  unfold recordRequests, encodedBodyOf, contentTypeOf, gzipPromise.
  destruct (gzip _) as [gz|e]; [|reflexivity].
  unfold then_chain, then_full, resolve. cbn [getProp String.eqb Ascii.eqb Bool.eqb].
  js_beta. unfold lessThan, KeyValueStores.SIGNED_URL_UPLOAD_MIN_BYTESIZE.
  destruct (Z.of_nat (length gz) <? 1024 * 256); cbn [adopt]; [reflexivity|].
  unfold then_full, requestPromise, recordNegotiation, recordUpload, signedUrlOf.
  cbn [app]. js_beta.
  destruct (t [] _) as [response|e]; [|reflexivity].
  destruct (getProp response "data") as [data|e]; [|reflexivity].
  destruct (getProp data "signedUrl") as [signedUrl|e]; reflexivity.
Qed.

Lemma putItems_sent t options :
  sent (Datasets.putItems (requestPromise t) options)
  = if returnsPromise (Datasets.putItems (requestPromise t) options)
    then itemsRequests options else [].
Proof.
  unfold Datasets.putItems. step_checks; try reflexivity.
  cbn [returnsPromise]. rewrite sent_Ok.
  unfold itemsRequests, gzipPromise.
  destruct (gzip _) as [gz|e]; reflexivity.
Qed.

End Uploads.

(** ** Calls that issue one request *)

Section OneRequest.
Context `{Runtime}.

Lemma issuesOne_Throw (P : Obj -> Prop) (e : JsError) : issuesOne P (Throw e).
Proof. split; [done|constructor]. Qed.

Lemma issuesOne_single (P : Obj -> Prop) (p : Promise JsVal) (r : Obj) :
  sent (Ok p) = [r] -> P r -> issuesOne P (Ok p).
Proof. intros Hs ?. unfold issuesOne. rewrite Hs. split; [done|by repeat constructor]. Qed.

End OneRequest.

(** The query object is built by conditional insertions that the request
    log does not depend on. *)
Ltac forget_query :=
  repeat match goal with
  | |- context [JObj (if ?c then ?a else ?b)] =>
      let query := fresh "query" in
      set (query := if c then a else b); clearbody query
  end.

(** Settle a method that issues one request. *)
Ltac settle_one :=
  js_beta; forget_query;
  repeat match goal with
  | |- context [checkParamOrThrow ?v ?n ?ty] =>
      destruct (checkParamOrThrow v n ty) as [[]|?] eqn:?; js_beta
  | |- context [getProp ?v ?k] => destruct (getProp v k) eqn:?; js_beta
  | |- context [Tasks.replaceSlashWithTilde ?v] =>
      destruct (Tasks.replaceSlashWithTilde v) eqn:?; js_beta
  | |- context [if truthy ?v then _ else _] => destruct (truthy v) eqn:?; js_beta
  end;
  first [ apply issuesOne_Throw
        | eapply issuesOne_single; [by one_request | by simplify_map_eq] ].


(** ** Pagination lists *)

(** C1, as stated, fails on the crawler list methods: [listCrawlers] answers
    with the count of the [x-apifier-pagination-count] header, here ["1"], for
    an empty [items] array. *)
Lemma listCrawlers_count_is_header_value :
  exists list : Obj,
    observed (Crawlers.listCrawlers (requestPromise (respondWith crawlersResponse))
                                    crawlersOptions)
    = Resolved (JObj list)
    /\ list !!! "items" = JArr []
    /\ list !!! "count" = JStr "1"
    /\ getProp (list !!! "items") "length" = Ok (JNum 0)
    /\ ~ countIsItemsLength (Ok (JObj list)).
Proof.
  eexists. split; [vm_compute; reflexivity|].
  repeat split; try (vm_compute; reflexivity).
  vm_compute. discriminate.
Qed.

Example listStores_returns_the_list_of_the_server :
  observed (KeyValueStores.listStores (requestPromise (respondWith storesResponse))
              {[ "baseUrl" := JStr "http://exaple.com/something";
                 "token" := JStr "sometoken";
                 "limit" := JNum 5;
                 "offset" := JNum 3 ]})
  = Resolved (JObj {[ "limit" := JNum 5;
                      "offset" := JNum 3;
                      "count" := JNum 5;
                      "total" := JNum 10;
                      "items" := JArr [JStr "store1"; JStr "store2"] ]}).
Proof. vm_compute. reflexivity. Qed.

Section ListItems.
Context `{Runtime}.

(** What [listItems] does with options of the right shape. *)
Lemma listItems_dispatch (t : Transport) (_url : string -> JsVal) (_params : JsVal -> JsVal)
    (options : JsVal) :
  listItemsShape (orDefault options (JObj ∅)) = true ->
  let request : Obj := {[ "url" := _url "items";
                          "method" := JStr "GET";
                          "params" := _params (orDefault options (JObj ∅)) ]} in
  dispatch (DatasetClient.listItems (requestPromise t) _url _params options)
  = (match t [] request with
     | Fulfilled response =>
         match DatasetClient._createPaginationList response with
         | Ok list => Resolved list
         | Throw e => RejectedWith e
         end
     | Rejected e => RejectedWith e
     end, [request]).
Proof.
  intros Hshape request. unfold DatasetClient.listItems, async, Ow.ow.
  fold listItemsShape. rewrite Hshape. js_beta. fold request.
  unfold dispatch, adopt, then_try, then_full, requestPromise. cbn [app].
  destruct (t [] request) as [response|e]; [|reflexivity].
  by destruct (DatasetClient._createPaginationList response).
Qed.

Lemma listItems_rejects (t : Transport) (_url : string -> JsVal) (_params : JsVal -> JsVal)
    (options : JsVal) :
  listItemsShape (orDefault options (JObj ∅)) = false ->
  dispatch (DatasetClient.listItems (requestPromise t) _url _params options)
  = (RejectedWith (ArgumentError "Expected argument to match the predicate"), []).
Proof.
  intros Hshape. unfold DatasetClient.listItems, async, Ow.ow.
  fold listItemsShape. by rewrite Hshape.
Qed.

Lemma createPaginationList_count (response : JsVal) :
  countIsItemsLength (DatasetClient._createPaginationList response).
Proof.
  unfold DatasetClient._createPaginationList. js_beta.
  repeat match goal with
  | |- context [getProp ?v ?k] =>
      lazymatch v with
      | context [getProp _ _] => fail
      | _ => destruct (getProp v k) as [?|?] eqn:?; js_beta
      end
  end; try exact I.
  cbn [countIsItemsLength]. rewrite !lookup_total_alt. by simplify_map_eq.
Qed.

Lemma createPaginationList_array (items : list JsVal) (headers rest : Obj) :
  DatasetClient._createPaginationList
    (JObj (<["data" := JArr items]> (<["headers" := JObj headers]> rest)))
  = Ok (JObj {[ "items" := JArr items;
                "total" := Number (headers !!! "x-apify-pagination-total");
                "offset" := Number (headers !!! "x-apify-pagination-offset");
                "count" := JNum (Z.of_nat (length items));
                "limit" := Number (headers !!! "x-apify-pagination-limit") ]}).
Proof.
  unfold DatasetClient._createPaginationList.
  cbn [getProp]. js_beta.
  rewrite lookup_total_insert_eq.
  rewrite lookup_total_insert_ne by done. rewrite lookup_total_insert_eq.
  cbn [getProp String.eqb Ascii.eqb Bool.eqb]. js_beta. reflexivity.
Qed.

End ListItems.

Lemma wrapArray_headers (body : JsVal) (headers rest : Obj) :
  Crawlers.wrapArray (JObj (<["body" := body]> (<["headers" := JObj headers]> rest)))
  = Ok (JObj {[ "items" := body;
                "total" := headers !!! "x-apifier-pagination-total";
                "offset" := headers !!! "x-apifier-pagination-offset";
                "count" := headers !!! "x-apifier-pagination-count";
                "limit" := headers !!! "x-apifier-pagination-limit" ]}).
Proof.
  unfold Crawlers.wrapArray. cbn [getProp]. js_beta.
  rewrite lookup_total_insert_eq.
  rewrite lookup_total_insert_ne by done. rewrite lookup_total_insert_eq.
  cbn [getProp]. js_beta. reflexivity.
Qed.

(** Settle a crawler list method on a response with a body and headers. *)
Ltac settle_list :=
  js_beta;
  repeat match goal with
  | |- context [checkParamOrThrow ?v ?n ?ty] =>
      destruct (checkParamOrThrow v n ty) as [[]|?] eqn:?; js_beta
  | |- context [if isEmpty ?v then _ else _] => destruct (isEmpty v) eqn:?; js_beta
  end;
  unfold observes; try reflexivity;
  rewrite observed_Ok, then_try_settled, requestPromise_settled;
  unfold respondWith; by rewrite wrapArray_headers.

(** C1 (amended). The dataset resource client computes [count] from the items
    it received: whatever [_createPaginationList] returns, and so whatever
    [listItems] resolves to, satisfies [count === items.length]; for a
    response whose [data] is an array, [listItems] issues its one request and
    resolves to a list whose count is the length of that array, whatever the
    response headers carry.  The crawler list methods (listCrawlers,
    getListOfExecutions, getExecutionResults, getLastExecutionResults)
    resolve to what [wrapArray] makes of the response, which takes [count]
    from the [x-apifier-pagination-count] header, and the list methods that
    unwrap the response envelope (listStores, listDatasets) resolve to the
    list the server sent, with the count the server gave. *)
Theorem pagination_count_of_dataset_items `{Runtime} :
  (forall response : JsVal,
     countIsItemsLength (DatasetClient._createPaginationList response))
  /\ (forall (items : list JsVal) (headers rest : Obj),
        DatasetClient._createPaginationList
          (JObj (<["data" := JArr items]> (<["headers" := JObj headers]> rest)))
        = Ok (JObj {[ "items" := JArr items;
                      "total" := Number (headers !!! "x-apify-pagination-total");
                      "offset" := Number (headers !!! "x-apify-pagination-offset");
                      "count" := JNum (Z.of_nat (length items));
                      "limit" := Number (headers !!! "x-apify-pagination-limit") ]}))
  /\ (forall (t : Transport) (_url : string -> JsVal) (_params : JsVal -> JsVal)
             (options list : JsVal),
        observed (DatasetClient.listItems (requestPromise t) _url _params options)
        = Resolved list ->
        countIsItemsLength (Ok list))
  /\ (forall (items : list JsVal) (headers rest : Obj)
             (_url : string -> JsVal) (_params : JsVal -> JsVal) (options : JsVal),
        listItemsShape (orDefault options (JObj ∅)) = true ->
        dispatch (DatasetClient.listItems
                    (requestPromise
                       (respondWith
                          (JObj (<["data" := JArr items]> (<["headers" := JObj headers]> rest)))))
                    _url _params options)
        = (Resolved
             (JObj {[ "items" := JArr items;
                      "total" := Number (headers !!! "x-apify-pagination-total");
                      "offset" := Number (headers !!! "x-apify-pagination-offset");
                      "count" := JNum (Z.of_nat (length items));
                      "limit" := Number (headers !!! "x-apify-pagination-limit") ]}),
           [ {[ "url" := _url "items";
                "method" := JStr "GET";
                "params" := _params (orDefault options (JObj ∅)) ]} ]))
  /\ (forall (body : JsVal) (headers rest : Obj),
        Crawlers.wrapArray
          (JObj (<["body" := body]> (<["headers" := JObj headers]> rest)))
        = Ok (JObj {[ "items" := body;
                      "total" := headers !!! "x-apifier-pagination-total";
                      "offset" := headers !!! "x-apifier-pagination-offset";
                      "count" := headers !!! "x-apifier-pagination-count";
                      "limit" := headers !!! "x-apifier-pagination-limit" ]}))
  /\ (forall (body : JsVal) (headers rest options : Obj),
        Forall (fun m : Method =>
                  observes (m (requestPromise
                                 (respondWith
                                    (JObj (<["body" := body]>
                                             (<["headers" := JObj headers]> rest)))))
                              options)
                           (Resolved
                              (JObj {[ "items" := body;
                                       "total" := headers !!! "x-apifier-pagination-total";
                                       "offset" := headers !!! "x-apifier-pagination-offset";
                                       "count" := headers !!! "x-apifier-pagination-count";
                                       "limit" := headers !!! "x-apifier-pagination-limit" ]})))
               crawlerLists)
  /\ (forall (response : JsVal) (options : Obj),
        Forall (fun m : Method =>
                  observes (m (requestPromise (respondWith response)) options)
                           (Resolved (pluckData response)))
               [KeyValueStores.listStores; Datasets.listDatasets]).
Proof.
  split; [exact createPaginationList_count|].
  split; [exact createPaginationList_array|].
  split; [|split; [|split; [|split]]].
  - intros t _url _params options list.
    destruct (listItemsShape (orDefault options (JObj ∅))) eqn:Hshape.
    + unfold observed. rewrite (listItems_dispatch t _url _params options Hshape).
      cbn [fst]. destruct (t [] _) as [response|e]; [|discriminate].
      pose proof (createPaginationList_count response) as Hcount.
      destruct (DatasetClient._createPaginationList response); [|discriminate].
      by intros [= <-].
    + unfold observed. by rewrite (listItems_rejects t _url _params options Hshape).
  - intros items headers rest _url _params options Hshape.
    rewrite (listItems_dispatch _ _url _params options Hshape).
    unfold respondWith. by rewrite createPaginationList_array.
  - exact wrapArray_headers.
  - intros body headers rest options. unfold crawlerLists.
    repeat apply Forall_cons_2; [..|apply Forall_nil_2].
    + unfold Crawlers.listCrawlers. settle_list.
    + unfold Crawlers.getListOfExecutions. settle_list.
    + unfold Crawlers.getExecutionResults. settle_list.
    + unfold Crawlers.getLastExecutionResults. settle_list.
  - intros response options.
    repeat apply Forall_cons_2; [..|apply Forall_nil_2].
    + unfold KeyValueStores.listStores. step_checks; reflexivity.
    + unfold Datasets.listDatasets. step_checks; reflexivity.
Qed.

(** ** Missing resources *)

(** C3, as stated, fails on deletions: [deleteDataset] of a dataset the server
    answers 404 for is rejected with the request error, it does not resolve to
    null or undefined. *)
Lemma deleteDataset_not_found_is_raised :
  dispatch (Datasets.deleteDataset (requestPromise (failWith 404)) missingDataset)
  = (RejectedWith (RequestFailedError 404),
     [ {[ "url" := JStr "https://api.apify.com/v2/datasets/missing";
          "json" := JBool true;
          "method" := JStr "DELETE" ]} ]).
Proof. vm_compute. reflexivity. Qed.

Ltac settle_observed Ht :=
  js_beta; forget_query;
  repeat match goal with
  | |- context [checkParamOrThrow ?v ?n ?ty] =>
      destruct (checkParamOrThrow v n ty) as [[]|?] eqn:?; js_beta
  | |- context [Tasks.replaceSlashWithTilde ?v] =>
      destruct (Tasks.replaceSlashWithTilde v) eqn:?; js_beta
  end;
  unfold observes; try reflexivity;
  autorewrite with settled; rewrite Ht; unfold catchNotFoundOrThrow;
  try reflexivity; by destruct (isNotFound _).

(** C3 (amended). When the server fails the request with error [e]: the
    lookups that attach [catchNotFoundOrThrow] (getDataset, getStore, getTask,
    getQueue, getRequest) resolve to null if [e] is HTTP 404 and are rejected
    with [e] otherwise; the deletions (deleteDataset, deleteStore,
    deleteRecord, deleteTask, deleteQueue, deleteRequest) attach no handler
    and are rejected with [e], HTTP 404 included. *)
Theorem not_found_is_null_on_lookups `{Runtime}
    (t : Transport) (e : JsError) (options : Obj) :
  (forall tr r, t tr r = Rejected e) ->
  Forall (fun m : Method =>
            observes (m (requestPromise t) options)
                     (if isNotFound e then Resolved JNull else RejectedWith e))
         lookups
  /\ Forall (fun m : Method =>
               observes (m (requestPromise t) options) (RejectedWith e))
            deletions.
Proof.
  intros Ht. split.
  - unfold lookups. repeat apply Forall_cons_2; [..|apply Forall_nil_2].
    + unfold Datasets.getDataset. settle_observed Ht.
    + unfold KeyValueStores.getStore. settle_observed Ht.
    + unfold Tasks.getTask. settle_observed Ht.
    + unfold RequestQueues.getQueue. settle_observed Ht.
    + unfold RequestQueues.getRequest. settle_observed Ht.
  - unfold deletions. repeat apply Forall_cons_2; [..|apply Forall_nil_2].
    + unfold Datasets.deleteDataset. settle_observed Ht.
    + unfold KeyValueStores.deleteStore. settle_observed Ht.
    + unfold KeyValueStores.deleteRecord. settle_observed Ht.
    + unfold Tasks.deleteTask. settle_observed Ht.
    + unfold RequestQueues.deleteQueue. settle_observed Ht.
    + unfold RequestQueues.deleteRequest. settle_observed Ht.
Qed.

(** ** Uploads of records and dataset items *)



(** ** Retry ceiling of the request-queue endpoints *)

Lemma issuesSome_Throw (P : Obj -> Prop) (idle : bool) (e : JsError) :
  issuesSome P idle (Throw e).
Proof. split; [split; [by left|done]|constructor]. Qed.

Lemma issuesSome_first (P : Obj -> Prop) (p : Promise JsVal) (r : Obj) (rest : Trace) :
  sent (Ok p) = r :: rest -> Forall P (r :: rest) -> issuesSome P false (Ok p).
Proof.
  intros Hs HP. unfold issuesSome. rewrite Hs. split; [|done].
  split; [done|]. by intros [?|?].
Qed.

(** Settle a method that issues one request, whatever it attaches to it. *)
Ltac settle_single :=
  js_beta; forget_query;
  repeat match goal with
  | |- context [checkParamOrThrow ?v ?n ?ty] =>
      destruct (checkParamOrThrow v n ty) as [[]|?] eqn:?; js_beta
  | |- context [getProp ?v ?k] => destruct (getProp v k) eqn:?; js_beta
  | |- context [if truthy ?v then _ else _] => destruct (truthy v) eqn:?; js_beta
  | |- context [if isEmpty ?v then _ else _] => destruct (isEmpty v) eqn:?; js_beta
  | |- context [Datasets.getItems_joinFields ?v] =>
      destruct (Datasets.getItems_joinFields v) eqn:?; js_beta
  end;
  first [ apply issuesOne_Throw
        | eapply issuesOne_single; [by one_request | by simplify_map_eq] ].

Section Backoff.
Context `{Runtime}.
Implicit Types (t : Transport) (options : Obj).

Lemma further_endpoints_no_override t options :
  Forall (fun m : Method =>
            issuesOne (fun r => r !! "expBackOffMaxRepeats" = None)
                      (m (requestPromise t) options))
         furtherEndpoints.
Proof.
  unfold furtherEndpoints. repeat apply Forall_cons_2; [..|apply Forall_nil_2].
  - unfold KeyValueStores.getOrCreateStore. settle_single.
  - unfold KeyValueStores.listKeys. settle_single.
  - unfold Datasets.getOrCreateDataset. settle_single.
  - unfold Datasets.getItems. settle_single.
  - unfold Acts.listActs. settle_single.
  - unfold Acts.createAct. settle_single.
  - unfold Acts.updateAct. settle_single.
  - unfold Acts.deleteAct. settle_single.
  - unfold Acts.getAct. settle_single.
  - unfold Acts.listRuns. settle_single.
  - unfold Acts.runAct. settle_single.
  - unfold Acts.getRun. settle_single.
  - unfold Acts.listBuilds. settle_single.
  - unfold Acts.buildAct. settle_single.
  - unfold Acts.getBuild. settle_single.
  - unfold Logs.getLog. settle_single.
  - unfold Crawlers.listCrawlers. settle_single.
  - unfold Crawlers.getListOfExecutions. settle_single.
  - unfold Crawlers.createCrawler. settle_single.
  - unfold Crawlers.updateCrawler. settle_single.
  - unfold Crawlers.getCrawlerSettings. settle_single.
  - unfold Crawlers.deleteCrawler. settle_single.
  - unfold Crawlers.startExecution. settle_single.
  - unfold Crawlers.stopExecution. settle_single.
  - unfold Crawlers.getExecutionDetails. settle_single.
  - unfold Crawlers.getLastExecution. settle_single.
  - unfold Crawlers.getExecutionResults. settle_single.
  - unfold Crawlers.getLastExecutionResults. settle_single.
  - unfold Crawlers._resurrectExecution. settle_single.
  - unfold Crawlers._enqueuePage. settle_single.
  - unfold KeyValueStoresFirst.getOrCreateStore. settle_single.
  - unfold KeyValueStoresFirst.getStore. settle_single.
  - unfold KeyValueStoresFirst.deleteStore. settle_single.
  - unfold KeyValueStoresFirst.putRecord. settle_single.
  - unfold KeyValueStoresFirst.deleteRecord. settle_single.
Qed.

Ltac no_override :=
  repeat match goal with
  | |- context [if truthy ?v then _ else _] => destruct (truthy v)
  end;
  first [reflexivity | by simplify_map_eq].

(** Follow a promise chain request by request. *)
Ltac settle_some t :=
  unfold issuesSome; cbn [returnsPromise]; rewrite sent_Ok;
  unfold then_chain, then_full, requestPromise; cbn [app];
  repeat match goal with
  | |- context [t ?tr ?r] =>
      destruct (t tr r); cbn [adopt reject resolve fst snd]; js_beta
  | |- context [getProp ?v ?k] =>
      destruct (getProp v k); cbn [adopt reject resolve fst snd]; js_beta
  end;
  unfold requestPromise; autorewrite with trace; cbn [app snd];
  (split; [split; [done|by intros [?|?]]|repeat constructor; no_override]).

Lemma negotiating_endpoints_no_override t options :
  Forall (fun mi : Method * bool =>
            issuesSome (fun r => r !! "expBackOffMaxRepeats" = None) mi.2
                       (mi.1 (requestPromise t) options))
         (negotiatingEndpoints options).
Proof.
  unfold negotiatingEndpoints. repeat apply Forall_cons_2; [..|apply Forall_nil_2];
    cbn [fst snd].
  - unfold issuesSome, gzipFails. rewrite putRecord_sent.
    destruct (returnsPromise _); [|split; [split; [by left|done]|constructor]].
    unfold recordRequests. destruct (gzip _) as [gz|e];
      [|split; [split; [by right|done]|constructor]].
    destruct (_ <? _).
    + split; [split; [done|by intros [?|?]]|]. apply Forall_singleton. no_override.
    + split; [split; [done|by intros [?|?]]|]. constructor; [no_override|].
      destruct (t [] _) as [response|e]; [|constructor].
      destruct (signedUrlOf response) as [signedUrl|e]; [|constructor].
      apply Forall_singleton. no_override.
  - unfold KeyValueStores.getRecord. step_checks; try apply issuesSome_Throw.
    destruct (truthy (options !!! "url")); cbn [negb]; settle_some t.
  - unfold issuesSome, gzipFails. rewrite putItems_sent.
    destruct (returnsPromise _); [|split; [split; [by left|done]|constructor]].
    unfold itemsRequests. destruct (gzip _) as [gz|e];
      [|split; [split; [by right|done]|constructor]].
    split; [split; [done|by intros [?|?]]|]. apply Forall_singleton. no_override.
  - unfold KeyValueStoresUrlOption.putRecord. step_checks; try apply issuesSome_Throw.
    destruct (truthy (options !!! "url")); cbn [negb]; [|settle_some t].
    unfold issuesSome; cbn [returnsPromise]; rewrite sent_Ok.
    unfold then_chain, then_full, requestPromise; cbn [app].
    match goal with |- context [t [] ?r] => set (newRequestOpts := r) end.
    assert (newRequestOpts !! "expBackOffMaxRepeats" = None) as Hnew
      by (unfold newRequestOpts; rewrite lookup_union; by simplify_map_eq).
    clearbody newRequestOpts.
    assert (forall rest : Trace,
              Forall (fun r : Obj => r !! "expBackOffMaxRepeats" = None) rest ->
              (newRequestOpts :: rest = [] <-> true = false \/ false = true)
              /\ Forall (fun r : Obj => r !! "expBackOffMaxRepeats" = None)
                        (newRequestOpts :: rest)) as Hrest.
    { intros rest Hr. split; [split; [done|by intros [?|?]]|by constructor]. }
    destruct (t [] newRequestOpts) as [response|e]; cbn [adopt reject snd];
      [|by apply Hrest]. js_beta.
    destruct (getProp response "data") as [data|e]; cbn [adopt reject snd];
      [|by apply Hrest].
    destruct (getProp data "signedUrl") as [signedUrl|e]; cbn [adopt reject snd];
      [|by apply Hrest].
    unfold KeyValueStoresUrlOption.gzipPromise.
    destruct (options !!! "promise"); cbn [adopt reject snd]; try by apply Hrest.
    destruct (gzip _) as [gz|e]; cbn [adopt reject resolve snd app]; [|by apply Hrest].
    apply Hrest. apply Forall_singleton. rewrite lookup_union. by simplify_map_eq.
  - unfold KeyValueStoresUrlOption.getRecord. step_checks; try apply issuesSome_Throw.
    destruct (truthy (options !!! "url")); cbn [negb]; settle_some t.
Qed.

End Backoff.

(** C4 (amended). The methods that work on the requests of a queue
    (addRequest, getRequest, deleteRequest, updateRequest, getHead) dispatch
    their HTTP request with [expBackOffMaxRepeats] 9.  No other method passes
    such an override: not the methods that work on a queue as a whole
    (getOrCreateQueue, listQueues, getQueue, deleteQueue), not the methods of
    the tasks, acts, logs, crawlers and datasets groups, not the methods of
    the key-value stores group ([listRecords] apart, which is not embedded)
    or of its two earlier versions.  Each of these issues one request when it
    gets past its parameter checks; [putRecord], [getRecord] and [putItems],
    which may issue a second request, or none when the compression fails,
    carry no override on any request. *)
Theorem request_endpoints_backoff_ceiling `{Runtime} (t : Transport) (options : Obj) :
  Forall (fun m : Method =>
            issuesOne (fun r => r !! "expBackOffMaxRepeats" = Some (JNum 9))
                      (m (requestPromise t) options))
         requestEndpoints
  /\ Forall (fun m : Method =>
               issuesOne (fun r => r !! "expBackOffMaxRepeats" = None)
                         (m (requestPromise t) options))
            (queueEndpoints ++ otherEndpoints ++ furtherEndpoints)
  /\ Forall (fun mi : Method * bool =>
               issuesSome (fun r => r !! "expBackOffMaxRepeats" = None) mi.2
                          (mi.1 (requestPromise t) options))
            (negotiatingEndpoints options).
Proof.
  split; [|split].
  - unfold requestEndpoints. repeat apply Forall_cons_2; [..|apply Forall_nil_2].
    + unfold RequestQueues.addRequest. settle_one.
    + unfold RequestQueues.getRequest. settle_one.
    + unfold RequestQueues.deleteRequest. settle_one.
    + unfold RequestQueues.updateRequest. settle_one.
    + unfold RequestQueues.getHead. settle_one.
  - rewrite !Forall_app. split; [|split; [|apply further_endpoints_no_override]].
    + unfold queueEndpoints. repeat apply Forall_cons_2; [..|apply Forall_nil_2].
      * unfold RequestQueues.getOrCreateQueue. settle_one.
      * unfold RequestQueues.listQueues. settle_one.
      * unfold RequestQueues.getQueue. settle_one.
      * unfold RequestQueues.deleteQueue. settle_one.
    + unfold otherEndpoints. repeat apply Forall_cons_2; [..|apply Forall_nil_2].
      * unfold Tasks.listTasks, Tasks.paginationQuery. settle_one.
      * unfold Tasks.createTask. settle_one.
      * unfold Tasks.updateTask. settle_one.
      * unfold Tasks.deleteTask. settle_one.
      * unfold Tasks.getTask. settle_one.
      * unfold Tasks.listRuns, Tasks.paginationQuery. settle_one.
      * unfold Tasks.runTask. settle_one.
      * unfold Tasks.listWebhooks, Tasks.paginationQuery. settle_one.
      * unfold Tasks.getInput. settle_one.
      * unfold Tasks.updateInput. settle_one.
      * unfold KeyValueStores.listStores. settle_one.
      * unfold KeyValueStores.getStore. settle_one.
      * unfold KeyValueStores.deleteStore. settle_one.
      * unfold KeyValueStores.deleteRecord. settle_one.
      * unfold Datasets.listDatasets. settle_one.
      * unfold Datasets.getDataset. settle_one.
      * unfold Datasets.deleteDataset. settle_one.
  - apply negotiating_endpoints_no_override.
Qed.

(** ** Compression and content type of uploads *)

Section Compression.
Context `{Runtime}.

Lemma recordUpload_gzipped (options : Obj) (gz : list Byte.byte) :
  gzip (encodedBodyOf options) = Ok gz ->
  gzippedUpload (encodedBodyOf options) (contentTypeOf options) (recordUpload options gz).
Proof. intros Hgz. exists gz. by repeat split. Qed.

Lemma recordUpload_signed_gzipped (options : Obj) (gz : list Byte.byte) (signedUrl : JsVal) :
  gzip (encodedBodyOf options) = Ok gz ->
  gzippedUpload (encodedBodyOf options) (contentTypeOf options)
                (<["url" := signedUrl]> (recordUpload options gz)).
Proof. intros Hgz. exists gz. by repeat split. Qed.

End Compression.

Lemma putRecord_requests_gzipped `{Runtime} (t : Transport) (options : Obj) :
  Forall (fun r : Obj =>
            r = recordNegotiation options
            \/ gzippedUpload (encodedBodyOf options) (contentTypeOf options) r)
         (sent (KeyValueStores.putRecord (requestPromise t) options)).
Proof.
  rewrite putRecord_sent. destruct (returnsPromise _); [|constructor].
  unfold recordRequests. destruct (gzip _) as [gz|e] eqn:Hgz; [|constructor].
  destruct (_ <? _).
  - apply Forall_singleton. right. by apply recordUpload_gzipped.
  - constructor; [by left|].
    destruct (t [] _) as [response|e]; [|constructor].
    destruct (signedUrlOf response) as [signedUrl|e]; [|constructor].
    apply Forall_singleton. right. by apply recordUpload_signed_gzipped.
Qed.

(** C6, as stated, fails on the earlier [putRecord]
    ([src/key_value_stores.js]): without the [url] option it sends the body
    as it is, with a [Content-Type] header and no [Content-Encoding]. *)
Lemma legacy_putRecord_sends_the_body_uncompressed :
  exists upload : Obj,
    sent (KeyValueStoresUrlOption.putRecord (H:=plainRuntime)
            (requestPromise (respondWith JUndefined)) plainRecord) = [upload]
    /\ upload !! "url"
       = Some (JStr "https://api.apify.com/v2/key-value-stores/some-id/records/foo")
    /\ upload !! "body" = Some (JStr "bar")
    /\ upload !! "headers" = Some (JObj {[ "Content-Type" := JStr "text/plain" ]})
    /\ ~ gzippedUpload (H:=plainRuntime) (JStr "bar") (JStr "text/plain") upload.
Proof.
  exists {[ "url" := JStr "https://api.apify.com/v2/key-value-stores/some-id/records/foo";
            "method" := JStr "PUT";
            "body" := JStr "bar";
            "json" := JBool false;
            "headers" := JObj {[ "Content-Type" := JStr "text/plain" ]} ]}.
  split; [vm_compute; reflexivity|].
  split; [reflexivity|]. split; [reflexivity|]. split; [reflexivity|].
  intros (gz & _ & Hbody & _). discriminate Hbody.
Qed.

Section Dispatch.
Context `{Runtime}.
Implicit Types (t : Transport) (options : Obj).

(** What [putRecord] does once its parameters are checked. *)
Lemma putRecord_dispatch t options :
  returnsPromise (KeyValueStores.putRecord (requestPromise t) options) = true ->
  match gzip (encodedBodyOf options) with
  | Throw e =>
      dispatch (KeyValueStores.putRecord (requestPromise t) options) = (RejectedWith e, [])
  | Ok gzipedBody =>
      if Z.of_nat (length gzipedBody) <? 262144
      then sent (KeyValueStores.putRecord (requestPromise t) options)
           = [recordUpload options gzipedBody]
      else match t [] (recordNegotiation options) with
           | Rejected e =>
               dispatch (KeyValueStores.putRecord (requestPromise t) options)
               = (RejectedWith e, [recordNegotiation options])
           | Fulfilled response =>
               match signedUrlOf response with
               | Throw e =>
                   dispatch (KeyValueStores.putRecord (requestPromise t) options)
                   = (RejectedWith e, [recordNegotiation options])
               | Ok signedUrl =>
                   sent (KeyValueStores.putRecord (requestPromise t) options)
                   = [recordNegotiation options;
                      <["url" := signedUrl]> (recordUpload options gzipedBody)]
               end
           end
  end.
Proof.
  unfold KeyValueStores.putRecord. step_checks; try discriminate. intros _.
  unfold encodedBodyOf, contentTypeOf, gzipPromise.
  destruct (gzip _) as [gz|e]; [|reflexivity].
  rewrite sent_Ok. unfold dispatch.
  unfold then_chain, then_full, resolve. cbn [getProp String.eqb Ascii.eqb Bool.eqb].
  js_beta. unfold lessThan, KeyValueStores.SIGNED_URL_UPLOAD_MIN_BYTESIZE.
  change (1024 * 256) with 262144.
  destruct (Z.of_nat (length gz) <? 262144); cbn [adopt]; [reflexivity|].
  unfold then_full, requestPromise, recordNegotiation, recordUpload, signedUrlOf.
  cbn [app]. js_beta.
  destruct (t [] _) as [response|e]; [|reflexivity].
  destruct (getProp response "data") as [data|e]; [|reflexivity].
  destruct (getProp data "signedUrl") as [signedUrl|e]; reflexivity.
Qed.

Lemma putItems_dispatch t options :
  returnsPromise (Datasets.putItems (requestPromise t) options) = true ->
  match gzip (JSON_stringify (options !!! "data")) with
  | Throw e => dispatch (Datasets.putItems (requestPromise t) options) = (RejectedWith e, [])
  | Ok gzipedBody =>
      sent (Datasets.putItems (requestPromise t) options) = [itemsUpload options gzipedBody]
  end.
Proof.
  unfold Datasets.putItems. step_checks; try discriminate. intros _.
  unfold gzipPromise. destruct (gzip _) as [gz|e]; [|reflexivity].
  by rewrite sent_Ok.
Qed.

End Dispatch.

(** C6 (amended). [putRecord] of the later key-value stores module and
    [putItems] compress what they upload.  Every request that [putRecord]
    issues is either the signed-URL negotiation or an upload whose body is the
    gzip compression of the encoded body and whose headers are [Content-Type],
    the content type the body was encoded under, and [Content-Encoding: gzip].
    Once the parameters are checked and the body is compressed there is such
    an upload: to the record endpoint below 262144 compressed bytes, and
    otherwise to the signed URL, when the negotiation yields one; when the
    compression fails the call is rejected and nothing is sent.  [putItems]
    uploads the compressed JSON text of the items to the items endpoint in
    the same way, with content type [application/json; charset=utf-8]. *)
Theorem uploads_are_gzipped_and_say_so `{Runtime} (t : Transport) (options : Obj) :
  Forall (fun r : Obj =>
            r = recordNegotiation options
            \/ gzippedUpload (encodedBodyOf options) (contentTypeOf options) r)
         (sent (KeyValueStores.putRecord (requestPromise t) options))
  /\ Forall (gzippedUpload (JSON_stringify (options !!! "data"))
                           (JStr "application/json; charset=utf-8"))
            (sent (Datasets.putItems (requestPromise t) options))
  /\ (returnsPromise (KeyValueStores.putRecord (requestPromise t) options) = true ->
      match gzip (encodedBodyOf options) with
      | Throw e =>
          dispatch (KeyValueStores.putRecord (requestPromise t) options)
          = (RejectedWith e, [])
      | Ok gzipedBody =>
          if Z.of_nat (length gzipedBody) <? 262144
          then exists upload : Obj,
                 sent (KeyValueStores.putRecord (requestPromise t) options) = [upload]
                 /\ upload !! "url" = Some (recordUrl options)
                 /\ gzippedUpload (encodedBodyOf options) (contentTypeOf options) upload
          else match t [] (recordNegotiation options) with
               | Rejected e =>
                   dispatch (KeyValueStores.putRecord (requestPromise t) options)
                   = (RejectedWith e, [recordNegotiation options])
               | Fulfilled response =>
                   match signedUrlOf response with
                   | Throw e =>
                       dispatch (KeyValueStores.putRecord (requestPromise t) options)
                       = (RejectedWith e, [recordNegotiation options])
                   | Ok signedUrl =>
                       exists upload : Obj,
                         sent (KeyValueStores.putRecord (requestPromise t) options)
                         = [recordNegotiation options; upload]
                         /\ upload !! "url" = Some signedUrl
                         /\ gzippedUpload (encodedBodyOf options) (contentTypeOf options)
                                          upload
                   end
               end
      end)
  /\ (returnsPromise (Datasets.putItems (requestPromise t) options) = true ->
      match gzip (JSON_stringify (options !!! "data")) with
      | Throw e =>
          dispatch (Datasets.putItems (requestPromise t) options) = (RejectedWith e, [])
      | Ok gzipedBody =>
          exists upload : Obj,
            sent (Datasets.putItems (requestPromise t) options) = [upload]
            /\ upload !! "url" = Some (itemsEndpoint options)
            /\ gzippedUpload (JSON_stringify (options !!! "data"))
                             (JStr "application/json; charset=utf-8") upload
      end).
Proof.
  split; [apply putRecord_requests_gzipped|]. split; [|split].
  - rewrite putItems_sent. destruct (returnsPromise _); [|constructor].
    unfold itemsRequests. destruct (gzip _) as [gz|e] eqn:Hgz; [|constructor].
    apply Forall_singleton. exists gz. by repeat split.
  - intros Hreturns. pose proof (putRecord_dispatch t options Hreturns) as Hput.
    destruct (gzip (encodedBodyOf options)) as [gz|e] eqn:Hgz; [|exact Hput].
    destruct (Z.of_nat (length gz) <? 262144).
    + eexists. split; [exact Hput|]. split; [reflexivity|].
      by apply recordUpload_gzipped.
    + destruct (t [] (recordNegotiation options)) as [response|e]; [|exact Hput].
      destruct (signedUrlOf response) as [signedUrl|e]; [|exact Hput].
      eexists. split; [exact Hput|]. split; [by simplify_map_eq|].
      by apply recordUpload_signed_gzipped.
  - intros Hreturns. pose proof (putItems_dispatch t options Hreturns) as Hput.
    destruct (gzip (JSON_stringify (options !!! "data"))) as [gz|e] eqn:Hgz; [|exact Hput].
    eexists. split; [exact Hput|]. split; [reflexivity|].
    exists gz. by repeat split.
Qed.

(** ** The default content type of records *)



Section ContentType.
Context `{Runtime}.
Implicit Types (t : Transport) (options : Obj).


End ContentType.


(** ** Identifiers in URL paths *)

Lemma replaceAll_absent (c d : ascii) (s : string) :
  occurrences c s = 0%nat -> replaceAll c d s = s.
Proof.
  induction s as [|a s IH]; cbn; [done|].
  destruct (Ascii.eqb a c); [done|]. intros Hs. by rewrite IH.
Qed.

Lemma replaceFirst_at_most_one (c d : ascii) (s : string) :
  (occurrences c s <= 1)%nat -> Tasks.replaceFirst c d s = replaceAll c d s.
Proof.
  induction s as [|a s IH]; cbn; [done|].
  destruct (Ascii.eqb a c).
  - intros Hs. rewrite replaceAll_absent; [done|lia].
  - intros Hs. by rewrite IH.
Qed.

Lemma replaceAll_occurrences (c d : ascii) (s : string) :
  c <> d -> occurrences c (replaceAll c d s) = 0%nat.
Proof.
  intros Hcd. induction s as [|a s IH]; cbn; [done|].
  rewrite IH. destruct (Ascii.eqb a c) eqn:Hac.
  - destruct (Ascii.eqb d c) eqn:Hdc; [|done].
    apply Ascii.eqb_eq in Hdc. congruence.
  - by rewrite Hac.
Qed.

(** C7, as stated, fails outside the tasks group: [getQueue] puts the queue
    identifier in the path as it was given, slash included. *)
Lemma getQueue_keeps_slash_in_path :
  sent (RequestQueues.getQueue (H:=plainRuntime)
          (requestPromise (respondWith JUndefined)) johnsQueue)
  = [ {[ "url" := JStr "https://api.apify.com/v2/request-queues/john/my-queue";
         "json" := JBool true;
         "method" := JStr "GET";
         "qs" := JObj {[ "token" := JStr "f5J7XsdaKDyRywwuGGo9" ]} ]} ].
Proof. vm_compute. reflexivity. Qed.

Lemma append_empty (s : string) : s +:+ "" = s.
Proof.
  induction s as [|a s IH]; [done|].
  change (String a (s +:+ "") = String a s). by rewrite IH.
Qed.

Ltac settle_task Hid Hfirst :=
  js_beta; rewrite ?Hid; js_beta; forget_query;
  repeat match goal with
  | |- context [checkParamOrThrow ?v ?n ?ty] =>
      destruct (checkParamOrThrow v n ty) as [[]|?] eqn:?; js_beta
  | |- context [getProp ?v ?k] => destruct (getProp v k) eqn:?; js_beta
  | |- context [if truthy ?v then _ else _] => destruct (truthy v) eqn:?; js_beta
  | |- context [Tasks.replaceSlashWithTilde (JStr ?s)] =>
      change (Tasks.replaceSlashWithTilde (JStr s))
        with (Ok (A:=JsVal) (JStr (Tasks.replaceFirst "/" "~" s))); js_beta
  end;
  first [ apply issuesOne_Throw
        | eapply issuesOne_single;
          [ by one_request
          | unfold taskUrl; cbn [toStr]; rewrite ?append_empty, Hfirst;
            by simplify_map_eq ] ].

Lemma issuesFirst_Throw (P : Obj -> Prop) (idle : bool) (e : JsError) :
  issuesFirst P idle (Throw e).
Proof. split; [split; [by left|done]|]. by intros first rest. Qed.

Lemma issuesFirst_first (P : Obj -> Prop) (p : Promise JsVal) (r : Obj) (rest : Trace) :
  sent (Ok p) = r :: rest -> P r -> issuesFirst P false (Ok p).
Proof.
  intros Hs HP. unfold issuesFirst. rewrite Hs. split.
  - split; [done|]. by intros [?|?].
  - by intros first rest' [= <- _].
Qed.

(** Settle a method that issues one request to a given URL. *)
Ltac settle_url :=
  cbn [fst snd]; js_beta; forget_query;
  repeat match goal with
  | |- context [checkParamOrThrow ?v ?n ?ty] =>
      destruct (checkParamOrThrow v n ty) as [[]|?] eqn:?; js_beta
  | |- context [getProp ?v ?k] => destruct (getProp v k) eqn:?; js_beta
  | |- context [if isEmpty ?v then _ else _] => destruct (isEmpty v) eqn:?; js_beta
  | |- context [if truthy ?v then _ else _] => destruct (truthy v) eqn:?; js_beta
  | |- context [Datasets.getItems_joinFields ?v] =>
      destruct (Datasets.getItems_joinFields v) eqn:?; js_beta
  end;
  first [ apply issuesOne_Throw
        | eapply issuesOne_single; [by one_request | by simplify_map_eq] ].

Section Paths.
Context `{Runtime}.
Implicit Types (t : Transport) (options : Obj).

Lemma verbatimPaths_kept t options :
  Forall (fun mu : Method * string =>
            issuesOne (fun r => r !! "url" = Some (JStr mu.2))
                      (mu.1 (requestPromise t) options))
         (verbatimPaths options).
Proof.
  unfold verbatimPaths. cbv zeta. repeat apply Forall_cons_2; [..|apply Forall_nil_2].
  - unfold Datasets.getDataset. settle_url.
  - unfold Datasets.deleteDataset. settle_url.
  - unfold Datasets.getItems. settle_url.
  - unfold KeyValueStores.getStore. settle_url.
  - unfold KeyValueStores.deleteStore. settle_url.
  - unfold KeyValueStores.deleteRecord. settle_url.
  - unfold KeyValueStores.listKeys. settle_url.
  - unfold KeyValueStoresFirst.getStore. settle_url.
  - unfold KeyValueStoresFirst.deleteStore. settle_url.
  - unfold KeyValueStoresFirst.putRecord. settle_url.
  - unfold KeyValueStoresFirst.deleteRecord. settle_url.
  - unfold RequestQueues.getQueue. settle_url.
  - unfold RequestQueues.deleteQueue. settle_url.
  - unfold RequestQueues.addRequest. settle_url.
  - unfold RequestQueues.getRequest. settle_url.
  - unfold RequestQueues.deleteRequest. settle_url.
  - unfold RequestQueues.updateRequest. cbn [fst snd]. js_beta.
    destruct (checkParamOrThrow (options !!! "request") _ _) as [[]|?] eqn:Hrequest;
      js_beta; [|apply issuesOne_Throw].
    apply checkParamOrThrow_Object in Hrequest as [o ->]. cbn [getProp fieldsOf].
    destruct (truthy (options !!! "requestId")); js_beta; settle_url.
  - unfold RequestQueues.getHead. settle_url.
  - unfold Acts.updateAct, idOrOwnId. cbn [fst snd].
    destruct (truthy (options !!! "actId")); js_beta; [settle_url|].
    destruct (options !!! "act") as [| | | | | | | |act];
      cbn [getProp fieldsOf String.eqb Ascii.eqb Bool.eqb]; js_beta;
      try apply issuesOne_Throw;
      rewrite ?lookup_total_empty_undefined; cbn [truthy]; js_beta;
      [settle_url..|].
    destruct (truthy (act !!! "id")); js_beta; settle_url.
  - unfold Acts.deleteAct. settle_url.
  - unfold Acts.getAct. settle_url.
  - unfold Acts.listRuns. settle_url.
  - unfold Acts.runAct. settle_url.
  - unfold Acts.getRun. settle_url.
  - unfold Acts.listBuilds. settle_url.
  - unfold Acts.buildAct. settle_url.
  - unfold Acts.getBuild. settle_url.
  - unfold Logs.getLog. settle_url.
  - unfold Crawlers.listCrawlers. settle_url.
  - unfold Crawlers.createCrawler. settle_url.
  - unfold Crawlers.updateCrawler. settle_url.
  - unfold Crawlers.getCrawlerSettings. settle_url.
  - unfold Crawlers.deleteCrawler. settle_url.
  - unfold Crawlers.startExecution. settle_url.
  - unfold Crawlers.stopExecution. settle_url.
  - unfold Crawlers.getListOfExecutions. settle_url.
  - unfold Crawlers.getExecutionDetails. settle_url.
  - unfold Crawlers.getLastExecution. settle_url.
  - unfold Crawlers.getExecutionResults. settle_url.
  - unfold Crawlers.getLastExecutionResults. settle_url.
  - unfold Crawlers._resurrectExecution. settle_url.
  - unfold Crawlers._enqueuePage. settle_url.
Qed.


(** Follow a promise chain to its first request. *)
Ltac settle_first t :=
  unfold issuesFirst; cbn [returnsPromise]; rewrite sent_Ok;
  unfold then_chain, then_full, requestPromise; cbn [app];
  repeat match goal with
  | |- context [if truthy ?v then _ else _] => destruct (truthy v)
  end;
  repeat match goal with
  | |- context [t ?tr ?r] =>
      destruct (t tr r); cbn [adopt reject resolve fst snd]; js_beta
  | |- context [getProp ?v ?k] =>
      destruct (getProp v k); cbn [adopt reject resolve fst snd]; js_beta
  end;
  unfold requestPromise; autorewrite with trace; cbn [app snd];
  (split; [split; [done|by intros [?|?]]|]);
  (let first := fresh "first" in
   let rest := fresh "rest" in
   intros first rest [= <- _]; unfold addressesRecord;
   first [ exists ""; rewrite append_empty; by simplify_map_eq
         | eexists; by simplify_map_eq ]).

Lemma recordEndpoints_kept t options :
  Forall (fun mi : Method * bool =>
            issuesFirst (addressesRecord options) mi.2 (mi.1 (requestPromise t) options))
         (recordEndpoints options).
Proof.
  unfold recordEndpoints. repeat apply Forall_cons_2; [..|apply Forall_nil_2];
    cbn [fst snd].
  - unfold issuesFirst, gzipFails. rewrite putRecord_sent.
    destruct (returnsPromise _); [|split; [split; [by left|done]|done]].
    unfold recordRequests. destruct (gzip _) as [gz|e];
      [|split; [split; [by right|done]|done]].
    destruct (_ <? _); (split; [split; [done|by intros [?|?]]|]);
      intros first rest [= <- _]; unfold addressesRecord.
    + exists "". rewrite append_empty. reflexivity.
    + eexists. reflexivity.
  - unfold KeyValueStores.getRecord. step_checks; try apply issuesFirst_Throw.
    destruct (truthy (options !!! "url")); cbn [negb]; settle_first t.
  - unfold KeyValueStoresUrlOption.putRecord. step_checks; try apply issuesFirst_Throw.
    destruct (truthy (options !!! "url")); cbn [negb]; [|settle_first t].
    unfold issuesFirst; cbn [returnsPromise]; rewrite sent_Ok.
    unfold then_chain, then_full, requestPromise; cbn [app].
    match goal with |- context [t [] ?r] => set (newRequestOpts := r) end.
    assert (addressesRecord options newRequestOpts) as Hnew.
    { exists "". rewrite append_empty. unfold newRequestOpts.
      rewrite lookup_union. by simplify_map_eq. }
    clearbody newRequestOpts.
    assert (forall rest : Trace,
              (newRequestOpts :: rest = [] <-> true = false \/ false = true)
              /\ forall (first : Obj) (rest' : Trace),
                   newRequestOpts :: rest = first :: rest' ->
                   addressesRecord options first) as Hrest.
    { intros rest. split; [split; [done|by intros [?|?]]|]. by intros first rest' [= <- _]. }
    destruct (t [] newRequestOpts) as [response|e]; cbn [adopt reject snd];
      [|by apply Hrest]. js_beta.
    destruct (getProp response "data") as [data|e]; cbn [adopt reject snd];
      [|by apply Hrest].
    destruct (getProp data "signedUrl") as [signedUrl|e]; cbn [adopt reject snd];
      [|by apply Hrest].
    unfold KeyValueStoresUrlOption.gzipPromise.
    destruct (options !!! "promise"); cbn [adopt reject snd]; try by apply Hrest.
    destruct (gzip _) as [gz|e]; cbn [adopt reject resolve snd app]; by apply Hrest.
  - unfold KeyValueStoresUrlOption.getRecord. step_checks; try apply issuesFirst_Throw.
    destruct (truthy (options !!! "url")); cbn [negb]; settle_first t.
Qed.

Lemma putItems_path t options :
  issuesFirst (fun r => r !! "url" = Some (itemsEndpoint options))
              (gzipFails (JSON_stringify (options !!! "data")))
              (Datasets.putItems (requestPromise t) options).
Proof.
  unfold issuesFirst, gzipFails. rewrite putItems_sent.
  destruct (returnsPromise _); [|split; [split; [by left|done]|done]].
  unfold itemsRequests. destruct (gzip _) as [gz|e];
    [|split; [split; [by right|done]|done]].
  split; [split; [done|by intros [?|?]]|]. by intros first rest [= <- _].
Qed.

Lemma updateTask_segment t options (id : string) :
  idOrOwnId (options !!! "taskId") (fieldsOf (options !!! "task")) = JStr id ->
  (occurrences "/" id <= 1)%nat ->
  issuesOne (fun r => r !! "url" = Some (taskUrl options (replaceAll "/" "~" id) ""))
            (Tasks.updateTask (requestPromise t) options).
Proof.
  intros Hchosen Hone.
  pose proof (replaceFirst_at_most_one "/" "~" id Hone) as Hfirst.
  unfold Tasks.updateTask, idOrOwnId in *. js_beta.
  destruct (checkParamOrThrow (options !!! "baseUrl") _ _) as [[]|?]; js_beta;
    [|apply issuesOne_Throw].
  destruct (checkParamOrThrow (options !!! "token") _ _) as [[]|?]; js_beta;
    [|apply issuesOne_Throw].
  destruct (checkParamOrThrow (options !!! "task") _ _) as [[]|?] eqn:Htask; js_beta;
    [|apply issuesOne_Throw].
  apply checkParamOrThrow_Object in Htask as [task Htask]. rewrite Htask in *.
  cbn [getProp fieldsOf] in *. js_beta.
  assert (forall body : JsVal,
            issuesOne (fun r => r !! "url"
                                = Some (taskUrl options (replaceAll "/" "~" id) ""))
              (Ok (then_ (then_ (requestPromise t {[
                     "url" := JStr (toStr (options !!! "baseUrl") +:+ Tasks.BASE_PATH
                                    +:+ "/" +:+ toStr (JStr (Tasks.replaceFirst "/" "~" id)));
                     "json" := JBool true;
                     "method" := JStr "PUT";
                     "qs" := JObj {[ "token" := options !!! "token" ]};
                     "body" := body ]}) pluckData) parseDateFields))) as Hsent.
  { intros body. eapply issuesOne_single; [by one_request|].
    unfold taskUrl. cbn [toStr]. rewrite append_empty, Hfirst. by simplify_map_eq. }
  destruct (truthy (options !!! "taskId")); js_beta.
  - rewrite Hchosen. cbn [checkParamOrThrow hasKind Tasks.replaceSlashWithTilde]. js_beta.
    apply Hsent.
  - destruct (truthy (task !!! "id")); rewrite Hchosen.
    + cbn [checkParamOrThrow hasKind Tasks.replaceSlashWithTilde]. js_beta. apply Hsent.
    + destruct (checkParamOrThrow (task !!! "id") _ _) as [[]|?]; js_beta;
        [|apply issuesOne_Throw].
      cbn [Tasks.replaceSlashWithTilde]. js_beta. apply Hsent.
Qed.

End Paths.

(** C7 (amended). In the tasks group, a task identifier with at most one [/]
    reaches the server with every [/] replaced by [~] in its path segment;
    for [updateTask] the identifier is [taskId] or, when that is falsy, the
    [id] of the task.  The methods of the other groups put the identifiers
    they are given in the path as they are: each builds the URL of its
    request from the base URL and the identifiers, unchanged. *)
Theorem task_identifier_slash_becomes_tilde `{Runtime}
    (t : Transport) (options : Obj) (taskId : string) :
  options !! "taskId" = Some (JStr taskId) ->
  (occurrences "/" taskId <= 1)%nat ->
  Forall (fun ms : Method * string =>
            issuesOne (fun r => r !! "url"
                                = Some (taskUrl options (replaceAll "/" "~" taskId) ms.2))
                      (ms.1 (requestPromise t) options))
         taskMethods
  /\ (forall (update : Obj) (id : string),
        idOrOwnId (update !!! "taskId") (fieldsOf (update !!! "task")) = JStr id ->
        (occurrences "/" id <= 1)%nat ->
        issuesOne (fun r => r !! "url"
                            = Some (taskUrl update (replaceAll "/" "~" id) ""))
                  (Tasks.updateTask (requestPromise t) update))
  /\ occurrences "/" (replaceAll "/" "~" taskId) = 0%nat
  /\ Forall (fun mu : Method * string =>
               issuesOne (fun r => r !! "url" = Some (JStr mu.2))
                         (mu.1 (requestPromise t) options))
            (verbatimPaths options)
  /\ Forall (fun mi : Method * bool =>
               issuesFirst (addressesRecord options) mi.2 (mi.1 (requestPromise t) options))
            (recordEndpoints options)
  /\ issuesFirst (fun r => r !! "url" = Some (itemsEndpoint options))
                 (gzipFails (JSON_stringify (options !!! "data")))
                 (Datasets.putItems (requestPromise t) options).
Proof.
  intros Hid Hone.
  assert (options !!! "taskId" = JStr taskId) as Hid'
    by (by rewrite lookup_total_alt, Hid).
  pose proof (replaceFirst_at_most_one "/" "~" taskId Hone) as Hfirst.
  split; [|split; [|split; [|split; [|split]]]].
  - unfold taskMethods. repeat apply Forall_cons_2; [..|apply Forall_nil_2]; cbn [fst snd].
    + unfold Tasks.deleteTask. settle_task Hid' Hfirst.
    + unfold Tasks.getTask. settle_task Hid' Hfirst.
    + unfold Tasks.listRuns. settle_task Hid' Hfirst.
    + unfold Tasks.runTask. settle_task Hid' Hfirst.
    + unfold Tasks.listWebhooks. settle_task Hid' Hfirst.
    + unfold Tasks.getInput. settle_task Hid' Hfirst.
    + unfold Tasks.updateInput. settle_task Hid' Hfirst.
  - intros update id. apply updateTask_segment.
  - by apply replaceAll_occurrences.
  - apply verbatimPaths_kept.
  - apply recordEndpoints_kept.
  - apply putItems_path.
Qed.

(** ** Conflicting parameters of [runTask] *)

Section RunTask.
Context `{Runtime}.

(** After its checks, [taskId] is a string and so is its path segment. *)
Ltac task_segment :=
  match goal with
  | Hc : checkParamOrThrow (?options !!! "taskId") _ (Required KString) = Ok _ |- _ =>
      let taskId := fresh "taskId" in
      let Htask := fresh "Htask" in
      destruct (checkParamOrThrow_String _ _ Hc) as [taskId Htask];
      rewrite Htask; cbn [Tasks.replaceSlashWithTilde]; js_beta
  end.

Lemma runTask_both (t : Transport) (options : Obj) :
  truthy (options !!! "body") = true ->
  truthy (options !!! "input") = true ->
  exists e, Tasks.runTask (requestPromise t) options = Throw e
            /\ (runTaskChecks options = Ok tt -> e = Error Tasks.conflictMessage).
Proof.
  intros Hbody Hinput. unfold Tasks.runTask, runTaskChecks. js_beta.
  rewrite Hbody, Hinput. js_beta.
  repeat match goal with
  | |- context [checkParamOrThrow ?v ?n ?ty] =>
      destruct (checkParamOrThrow v n ty) as [[]|?] eqn:?; js_beta;
      [|eexists; split; [reflexivity|discriminate]]
  end.
  task_segment. eauto.
Qed.

Lemma runTask_one (t : Transport) (options : Obj) :
  runTaskChecks options = Ok tt ->
  (truthy (options !!! "body") = true /\ truthy (options !!! "input") = false
   /\ runTaskBodyChecks options = Ok tt
   \/ truthy (options !!! "body") = false /\ truthy (options !!! "input") = true) ->
  exists r : Obj,
    returnsPromise (Tasks.runTask (requestPromise t) options) = true
    /\ sent (Tasks.runTask (requestPromise t) options) = [r]
    /\ r !! "body" = Some (if truthy (options !!! "input")
                           then options !!! "input" else options !!! "body")
    /\ r !! "json" = (if truthy (options !!! "input") then Some (JBool true) else None).
Proof.
  unfold Tasks.runTask, runTaskChecks, runTaskBodyChecks. js_beta. forget_query.
  intros Hchecks Hone.
  repeat match type of Hchecks with
  | context [checkParamOrThrow ?v ?n ?ty] =>
      destruct (checkParamOrThrow v n ty) as [[]|?] eqn:?; js_beta;
      [|discriminate Hchecks]
  end.
  task_segment.
  destruct Hone as [(Hbody & Hinput & Hbc)|(Hbody & Hinput)]; rewrite Hbody, Hinput; js_beta.
  - repeat match type of Hbc with
    | context [checkParamOrThrow ?v ?n ?ty] =>
        destruct (checkParamOrThrow v n ty) as [[]|?] eqn:?; js_beta;
        [|discriminate Hbc]
    end.
    destruct (truthy (options !!! "contentType"));
      (eexists; split; [reflexivity|split; [by one_request|by simplify_map_eq]]).
  - eexists; split; [reflexivity|split; [by one_request|by simplify_map_eq]].
Qed.

Lemma runTask_falsy_body (t : Transport) (options : Obj) :
  runTaskChecks options = Ok tt ->
  truthy (options !!! "body") = false ->
  exists r : Obj,
    returnsPromise (Tasks.runTask (requestPromise t) options) = true
    /\ sent (Tasks.runTask (requestPromise t) options) = [r]
    /\ r !! "body" = (if truthy (options !!! "input") then Some (options !!! "input") else None)
    /\ r !! "headers" = None.
Proof.
  unfold Tasks.runTask, runTaskChecks. js_beta. forget_query.
  intros Hchecks Hbody.
  repeat match type of Hchecks with
  | context [checkParamOrThrow ?v ?n ?ty] =>
      destruct (checkParamOrThrow v n ty) as [[]|?] eqn:?; js_beta;
      [|discriminate Hchecks]
  end.
  task_segment. rewrite Hbody. js_beta.
  destruct (truthy (options !!! "input"));
    (eexists; split; [reflexivity|split; [by one_request|by simplify_map_eq]]).
Qed.

End RunTask.

(** C8, as stated, fails on a body that is supplied but falsy: [runTask] with
    the empty string as [body] and an [input] throws nothing and issues its
    request, with the input as the request body. *)
Lemma runTask_empty_body_with_input_is_accepted :
  dispatch (Tasks.runTask (H:=plainRuntime) (requestPromise (respondWith JUndefined))
              (<["body" := JStr ""]> (<["input" := structuredInput]> runOptions)))
  = (Resolved JNull,
     [ {[ "url" := JStr "https://api.apify.com/v2/actor-tasks/some-task/runs";
          "method" := JStr "POST";
          "qs" := JObj {[ "token" := JStr "f5J7XsdaKDyRywwuGGo9" ]};
          "body" := structuredInput;
          "json" := JBool true ]} ]).
Proof. vm_compute. reflexivity. Qed.

(** C8 (amended). A [runTask] call whose [body] and [input] are both truthy
    throws before any HTTP request is issued; when the other parameters are
    valid, what it throws is the plain [Error] saying that the two cannot be
    used together.  With a truthy [body] alone, or with an [input] and a
    falsy [body], and valid parameters, the call issues its request with that
    one as the request body; a falsy [body] is ignored whatever it is. *)
Theorem runTask_body_conflicts_with_input `{Runtime} (t : Transport) (options : Obj) :
  (truthy (options !!! "body") = true ->
   truthy (options !!! "input") = true ->
   exists e,
     dispatch (Tasks.runTask (requestPromise t) options) = (ThrewSynchronously e, [])
     /\ (runTaskChecks options = Ok tt -> e = Error Tasks.conflictMessage))
  /\ (runTaskChecks options = Ok tt ->
      truthy (options !!! "body") = true ->
      truthy (options !!! "input") = false ->
      runTaskBodyChecks options = Ok tt ->
      exists r : Obj,
        returnsPromise (Tasks.runTask (requestPromise t) options) = true
        /\ sent (Tasks.runTask (requestPromise t) options) = [r]
        /\ r !! "body" = Some (options !!! "body"))
  /\ (runTaskChecks options = Ok tt ->
      truthy (options !!! "body") = false ->
      truthy (options !!! "input") = true ->
      exists r : Obj,
        returnsPromise (Tasks.runTask (requestPromise t) options) = true
        /\ sent (Tasks.runTask (requestPromise t) options) = [r]
        /\ r !! "body" = Some (options !!! "input")
        /\ r !! "json" = Some (JBool true))
  /\ (runTaskChecks options = Ok tt ->
      truthy (options !!! "body") = false ->
      exists r : Obj,
        returnsPromise (Tasks.runTask (requestPromise t) options) = true
        /\ sent (Tasks.runTask (requestPromise t) options) = [r]
        /\ r !! "body" = (if truthy (options !!! "input")
                          then Some (options !!! "input") else None)
        /\ r !! "headers" = None).
Proof.
  split; [|split; [|split]].
  - intros Hbody Hinput.
    destruct (runTask_both t options Hbody Hinput) as (e & He & Hconflict).
    exists e. by rewrite He.
  - intros Hchecks Hbody Hinput Hbc.
    destruct (runTask_one t options Hchecks) as (r & Hp & Hs & Hb & _); [by auto|].
    rewrite Hinput in Hb. eauto.
  - intros Hchecks Hbody Hinput.
    destruct (runTask_one t options Hchecks) as (r & Hp & Hs & Hb & Hj); [by auto|].
    rewrite Hinput in Hb, Hj. eauto.
  - intros Hchecks Hbody. by apply runTask_falsy_body.
Qed.

(** ** Parameter validation *)

(** What [_.pick] keeps of the options. *)
Lemma pick_lookup (o : Obj) (keys : list string) (k : string) :
  pick o keys !! k = if bool_decide (k ∈ keys) then o !! k else None.
Proof.
  unfold pick. destruct (o !! k) as [v|] eqn:Hk.
  - case_bool_decide.
    + apply map_lookup_filter_Some. split; [done|]. by apply bool_decide_pack.
    + apply map_lookup_filter_None. right. by intros v' Hv' Hin%bool_decide_unpack.
  - rewrite (proj2 (map_lookup_filter_None _ _ _)); [by case_bool_decide|by left].
Qed.

Lemma pick_lookup_total (o : Obj) (keys : list string) (k : string) :
  k ∈ keys -> pick o keys !!! k = o !!! k.
Proof. intros Hk. by rewrite !lookup_total_alt, pick_lookup, bool_decide_eq_true_2. Qed.


(** After its check, [taskId] is a string and so is its path segment. *)
Ltac string_taskId :=
  match goal with
  | Hc : checkParamOrThrow (?options !!! "taskId") _ (Required KString) = Ok _ |- _ =>
      let taskId := fresh "taskId" in
      let Htask := fresh "Htask" in
      destruct (checkParamOrThrow_String _ _ Hc) as [taskId Htask];
      rewrite Htask; cbn [Tasks.replaceSlashWithTilde]; js_beta
  end.

(** Walk through the checks of a method and of its list together. *)
Ltac settle_first_failure :=
  unfold reportsFirstFailure, encodedBodyOf, contentTypeOf;
  cbn [fst snd app firstFailure]; js_beta;
  repeat match goal with
  | |- context [checkParamOrThrow ?v ?n ?ty] =>
      destruct (checkParamOrThrow v n ty) as [[]|?] eqn:?; js_beta; [|reflexivity]
  end;
  try string_taskId;
  repeat match goal with
  | |- context [if truthy ?v then _ else _] => destruct (truthy v)
  end;
  try reflexivity.

Section Checks.
Context `{Runtime}.


Lemma checkedMethods_report (request : Obj -> Promise JsVal) (options : Obj) :
  Forall (fun mc : Method * list ParamCheck =>
            reportsFirstFailure mc.2 (mc.1 request options))
         (checkedMethods options).
Proof.
  unfold checkedMethods. repeat apply Forall_cons_2; [..|apply Forall_nil_2].
  - unfold Acts.listActs. settle_first_failure.
  - unfold Acts.createAct. settle_first_failure.
  - unfold Acts.deleteAct. settle_first_failure.
  - unfold Acts.getAct. settle_first_failure.
  - unfold Acts.listRuns. settle_first_failure.
  - unfold Acts.runAct. settle_first_failure.
  - unfold Acts.getRun. settle_first_failure.
  - unfold Acts.listBuilds. settle_first_failure.
  - unfold Acts.buildAct. settle_first_failure.
  - unfold Acts.getBuild. settle_first_failure.
  - unfold Crawlers.listCrawlers. settle_first_failure.
  - unfold Crawlers.getListOfExecutions. settle_first_failure.
  - unfold Crawlers.createCrawler, reportsFirstFailure. cbn [fst snd firstFailure]. js_beta.
    destruct (checkParamOrThrow (options !!! "userId") _ _) as [[]|?]; js_beta; [|reflexivity].
    destruct (checkParamOrThrow (options !!! "token") _ _) as [[]|?]; js_beta; [|reflexivity].
    destruct (checkParamOrThrow (options !!! "settings") _ _) as [[]|?] eqn:Hsettings;
      js_beta; [|reflexivity].
    apply checkParamOrThrow_Object in Hsettings as [settings ->].
    cbn [getProp fieldsOf]. js_beta.
    destruct (checkParamOrThrow _ "settings.customId" _) as [[]|?]; js_beta; reflexivity.
  - unfold Crawlers.updateCrawler. settle_first_failure.
  - unfold Crawlers.getCrawlerSettings. settle_first_failure.
  - unfold Crawlers.deleteCrawler. settle_first_failure.
  - unfold Crawlers.startExecution. settle_first_failure.
  - unfold Crawlers.stopExecution. settle_first_failure.
  - unfold Crawlers.getExecutionDetails. settle_first_failure.
  - unfold Crawlers.getLastExecution. settle_first_failure.
  - unfold Crawlers.getExecutionResults. settle_first_failure.
  - unfold Crawlers.getLastExecutionResults. settle_first_failure.
  - reflexivity.
  - reflexivity.
  - unfold KeyValueStores.getOrCreateStore. settle_first_failure.
  - unfold KeyValueStores.getRecord. settle_first_failure.
  - unfold KeyValueStores.listKeys. settle_first_failure.
  - unfold Datasets.getOrCreateDataset. settle_first_failure.
  - unfold Datasets.getItems, reportsFirstFailure. cbn [fst snd firstFailure]. js_beta.
    repeat match goal with
    | |- context [checkParamOrThrow ?v ?n ?ty] =>
        lazymatch n with
        | "fields" => fail
        | _ => destruct (checkParamOrThrow v n ty) as [[]|?] eqn:?; js_beta; [|reflexivity]
        end
    end.
    destruct (checkParamOrThrow (options !!! "fields") _ _) as [[]|?] eqn:Hfields;
      js_beta; [|reflexivity].
    repeat match goal with
    | |- context [checkParamOrThrow ?v ?n ?ty] =>
        destruct (checkParamOrThrow v n ty) as [[]|?] eqn:?; js_beta; [|reflexivity]
    end.
    destruct (isEmpty _); [reflexivity|].
    rewrite pick_lookup_total by (repeat first [apply list_elem_of_here | apply list_elem_of_further]).
    destruct (options !!! "fields"); try discriminate; reflexivity.
Qed.



End Checks.



Lemma methodDecorator_unfold (this : ApifyClient.Client) (method : Method)
    (callOpts : Obj) (callback : option ApifyClient.Callback) (h : ApifyClient.Heap) :
  let instanceOpts : Obj := h !!! ApifyClient.instanceOpts this in
  let mergedOpts := fresh (dom h) in
  ApifyClient.methodDecorator this method callOpts callback h
  = match ApifyClient.checkRequired instanceOpts ["protocol"; "host"; "promise"] with
    | Throw e => (Throw e, <[mergedOpts := callOpts ∪ instanceOpts]> h)
    | Ok _ =>
        let h' := <[mergedOpts := mergedOptsOf instanceOpts callOpts]> h in
        match method (ApifyClient.preconfiguredRequest this)
                     (mergedOptsOf instanceOpts callOpts) with
        | Throw e => (Throw e, h')
        | Ok promise =>
            (Ok (mergedOpts,
                 match callback with
                 | None => ApifyClient.ReturnedPromise promise
                 | Some callback =>
                     ApifyClient.ReturnedUndefined
                       (then2 promise
                          (fun result => callback None result)
                          (fun error => callback (Some error) JUndefined))
                 end), h')
        end
    end.
Proof.
  intros instanceOpts mergedOpts.
  unfold ApifyClient.methodDecorator, ApifyClient.alloc.
  fold instanceOpts mergedOpts.
  destruct (ApifyClient.checkRequired _ _); [|done].
  assert (alter (fun m : Obj => <["baseUrl" := JStr (ApifyClient.baseUrlOf m)]> m) mergedOpts
            (<[mergedOpts := callOpts ∪ instanceOpts]> h)
          = <[mergedOpts := mergedOptsOf instanceOpts callOpts]> h) as ->.
  { rewrite alter_insert_eq. done. }
  rewrite lookup_total_insert_eq.
  destruct (method _ _); [|done]. by destruct callback.
Qed.


(** ** Instance options *)

Section SetOptions.
Import ApifyClient.
Implicit Types (this : Client) (h : Heap) (method : Method).

Lemma setOptions_frame this (newOptions : Obj) h (l : Loc) :
  l <> instanceOpts this -> setOptions this newOptions h !! l = h !! l.
Proof. intros Hl. unfold setOptions. by rewrite lookup_insert_ne. Qed.

Lemma setOptions_instanceOpts this (newOptions : Obj) h :
  setOptions this newOptions h !!! instanceOpts this
  = newOptions ∪ (h !!! instanceOpts this).
Proof. unfold setOptions. by rewrite lookup_total_insert_eq. Qed.

(** A decorated call allocates its [mergedOpts]; it writes nowhere else. *)
Lemma methodDecorator_heap this method (callOpts : Obj) (callback : option Callback) h :
  exists o : Obj,
    (methodDecorator this method callOpts callback h).2 = <[fresh (dom h) := o]> h
    /\ forall loc ret,
         (methodDecorator this method callOpts callback h).1 = Ok (loc, ret) ->
         loc = fresh (dom h)
         /\ o = mergedOptsOf (h !!! instanceOpts this) callOpts
         /\ exists promise,
              method (preconfiguredRequest this) o = Ok promise
              /\ ret = match callback with
                       | None => ReturnedPromise promise
                       | Some callback =>
                           ReturnedUndefined
                             (then2 promise
                                (fun result => callback None result)
                                (fun error => callback (Some error) JUndefined))
                       end.
Proof.
  rewrite methodDecorator_unfold. cbv zeta.
  destruct (checkRequired _ _) as [[]|e]; [|by eexists].
  destruct (method _ _) as [promise|e] eqn:Hm.
  - eexists. split; [reflexivity|]. intros loc ret [= <- <-]. eauto.
  - by eexists.
Qed.

Lemma fresh_loc_allocated h (l : Loc) : is_Some (h !! l) -> l <> fresh (dom h).
Proof.
  intros Hl%elem_of_dom ->. by apply (is_fresh (dom h)).
Qed.

End SetOptions.

(** C9. [setOptions] writes to the instance options object and to nothing
    else.  A call dispatched before it keeps the [mergedOpts] object it was
    built with, untouched by [setOptions] and by later calls, and so the
    promise and the request descriptors built from that object.  A call
    issued after it is built from the call options merged over the new
    values merged over the earlier instance options. *)
Theorem setOptions_reaches_later_calls_only
    (this : ApifyClient.Client) (method method' : Method)
    (callOpts callOpts' newOptions : Obj)
    (callback callback' : option ApifyClient.Callback) (h : ApifyClient.Heap) :
  is_Some (h !! ApifyClient.instanceOpts this) ->
  let before := ApifyClient.methodDecorator this method callOpts callback h in
  let h1 := before.2 in
  let h2 := ApifyClient.setOptions this newOptions h1 in
  let after := ApifyClient.methodDecorator this method' callOpts' callback' h2 in
  (forall l, l <> ApifyClient.instanceOpts this -> h2 !! l = h1 !! l)
  /\ h2 !!! ApifyClient.instanceOpts this
     = newOptions ∪ (h !!! ApifyClient.instanceOpts this)
  /\ (forall mergedOpts ret,
        before.1 = Ok (mergedOpts, ret) ->
        h1 !! mergedOpts = Some (mergedOptsOf (h !!! ApifyClient.instanceOpts this) callOpts)
        /\ h2 !! mergedOpts = h1 !! mergedOpts
        /\ after.2 !! mergedOpts = h1 !! mergedOpts
        /\ exists promise,
             method (ApifyClient.preconfiguredRequest this) (after.2 !!! mergedOpts)
             = Ok promise
             /\ ret = match callback with
                      | None => ApifyClient.ReturnedPromise promise
                      | Some callback =>
                          ApifyClient.ReturnedUndefined
                            (then2 promise
                               (fun result => callback None result)
                               (fun error => callback (Some error) JUndefined))
                      end)
  /\ (forall mergedOpts' ret',
        after.1 = Ok (mergedOpts', ret') ->
        after.2 !! mergedOpts'
        = Some (mergedOptsOf (newOptions ∪ (h !!! ApifyClient.instanceOpts this)) callOpts')).
Proof.
  intros Hinst before h1 h2 after.
  destruct (methodDecorator_heap this method callOpts callback h) as (o & Hh1 & Hbefore).
  fold before in Hh1, Hbefore. fold h1 in Hh1.
  pose proof (fresh_loc_allocated h _ Hinst) as Hfresh.
  assert (h1 !!! ApifyClient.instanceOpts this = h !!! ApifyClient.instanceOpts this) as Hsame.
  { rewrite Hh1. by rewrite lookup_total_insert_ne. }
  assert (h2 !!! ApifyClient.instanceOpts this
          = newOptions ∪ (h !!! ApifyClient.instanceOpts this)) as Hnew.
  { unfold h2. by rewrite setOptions_instanceOpts, Hsame. }
  destruct (methodDecorator_heap this method' callOpts' callback' h2) as (o' & Hh3 & Hafter).
  fold after in Hh3, Hafter.
  split; [|split; [|split]].
  - intros l Hl. by apply setOptions_frame.
  - exact Hnew.
  - intros mergedOpts ret Hret.
    destruct (Hbefore _ _ Hret) as (-> & -> & promise & Hp & ->).
    assert (h1 !! fresh (dom h)
            = Some (mergedOptsOf (h !!! ApifyClient.instanceOpts this) callOpts)) as Hl1
      by (by rewrite Hh1, lookup_insert_eq).
    assert (h2 !! fresh (dom h) = h1 !! fresh (dom h)) as Hl2
      by (by apply setOptions_frame).
    assert (after.2 !! fresh (dom h) = h1 !! fresh (dom h)) as Hl3.
    { rewrite Hh3, lookup_insert_ne; [done|].
      apply not_eq_sym, fresh_loc_allocated. rewrite Hl2, Hl1. by eexists. }
    repeat split; try done.
    exists promise. split; [|done].
    by rewrite lookup_total_alt, Hl3, Hl1.
  - intros mergedOpts' ret' Hret.
    destruct (Hafter _ _ Hret) as (-> & -> & _).
    by rewrite Hh3, lookup_insert_eq, Hnew.
Qed.

(** ** The properties at concrete calls *)

Lemma not_found_is_null_on_lookups_witness :
  (forall tr r, failWith 404 tr r = Rejected (RequestFailedError 404))
  /\ Forall (fun m : Method =>
               observes (m (requestPromise (failWith 404)) everyIdentifier) (Resolved JNull))
            (lookups (H:=plainRuntime))
  /\ Forall (fun m : Method =>
               observes (m (requestPromise (failWith 404)) everyIdentifier)
                        (RejectedWith (RequestFailedError 404)))
            (deletions (H:=plainRuntime)).
Proof.
  split; [reflexivity|].
  apply (not_found_is_null_on_lookups (H:=plainRuntime)
           (failWith 404) (RequestFailedError 404) everyIdentifier).
  reflexivity.
Defined.

Example getTask_not_found :
  dispatch (Tasks.getTask (H:=plainRuntime) (requestPromise (failWith 404)) everyIdentifier)
  = (Resolved JNull,
     [ {[ "url" := JStr "https://api.apify.com/v2/actor-tasks/john~my-task";
          "json" := JBool true;
          "method" := JStr "GET";
          "qs" := JObj {[ "token" := JStr "f5J7XsdaKDyRywwuGGo9" ]} ]} ]).
Proof. vm_compute. reflexivity. Qed.

Example getTask_server_error :
  observed (Tasks.getTask (H:=plainRuntime) (requestPromise (failWith 500)) everyIdentifier)
  = RejectedWith (RequestFailedError 500).
Proof. vm_compute. reflexivity. Qed.

Lemma task_identifier_slash_becomes_tilde_witness :
  slashedIdentifiers !! "taskId" = Some (JStr "john/my-task")
  /\ (occurrences "/" "john/my-task" <= 1)%nat
  /\ Forall (fun ms : Method * string =>
               issuesOne (fun r => r !! "url"
                                   = Some (taskUrl slashedIdentifiers "john~my-task" ms.2))
                         (ms.1 (requestPromise (respondWith JUndefined)) slashedIdentifiers))
            (taskMethods (H:=plainRuntime))
  /\ Forall (fun ms : Method * string =>
               returnsPromise
                 (ms.1 (requestPromise (respondWith JUndefined)) slashedIdentifiers) = true)
            (taskMethods (H:=plainRuntime))
  /\ issuesOne (fun r => r !! "url" = Some (taskUrl slashedIdentifiers "john~my-task" ""))
               (Tasks.updateTask (H:=plainRuntime)
                  (requestPromise (respondWith JUndefined)) slashedIdentifiers)
  /\ issuesOne (fun r => r !! "url" = Some (taskUrl ownIdUpdate "john~my-task" ""))
               (Tasks.updateTask (H:=plainRuntime)
                  (requestPromise (respondWith JUndefined)) ownIdUpdate)
  /\ returnsPromise (Tasks.updateTask (H:=plainRuntime)
                       (requestPromise (respondWith JUndefined)) slashedIdentifiers) = true
  /\ returnsPromise (Tasks.updateTask (H:=plainRuntime)
                       (requestPromise (respondWith JUndefined)) ownIdUpdate) = true
  /\ issuesOne (fun r => r !! "url"
                         = Some (JStr "https://api.apify.com/v2/request-queues/john/my-queue"))
               (RequestQueues.getQueue (H:=plainRuntime)
                  (requestPromise (respondWith JUndefined)) slashedIdentifiers)
  /\ returnsPromise (RequestQueues.getQueue (H:=plainRuntime)
                       (requestPromise (respondWith JUndefined)) slashedIdentifiers) = true
  /\ occurrences "/" "john~my-task" = 0%nat.
Proof.
  assert (occurrences "/" "john/my-task" <= 1)%nat as Hone by (vm_compute; lia).
  destruct (task_identifier_slash_becomes_tilde (H:=plainRuntime)
              (respondWith JUndefined) slashedIdentifiers "john/my-task" eq_refl Hone)
    as (Hmethods & Hupdate & Hnone & Hverbatim & _).
  split; [reflexivity|].
  split; [exact Hone|].
  split; [exact Hmethods|].
  split; [repeat constructor|].
  split; [exact (Hupdate slashedIdentifiers "john/my-task" eq_refl Hone)|].
  split; [exact (Hupdate ownIdUpdate "john/my-task" eq_refl Hone)|].
  split; [reflexivity|].
  split; [reflexivity|].
  split; [exact (Forall_lookup_1 _ _ 11%nat _ Hverbatim eq_refl)|].
  split; [reflexivity|exact Hnone].
Defined.

(** The segment of an identifier with two slashes: the first is replaced. *)
Example replaceSlashWithTilde_two_slashes :
  Tasks.replaceSlashWithTilde (JStr "a/b/c") = Ok (JStr "a~b/c").
Proof. reflexivity. Qed.

Lemma runTask_body_conflicts_with_input_witness :
  dispatch (Tasks.runTask (H:=plainRuntime) (requestPromise (respondWith JUndefined))
              (<["body" := legacyBody]> (<["input" := structuredInput]> runOptions)))
  = (ThrewSynchronously (Error Tasks.conflictMessage), [])
  /\ (exists r : Obj,
        sent (Tasks.runTask (H:=plainRuntime) (requestPromise (respondWith JUndefined))
                (<["body" := legacyBody]> runOptions)) = [r]
        /\ r !! "body" = Some legacyBody)
  /\ (exists r : Obj,
        sent (Tasks.runTask (H:=plainRuntime) (requestPromise (respondWith JUndefined))
                (<["input" := structuredInput]> runOptions)) = [r]
        /\ r !! "body" = Some structuredInput)
  /\ (exists r : Obj,
        sent (Tasks.runTask (H:=plainRuntime) (requestPromise (respondWith JUndefined))
                (<["body" := JStr ""]> (<["input" := structuredInput]> runOptions))) = [r]
        /\ r !! "body" = Some structuredInput).
Proof.
  split; [|split; [|split]].
  - destruct (runTask_body_conflicts_with_input (H:=plainRuntime)
                (respondWith JUndefined)
                (<["body" := legacyBody]> (<["input" := structuredInput]> runOptions)))
      as (Hboth & _ & _ & _).
    destruct (Hboth eq_refl eq_refl) as (e & He & Hconflict).
    rewrite He, (Hconflict eq_refl). reflexivity.
  - destruct (runTask_body_conflicts_with_input (H:=plainRuntime)
                (respondWith JUndefined) (<["body" := legacyBody]> runOptions))
      as (_ & Hbody & _ & _).
    destruct (Hbody eq_refl eq_refl eq_refl eq_refl) as (r & _ & Hs & Hb).
    exists r. split; [exact Hs|exact Hb].
  - destruct (runTask_body_conflicts_with_input (H:=plainRuntime)
                (respondWith JUndefined) (<["input" := structuredInput]> runOptions))
      as (_ & _ & Hinput & _).
    destruct (Hinput eq_refl eq_refl eq_refl) as (r & _ & Hs & Hb & _).
    exists r. split; [exact Hs|exact Hb].
  - destruct (runTask_body_conflicts_with_input (H:=plainRuntime)
                (respondWith JUndefined)
                (<["body" := JStr ""]> (<["input" := structuredInput]> runOptions)))
      as (_ & _ & _ & Hfalsy).
    destruct (Hfalsy eq_refl eq_refl) as (r & _ & Hs & Hb & _).
    exists r. split; [exact Hs|exact Hb].
Defined.


Example putRecord_text_plain :
  sent (KeyValueStores.putRecord (H:=plainRuntime)
          (requestPromise (respondWith JUndefined)) plainRecord)
  = [ {[ "url" := JStr "https://api.apify.com/v2/key-value-stores/some-id/records/foo";
         "method" := JStr "PUT";
         "body" := JBuffer (list_byte_of_string "bar");
         "json" := JBool false;
         "headers" := JObj {[ "Content-Type" := JStr "text/plain";
                              "Content-Encoding" := JStr "gzip" ]} ]} ].
Proof. vm_compute. reflexivity. Qed.

Example listItems_counts_the_items :
  observed (DatasetClient.listItems (H:=plainRuntime)
              (requestPromise
                 (respondWith
                    (JObj {[ "data" := JArr [JStr "a"; JStr "b"];
                             "headers" := JObj {[ "x-apify-pagination-total" := JNum 2;
                                                  "x-apify-pagination-offset" := JNum 0;
                                                  "x-apify-pagination-count" := JNum 5;
                                                  "x-apify-pagination-limit" := JNum 1000 ]} ]})))
              itemsUrl (fun options => options) JUndefined)
  = Resolved (JObj {[ "items" := JArr [JStr "a"; JStr "b"];
                      "total" := JNum 2;
                      "offset" := JNum 0;
                      "count" := JNum 2;
                      "limit" := JNum 1000 ]}).
Proof. vm_compute. reflexivity. Qed.

Example listTasks_without_token :
  dispatch (Tasks.listTasks (H:=plainRuntime) (requestPromise (respondWith JUndefined))
              {[ "baseUrl" := JStr "https://api.apify.com" ]})
  = (ThrewSynchronously (MissingParameterError "token"), []).
Proof. vm_compute. reflexivity. Qed.

Example pushItems_of_a_number :
  dispatch (DatasetClient.pushItems
              (requestPromise (respondWith JUndefined)) itemsUrl (fun options => options)
              (JNum 1))
  = (RejectedWith (ArgumentError "Expected argument to match the predicate"), []).
Proof. vm_compute. reflexivity. Qed.

Example putItems_upload :
  exists upload : Obj,
    sent (Datasets.putItems (H:=plainRuntime)
            (requestPromise (respondWith JUndefined)) largeItems) = [upload]
    /\ upload !! "url" = Some (JStr "https://api.apify.com/v2/datasets/some-id/items")
    /\ upload !! "headers"
       = Some (JObj {[ "Content-Type" := JStr "application/json; charset=utf-8";
                       "Content-Encoding" := JStr "gzip" ]}).
Proof.
  eexists. split; [rewrite putItems_sent; reflexivity|]. split; reflexivity.
Qed.

Example new_client :
  ApifyClient.new true JUndefined (respondWith JUndefined) (Some 0%nat) callerHeap
  = (Ok {| ApifyClient.instanceOpts := 1%nat;
           ApifyClient.preconfiguredRequest := requestPromise (respondWith JUndefined) |},
     {[ 0%nat := delete "_overrideMethodGroups" overridingOptions;
        1%nat := <["storeId" := JUndefined]> instanceObject ]}).
Proof. vm_compute. reflexivity. Qed.

Lemma setOptions_reaches_later_calls_only_witness :
  is_Some (clientHeap !! 0%nat)
  /\ let before := ApifyClient.methodDecorator client method1 ∅ None clientHeap in
     let h2 := ApifyClient.setOptions client newHost before.2 in
     let after := ApifyClient.methodDecorator client method1 ∅ None h2 in
     after.2 !! 1%nat = Some (mergedOptsOf instanceObject ∅)
     /\ after.2 !! 2%nat = Some (mergedOptsOf (newHost ∪ instanceObject) ∅)
     /\ mergedOptsOf instanceObject ∅ !!! "baseUrl" = JStr "http://myhost-1:80/mypath-1"
     /\ mergedOptsOf (newHost ∪ instanceObject) ∅ !!! "baseUrl"
        = JStr "http://my-very-new-host:80/mypath-1".
Proof.
  assert (is_Some (clientHeap !! 0%nat)) as Hinst by (by eexists).
  split; [exact Hinst|].
  destruct (setOptions_reaches_later_calls_only client method1 method1 ∅ ∅ newHost
              None None clientHeap Hinst) as (_ & _ & Hbefore & Hafter).
  cbv zeta in Hbefore, Hafter |- *.
  assert (exists ret,
            (ApifyClient.methodDecorator client method1 ∅ None clientHeap).1
            = Ok (1%nat, ret)) as [ret Hret]
    by (eexists; vm_compute; reflexivity).
  assert (exists ret',
            (ApifyClient.methodDecorator client method1 ∅ None
               (ApifyClient.setOptions client newHost
                  (ApifyClient.methodDecorator client method1 ∅ None clientHeap).2)).1
            = Ok (2%nat, ret')) as [ret' Hret']
    by (eexists; vm_compute; reflexivity).
  destruct (Hbefore 1%nat ret Hret) as (Hb1 & _ & Hb3 & _).
  pose proof (Hafter 2%nat ret' Hret') as Ha.
  split; [by rewrite Hb3, Hb1|].
  split; [exact Ha|].
  split; vm_compute; reflexivity.
Defined.

Example putRecord_300KiB :
  sent (KeyValueStores.putRecord (H:=fixedGzipRuntime compressed300KiB)
          (requestPromise (respondWith signedUrlResponse)) plainRecord)
  = [ {[ "url" := JStr ("https://api.apify.com/v2/key-value-stores/some-id/records/foo"
                        +:+ "/direct-upload-url");
         "method" := JStr "GET";
         "json" := JBool true;
         "headers" := JObj {[ "Content-Type" := JStr "text/plain" ]} ]};
      {[ "url" := JStr "https://s3.amazonaws.com/bucket/foo";
         "method" := JStr "PUT";
         "body" := JBuffer compressed300KiB;
         "json" := JBool false;
         "headers" := JObj {[ "Content-Type" := JStr "text/plain";
                              "Content-Encoding" := JStr "gzip" ]} ]} ].
Proof.
  rewrite putRecord_sent.
  assert (returnsPromise
            (KeyValueStores.putRecord (H:=fixedGzipRuntime compressed300KiB)
               (requestPromise (respondWith signedUrlResponse)) plainRecord) = true)
    as -> by reflexivity.
  unfold recordRequests.
  assert (gzip (Runtime:=fixedGzipRuntime compressed300KiB)
               (encodedBodyOf (H:=fixedGzipRuntime compressed300KiB) plainRecord)
          = Ok compressed300KiB) as -> by reflexivity.
  rewrite compressed300KiB_length.
  assert ((307200 <? 1024 * 256) = false) as -> by reflexivity.
  reflexivity.
Qed.

Example addRequest_descriptor :
  sent (RequestQueues.addRequest (H:=plainRuntime)
          (requestPromise (respondWith JUndefined)) someRequest)
  = [ {[ "url" := JStr "https://api.apify.com/v2/request-queues/some-queue/requests";
         "json" := JBool true;
         "method" := JStr "POST";
         "body" := JObj {[ "url" := JStr "http://example.com";
                           "uniqueKey" := JStr "http://example.com" ]};
         "qs" := JObj {[ "forefront" := JBool false;
                         "token" := JStr "f5J7XsdaKDyRywwuGGo9" ]};
         "expBackOffMaxRepeats" := JNum 9 ]} ].
Proof. vm_compute. reflexivity. Qed.

(** C4, as stated, fails on the methods that work on a queue as a whole:
    the request of [getQueue] carries no [expBackOffMaxRepeats]. *)
Lemma getQueue_has_no_backoff_override :
  exists r : Obj,
    sent (RequestQueues.getQueue (H:=plainRuntime)
            (requestPromise (respondWith JUndefined)) someRequest) = [r]
    /\ r !! "url" = Some (JStr "https://api.apify.com/v2/request-queues/some-queue")
    /\ r !! "expBackOffMaxRepeats" = None.
Proof. eexists. repeat split; vm_compute; reflexivity. Qed.

(** * Further properties of the method groups *)

(** ** Identifiers with several slashes *)

Lemma replaceFirst_length (c d : ascii) (s : string) :
  String.length (Tasks.replaceFirst c d s) = String.length s.
Proof.
  induction s as [|a s IH]; [done|]. cbn [Tasks.replaceFirst].
  destruct (Ascii.eqb a c); cbn [String.length]; congruence.
Qed.

Lemma replaceFirst_occurrences (c d : ascii) (s : string) :
  c <> d -> occurrences c (Tasks.replaceFirst c d s) = pred (occurrences c s).
Proof.
  intros Hcd. induction s as [|a s IH]; [done|]. cbn [Tasks.replaceFirst occurrences].
  destruct (Ascii.eqb a c) eqn:Hac.
  - cbn [occurrences]. apply Ascii.eqb_eq in Hac as ->.
    assert (Ascii.eqb d c = false) as -> by (apply Ascii.eqb_neq; congruence).
    done.
  - cbn [occurrences]. rewrite Hac. cbn [Nat.add]. exact IH.
Qed.

Lemma replaceFirst_absent (c d : ascii) (s : string) :
  occurrences c s = 0%nat -> Tasks.replaceFirst c d s = s.
Proof.
  induction s as [|a s IH]; [done|]. cbn [Tasks.replaceFirst occurrences].
  destruct (Ascii.eqb a c); [done|]. cbn [Nat.add]. intros Hs. by rewrite IH.
Qed.

Lemma replaceFirst_split (c d : ascii) (before after : string) :
  occurrences c before = 0%nat ->
  Tasks.replaceFirst c d (before +:+ String c after) = before +:+ String d after.
Proof.
  induction before as [|a before IH].
  - intros _. change (Tasks.replaceFirst c d (String c after) = String d after).
    cbn [Tasks.replaceFirst]. by rewrite Ascii.eqb_refl.
  - cbn [occurrences]. destruct (Ascii.eqb a c) eqn:Hac; [done|]. cbn [Nat.add].
    intros Hb.
    change (Tasks.replaceFirst c d (String a (before +:+ String c after))
            = String a (before +:+ String d after)).
    cbn [Tasks.replaceFirst]. rewrite Hac. by rewrite IH.
Qed.

(** X1. [replaceSlashWithTilde] rewrites the first slash of an identifier and
    no other: the result is as long as the identifier, has one slash fewer,
    keeps everything before and after the first slash, and an identifier
    without a slash is returned as it is. *)
Theorem replaceSlashWithTilde_rewrites_the_first_slash (s : string) :
  exists r : string,
    Tasks.replaceSlashWithTilde (JStr s) = Ok (JStr r)
    /\ String.length r = String.length s
    /\ occurrences "/" r = pred (occurrences "/" s)
    /\ (occurrences "/" s = 0%nat -> r = s)
    /\ (forall before after : string,
          s = before +:+ String "/" after ->
          occurrences "/" before = 0%nat ->
          r = before +:+ String "~" after).
Proof.
  exists (Tasks.replaceFirst "/" "~" s). split; [done|].
  split; [apply replaceFirst_length|].
  split; [by apply replaceFirst_occurrences|].
  split; [apply replaceFirst_absent|].
  intros before after -> Hb. by apply replaceFirst_split.
Qed.

(** ** Queries *)

Lemma pick_hasQuery (options : Obj) (keys : list string) (r : Obj) :
  r !! "qs" = Some (JObj (pick options keys)) -> hasQuery (pickedQuery options keys) r.
Proof. intros Hr. exists (pick options keys). split; [done|]. apply pick_lookup. Qed.

Lemma pick_nonempty (o : Obj) (keys : list string) (k : string) (v : JsVal) :
  k ∈ keys -> o !! k = Some v -> isEmpty (JObj (pick o keys)) = false.
Proof.
  intros Hk Ho. cbn [isEmpty]. apply bool_decide_eq_false_2. intros Hempty.
  pose proof (pick_lookup o keys k) as Hl. rewrite Hempty, lookup_empty in Hl.
  rewrite bool_decide_eq_true_2, Ho in Hl by done. done.
Qed.

Lemma pick_empty (o : Obj) (keys : list string) :
  isEmpty (JObj (pick o keys)) = true <-> forall k, k ∈ keys -> o !! k = None.
Proof.
  cbn [isEmpty]. rewrite bool_decide_eq_true. split.
  - intros Hempty k Hk. pose proof (pick_lookup o keys k) as Hl.
    rewrite Hempty, lookup_empty in Hl. by rewrite bool_decide_eq_true_2 in Hl.
  - intros Hnone. apply map_eq. intros k. rewrite pick_lookup, lookup_empty.
    case_bool_decide; [by apply Hnone|done].
Qed.

Lemma lookup_assign_if (c : bool) (k k' : string) (v : JsVal) (q : Obj) :
  (if c then <[k := v]> q else q) !! k'
  = if decide (k' = k) then (if c then Some v else q !! k') else q !! k'.
Proof.
  destruct c, (decide (k' = k)) as [->|]; try done.
  - by rewrite lookup_insert_eq.
  - by rewrite lookup_insert_ne.
Qed.

Lemma lookup_singleton_if (k k' : string) (v : JsVal) :
  ({[ k := v ]} : Obj) !! k' = if decide (k' = k) then Some v else None.
Proof.
  destruct (decide (k' = k)) as [->|].
  - by rewrite lookup_singleton_eq.
  - by rewrite lookup_singleton_ne.
Qed.

Lemma bool_decide_elem_of_cons (k a : string) (l : list string) :
  bool_decide (k ∈ a :: l) = if decide (k = a) then true else bool_decide (k ∈ l).
Proof.
  destruct (decide (k = a)) as [->|Hka].
  - apply bool_decide_eq_true_2. by left.
  - apply bool_decide_ext. rewrite elem_of_cons. split; [by intros [?|?]|by right].
Qed.

Lemma bool_decide_elem_of_nil (k : string) : bool_decide (k ∈ @nil string) = false.
Proof. apply bool_decide_eq_false_2. by intros ?%elem_of_nil. Qed.

(** Decide a key against the keys a query may hold. *)
Ltac key_cases k keys :=
  lazymatch keys with
  | nil => idtac
  | cons ?key ?rest => destruct (decide (k = key)) as [->|?]; [|key_cases k rest]
  end.

Ltac settle_lookup :=
  unfold builtQuery;
  rewrite ?bool_decide_elem_of_cons, ?bool_decide_elem_of_nil;
  rewrite ?lookup_assign_if, ?lookup_singleton_if, ?lookup_empty;
  repeat match goal with
  | |- context [decide (?a = ?b)] =>
      first [ rewrite (decide_True (P:=a = b)) by done
            | rewrite (decide_False (P:=a = b)) by done ]
  end;
  repeat match goal with
  | |- context [truthy ?v] => destruct (truthy v) eqn:?
  end;
  try done.

(** Settle a method whose single request carries a query of known keys. *)
Ltac settle_query keys :=
  cbn [fst snd]; js_beta;
  repeat match goal with
  | |- context [checkParamOrThrow ?v ?n ?ty] =>
      destruct (checkParamOrThrow v n ty) as [[]|?] eqn:?; js_beta
  | |- context [Tasks.replaceSlashWithTilde ?v] =>
      destruct (Tasks.replaceSlashWithTilde v) eqn:?; js_beta
  end;
  first [ apply issuesOne_Throw
        | eapply issuesOne_single; [by one_request|];
          eexists; split; [by simplify_map_eq|];
          let k := fresh "k" in
          intros k; key_cases k keys; settle_lookup ].

(** X2. The methods that build their query by assignments send a [limit],
    [offset], [exclusiveStartKey] or optional [token] only when it is truthy
    (a zero limit or offset and an empty token are left out), send [desc] and
    [unnamed] as [1] and only when they are truthy, and send nothing else
    besides the required token. *)
Theorem queries_leave_out_falsy_options `{Runtime} (t : Transport) (options : Obj) :
  Forall (fun mk : Method * (list string * list string * list string) =>
            issuesOne (hasQuery (builtQuery options mk.2.1.1 mk.2.1.2 mk.2.2))
                      (mk.1 (requestPromise t) options))
         queryBuilders.
Proof.
  unfold queryBuilders. repeat apply Forall_cons_2; [..|apply Forall_nil_2].
  - unfold Tasks.listTasks, Tasks.paginationQuery.
    settle_query ["token"; "limit"; "offset"; "desc"; "unnamed"; "exclusiveStartKey"].
  - unfold Tasks.listRuns, Tasks.paginationQuery.
    settle_query ["token"; "limit"; "offset"; "desc"; "unnamed"; "exclusiveStartKey"].
  - unfold Tasks.listWebhooks, Tasks.paginationQuery.
    settle_query ["token"; "limit"; "offset"; "desc"; "unnamed"; "exclusiveStartKey"].
  - unfold KeyValueStores.listStores.
    settle_query ["token"; "limit"; "offset"; "desc"; "unnamed"; "exclusiveStartKey"].
  - unfold RequestQueues.listQueues.
    settle_query ["token"; "limit"; "offset"; "desc"; "unnamed"; "exclusiveStartKey"].
  - unfold Acts.listActs.
    settle_query ["token"; "limit"; "offset"; "desc"; "unnamed"; "exclusiveStartKey"].
  - unfold Acts.listRuns.
    settle_query ["token"; "limit"; "offset"; "desc"; "unnamed"; "exclusiveStartKey"].
  - unfold Acts.listBuilds.
    settle_query ["token"; "limit"; "offset"; "desc"; "unnamed"; "exclusiveStartKey"].
  - unfold KeyValueStores.listKeys.
    settle_query ["token"; "limit"; "offset"; "desc"; "unnamed"; "exclusiveStartKey"].
  - unfold RequestQueues.getHead.
    settle_query ["token"; "limit"; "offset"; "desc"; "unnamed"; "exclusiveStartKey"].
  - unfold RequestQueues.getQueue.
    settle_query ["token"; "limit"; "offset"; "desc"; "unnamed"; "exclusiveStartKey"].
  - unfold RequestQueues.getRequest.
    settle_query ["token"; "limit"; "offset"; "desc"; "unnamed"; "exclusiveStartKey"].
Qed.

Lemma lookup_total_Some_JStr (o : Obj) (k s : string) :
  o !!! k = JStr s -> o !! k = Some (JStr s).
Proof. rewrite lookup_total_alt. destruct (o !! k) as [v|]; cbn; [by intros ->|discriminate]. Qed.

(** Settle a crawler method whose single request carries a picked query. *)
Ltac settle_picked :=
  cbn [fst snd]; js_beta;
  repeat match goal with
  | |- context [checkParamOrThrow ?v ?n ?ty] =>
      destruct (checkParamOrThrow v n ty) as [[]|?] eqn:?; js_beta
  end;
  first [ apply issuesOne_Throw
        | eapply issuesOne_single; [by one_request|];
          apply pick_hasQuery;
          repeat match goal with
          | |- context [if ?c then _ else _] => destruct c
          end;
          by simplify_map_eq ].

(** X3. The crawler methods that take their query from the options send the
    listed keys and no other option, each with the value the caller gave,
    falsy values included. *)
Theorem crawler_queries_are_picked_from_the_options (t : Transport) (options : Obj) :
  Forall (fun mk : Method * list string =>
            issuesOne (hasQuery (pickedQuery options mk.2))
                      (mk.1 (requestPromise t) options))
         queryPickers.
Proof.
  unfold queryPickers. repeat apply Forall_cons_2; [..|apply Forall_nil_2].
  - unfold Crawlers.listCrawlers. settle_picked.
  - unfold Crawlers.getCrawlerSettings. settle_picked.
  - unfold Crawlers.startExecution. settle_picked.
  - unfold Crawlers.getListOfExecutions. settle_picked.
  - unfold Crawlers.getLastExecution. settle_picked.
  - unfold Crawlers.getLastExecutionResults. cbn [fst snd]. step_checks;
      try apply issuesOne_Throw.
    match goal with
    | Htoken : checkParamOrThrow (options !!! "token") "token" _ = Ok tt |- _ =>
        apply checkParamOrThrow_String in Htoken as [token Htoken%lookup_total_Some_JStr]
    end.
    erewrite pick_nonempty;
      [|apply list_elem_of_further, list_elem_of_here|eassumption].
    cbn [negb]. eapply issuesOne_single; [by one_request|].
    apply pick_hasQuery. by simplify_map_eq.
Qed.

(** X4. Optional parts of the crawler requests are left out when there is
    nothing to send: [startExecution] attaches a body only for settings that
    are a non-empty object, and [getExecutionResults] attaches a query only
    when the options hold one of its keys. *)
Theorem crawler_requests_leave_out_empty_parts (t : Transport) (options : Obj) :
  issuesOne (fun r => r !! "body"
                      = match options !!! "settings" with
                        | JObj settings =>
                            if bool_decide (settings = ∅) then None else Some (JObj settings)
                        | _ => None
                        end)
            (Crawlers.startExecution (requestPromise t) options)
  /\ issuesOne (fun r =>
                  (exists k v, k ∈ executionResultsKeys /\ options !! k = Some v
                               /\ hasQuery (pickedQuery options executionResultsKeys) r)
                  \/ ((forall k, k ∈ executionResultsKeys -> options !! k = None)
                      /\ r !! "qs" = None))
               (Crawlers.getExecutionResults (requestPromise t) options).
Proof.
  split.
  - unfold Crawlers.startExecution. step_checks; try apply issuesOne_Throw.
    destruct (options !!! "settings") as [| | | | | | | |settings] eqn:Hsettings;
      try discriminate;
      (eapply issuesOne_single; [by one_request|]); cbn [isEmpty negb];
      try by simplify_map_eq.
    case_bool_decide; cbn [negb]; by simplify_map_eq.
  - unfold Crawlers.getExecutionResults. step_checks; try apply issuesOne_Throw.
    fold executionResultsKeys.
    destruct (isEmpty (JObj (pick options executionResultsKeys))) eqn:Hempty; cbn [negb].
    + eapply issuesOne_single; [by one_request|]. right.
      split; [by apply pick_empty|by simplify_map_eq].
    + eapply issuesOne_single; [by one_request|]. left.
      assert (exists k v, k ∈ executionResultsKeys /\ options !! k = Some v) as (k & v & Hk & Hv).
      { destruct (map_choose (pick options executionResultsKeys)) as (k & v & Hkv).
        - intros Hnil. cbn [isEmpty] in Hempty. by rewrite Hnil, bool_decide_eq_true_2 in Hempty.
        - rewrite pick_lookup in Hkv. case_bool_decide; [|done]. eauto. }
      exists k, v. split; [done|]. split; [done|].
      apply pick_hasQuery. by simplify_map_eq.
Qed.

(** ** Parameter checks of the remaining methods *)

(** X5. The methods of the acts group ([updateAct] apart), of the crawlers
    group and the remaining methods of the stores and datasets groups report
    the error of the first parameter check that fails, in the order of the
    source, by throwing it at the call site before any request; when no check
    fails they return a promise.  The two internal crawler methods check
    nothing. *)
Theorem remaining_methods_report_the_first_failed_check `{Runtime}
    (request : Obj -> Promise JsVal) (options : Obj) :
  Forall (fun mc : Method * list ParamCheck =>
            reportsFirstFailure mc.2 (mc.1 request options))
         (checkedMethods options).
Proof. exact (checkedMethods_report request options). Qed.

(** ** What the caller observes of the answer of the server *)


(** Settle what a method with one request makes of the answer. *)
Ltac settle_answer answer :=
  js_beta; forget_query;
  repeat match goal with
  | |- context [checkParamOrThrow ?v ?n ?ty] =>
      destruct (checkParamOrThrow v n ty) as [[]|?] eqn:?; js_beta
  | |- context [getProp ?v ?k] => destruct (getProp v k) eqn:?; js_beta
  | |- context [if truthy ?v then _ else _] => destruct (truthy v) eqn:?; js_beta
  | |- context [if isEmpty ?v then _ else _] => destruct (isEmpty v) eqn:?; js_beta
  end;
  unfold observes; try reflexivity;
  rewrite observed_Ok;
  rewrite ?then__settled, ?catch__settled, ?then_try_settled, ?then__settled,
    ?requestPromise_settled;
  unfold answerWith, lookupResult, plainResult, catchNotFoundOrThrow;
  destruct answer as [?response|?e]; try reflexivity;
  repeat match goal with
  | |- context [isNotFound ?e] => destruct (isNotFound e)
  | |- context [match ?f ?response with Ok _ => _ | Throw _ => _ end] =>
      destruct (f response)
  end; reflexivity.

(** X6. What the methods of the acts group make of the answer of the server:
    the lookups (getAct, getRun, getBuild) resolve to the [data] of the
    response, to null when the answer is HTTP 404, and are rejected with any
    other error; the other methods that unwrap [data] are rejected with every
    error; [deleteAct] resolves to the response as it is; [runAct] parses the
    response text before it unwraps it and is rejected with the error of the
    parser when the text is malformed. *)
Theorem acts_results_follow_the_answer `{Runtime} (answer : Settled JsVal) (options : Obj) :
  Forall (fun m : Method =>
            observes (m (requestPromise (answerWith answer)) options)
                     (lookupResult pluckData answer))
         actLookups
  /\ Forall (fun m : Method =>
               observes (m (requestPromise (answerWith answer)) options)
                        (plainResult pluckData answer))
            actUnwrapping
  /\ observes (Acts.deleteAct (requestPromise (answerWith answer)) options)
              (plainResult (fun response => response) answer)
  /\ observes (Acts.runAct (requestPromise (answerWith answer)) options)
              (match answer with
               | Fulfilled response =>
                   match JSON_parse response with
                   | Ok parsed => Resolved (pluckData parsed)
                   | Throw e => RejectedWith e
                   end
               | Rejected e => RejectedWith e
               end).
Proof.
  split; [|split; [|split]].
  - unfold actLookups. repeat apply Forall_cons_2; [..|apply Forall_nil_2].
    + unfold Acts.getAct. settle_answer answer.
    + unfold Acts.getRun. settle_answer answer.
    + unfold Acts.getBuild. settle_answer answer.
  - unfold actUnwrapping. repeat apply Forall_cons_2; [..|apply Forall_nil_2].
    + unfold Acts.listActs. settle_answer answer.
    + unfold Acts.createAct. settle_answer answer.
    + unfold Acts.updateAct. settle_answer answer.
    + unfold Acts.listRuns. settle_answer answer.
    + unfold Acts.listBuilds. settle_answer answer.
    + unfold Acts.buildAct. settle_answer answer.
  - unfold Acts.deleteAct. settle_answer answer.
  - unfold Acts.runAct. settle_answer answer.
Qed.

(** X7. What the methods of the crawlers and logs groups make of the answer
    of the server: none unwraps a [data] envelope.  getCrawlerSettings and
    getExecutionDetails resolve to the response, to null when the answer is
    HTTP 404, and are rejected with any other error; the methods without a
    handler, getLastExecution and getLog among them, resolve to the response
    and are rejected with every error; the list methods resolve to what
    [wrapArray] makes of the response. *)
Theorem crawlers_results_follow_the_answer (answer : Settled JsVal) (options : Obj) :
  Forall (fun m : Method =>
            observes (m (requestPromise (answerWith answer)) options)
                     (lookupResult (fun response => response) answer))
         crawlerLookups
  /\ Forall (fun m : Method =>
               observes (m (requestPromise (answerWith answer)) options)
                        (plainResult (fun response => response) answer))
            crawlerPlain
  /\ Forall (fun m : Method =>
               observes (m (requestPromise (answerWith answer)) options)
                        (match answer with
                         | Fulfilled response =>
                             match Crawlers.wrapArray response with
                             | Ok list => Resolved list
                             | Throw e => RejectedWith e
                             end
                         | Rejected e => RejectedWith e
                         end))
            crawlerLists.
Proof.
  split; [|split].
  - unfold crawlerLookups. repeat apply Forall_cons_2; [..|apply Forall_nil_2].
    + unfold Crawlers.getCrawlerSettings. settle_answer answer.
    + unfold Crawlers.getExecutionDetails. settle_answer answer.
  - unfold crawlerPlain. repeat apply Forall_cons_2; [..|apply Forall_nil_2].
    + unfold Crawlers.createCrawler. settle_answer answer.
    + unfold Crawlers.updateCrawler. settle_answer answer.
    + unfold Crawlers.deleteCrawler. settle_answer answer.
    + unfold Crawlers.startExecution. settle_answer answer.
    + unfold Crawlers.stopExecution. settle_answer answer.
    + unfold Crawlers.getLastExecution. settle_answer answer.
    + unfold Crawlers._resurrectExecution. settle_answer answer.
    + unfold Crawlers._enqueuePage. settle_answer answer.
    + unfold Logs.getLog. settle_answer answer.
  - unfold crawlerLists. repeat apply Forall_cons_2; [..|apply Forall_nil_2].
    + unfold Crawlers.listCrawlers. settle_answer answer.
    + unfold Crawlers.getListOfExecutions. settle_answer answer.
    + unfold Crawlers.getExecutionResults. settle_answer answer.
    + unfold Crawlers.getLastExecutionResults. settle_answer answer.
Qed.

(** ** Updates that name their resource in the object they send *)

(** X8. [updateAct] addresses the act named by [actId] or, when that is
    missing, by the [id] of the act object, and sends the act without its
    [id]. *)
Theorem updateAct_moves_the_id_into_the_path
    (t : Transport) (options act : Obj) (baseUrl token id : string) :
  options !!! "baseUrl" = JStr baseUrl ->
  options !!! "token" = JStr token ->
  options !!! "act" = JObj act ->
  idOrOwnId (options !!! "actId") act = JStr id ->
  sent (Acts.updateAct (requestPromise t) options)
  = [ {[ "url" := JStr (baseUrl +:+ Acts.BASE_PATH +:+ "/" +:+ id);
         "json" := JBool true;
         "method" := JStr "PUT";
         "qs" := JObj {[ "token" := JStr token ]};
         "body" := JObj (delete "id" act) ]} ].
Proof.
  intros Hb Ht Ha Hid. unfold Acts.updateAct, idOrOwnId in *.
  rewrite Hb, Ht, Ha. cbn [getProp]. js_beta.
  destruct (truthy (options !!! "actId")); [|destruct (truthy (act !!! "id"))];
    rewrite Hid; cbn [checkParamOrThrow hasKind toStr omit]; js_beta;
    one_request; reflexivity.
Qed.

(** X9. [updateAct] reads [act.id] before it checks anything: called without
    an [actId] and without an act, it throws a [TypeError] where the other
    methods throw a validation error. *)
Theorem updateAct_without_id_and_act_is_a_type_error
    (request : Obj -> Promise JsVal) (options : Obj) :
  truthy (options !!! "actId") = false ->
  options !!! "act" = JUndefined \/ options !!! "act" = JNull ->
  exists message,
    dispatch (Acts.updateAct request options) = (ThrewSynchronously (TypeError message), []).
Proof.
  intros Hid Hact. unfold Acts.updateAct. rewrite Hid.
  destruct Hact as [-> | ->]; eexists; reflexivity.
Qed.

(** X10. [updateRequest] addresses the request named by [requestId] or, when
    that is falsy, by the [id] of the request object; it sends the request
    object whole, its [id] included, and a [forefront] flag that is [false]
    when the caller gave none. *)
Theorem updateRequest_falls_back_to_the_id_of_the_request `{Runtime}
    (t : Transport) (options request : Obj) (baseUrl queueId token id : string)
    (forefront : bool) :
  options !!! "baseUrl" = JStr baseUrl ->
  options !!! "queueId" = JStr queueId ->
  options !!! "token" = JStr token ->
  options !!! "request" = JObj request ->
  orDefault (options !!! "forefront") (JBool false) = JBool forefront ->
  (if truthy (options !!! "requestId") then options !!! "requestId" else request !!! "id")
  = JStr id ->
  sent (RequestQueues.updateRequest (requestPromise t) options)
  = [ {[ "url" := JStr (baseUrl +:+ RequestQueues.BASE_PATH +:+ "/" +:+ queueId
                        +:+ "/requests/" +:+ id);
         "json" := JBool true;
         "method" := JStr "PUT";
         "body" := JObj request;
         "qs" := JObj {[ "forefront" := JBool forefront; "token" := JStr token ]};
         "expBackOffMaxRepeats" := JNum 9 ]} ].
Proof.
  intros Hb Hq Ht Hr Hf Hid. unfold RequestQueues.updateRequest.
  rewrite Hb, Hq, Ht, Hr, Hf. cbn [getProp checkParamOrThrow hasKind]. js_beta.
  destruct (truthy (options !!! "requestId")); rewrite Hid;
    cbn [checkParamOrThrow hasKind toStr]; js_beta; one_request; reflexivity.
Qed.

(** X11. [updateTask] called without a usable [taskId] and with a task whose
    [id] is the empty string passes its parameter checks and then throws a
    [TypeError]: the empty [id] is a string, but it is falsy, so the missing
    [taskId] is what is handed to [replaceSlashWithTilde]. *)
Theorem updateTask_with_an_empty_id_is_a_type_error `{Runtime}
    (request : Obj -> Promise JsVal) (options task : Obj) (baseUrl token : string) :
  options !!! "baseUrl" = JStr baseUrl ->
  options !!! "token" = JStr token ->
  options !!! "task" = JObj task ->
  task !!! "id" = JStr "" ->
  truthy (options !!! "taskId") = false ->
  (forall s, options !!! "taskId" <> JStr s) ->
  exists message,
    dispatch (Tasks.updateTask request options) = (ThrewSynchronously (TypeError message), []).
Proof.
  intros Hb Ht Htask Hid Hfalsy Hnostring. unfold Tasks.updateTask.
  rewrite Hb, Ht, Htask, Hfalsy. cbn [getProp checkParamOrThrow hasKind negb]. js_beta.
  rewrite Hid. cbn [checkParamOrThrow hasKind truthy String.eqb negb]. js_beta.
  destruct (options !!! "taskId") as [| | | |s| | | |]; try (eexists; reflexivity).
  by destruct (Hnostring s).
Qed.

(** ** Reading a record *)

Section GetRecord.
Context `{Runtime}.
Implicit Types (t : Transport) (options : Obj).

Lemma getRecord_parseResponse_raw (raw useRawBody response : JsVal) :
  truthy raw = true ->
  KeyValueStores.getRecord_parseResponse raw useRawBody response = Ok response.
Proof. intros Hraw. unfold KeyValueStores.getRecord_parseResponse. by rewrite Hraw. Qed.

Lemma getRecord_parseResponse_useRawBody (raw useRawBody response : JsVal) :
  truthy raw = false -> truthy useRawBody = true ->
  KeyValueStores.getRecord_parseResponse raw useRawBody response = Ok (pluckData response).
Proof.
  intros Hraw Huse. unfold KeyValueStores.getRecord_parseResponse. by rewrite Hraw, Huse.
Qed.

Lemma getRecord_parseResponse_decoded (raw useRawBody response : JsVal) (data : Obj) :
  truthy raw = false -> truthy useRawBody = false ->
  pluckData response = JObj data ->
  KeyValueStores.getRecord_parseResponse raw useRawBody response
  = match decodeBody (data !!! "body") (data !!! "contentType") with
    | Ok body => Ok (JObj (<["body" := body]> data))
    | Throw e => Throw e
    end.
Proof.
  intros Hraw Huse Hdata. unfold KeyValueStores.getRecord_parseResponse.
  rewrite Hraw, Huse, Hdata. cbn [negb getProp]. js_beta.
  by destruct (decodeBody _ _).
Qed.

(** The query of the request, as the negotiation shares it. *)
Lemma getRecord_query (raw : bool) (requestOpts : Obj) :
  requestOpts !!! "qs" = JObj ∅ ->
  (if raw
   then <["qs" := JObj (<["raw" := JNum 1]> (fieldsOf (requestOpts !!! "qs")))]>
          (<["encoding" := JNull]> requestOpts)
   else requestOpts) !!! "qs"
  = JObj (if raw then {[ "raw" := JNum 1 ]} else ∅).
Proof.
  intros Hqs. destruct raw; [|done].
  rewrite lookup_total_insert_eq, Hqs. cbn [fieldsOf]. by rewrite insert_empty.
Qed.

End GetRecord.

(** X12. Without the [url] option, [getRecord] issues one GET to the record
    endpoint (asking for the raw bytes when [raw] is set) and resolves to
    null when the answer is HTTP 404, is rejected with any other error,
    resolves to the response itself when [raw] is set, to its [data] when
    [useRawBody] is set, and otherwise to its [data] with the body decoded
    by its content type; an error of the decoder rejects the promise. *)
Theorem getRecord_reads_through_the_api `{Runtime}
    (answer : Settled JsVal) (options : Obj) :
  truthy (options !!! "url") = false ->
  let call := KeyValueStores.getRecord (requestPromise (answerWith answer)) options in
  let raw := truthy (options !!! "raw") in
  let useRawBody := truthy (options !!! "useRawBody") in
  issuesOne (readsRecord options) call
  /\ (forall e, answer = Rejected e ->
        observes call (if isNotFound e then Resolved JNull else RejectedWith e))
  /\ (forall response, answer = Fulfilled response -> raw = true ->
        observes call (Resolved response))
  /\ (forall response, answer = Fulfilled response -> raw = false -> useRawBody = true ->
        observes call (Resolved (pluckData response)))
  /\ (forall response data,
        answer = Fulfilled response -> raw = false -> useRawBody = false ->
        pluckData response = JObj data ->
        observes call (match decodeBody (data !!! "body") (data !!! "contentType") with
                       | Ok body => Resolved (JObj (<["body" := body]> data))
                       | Throw e => RejectedWith e
                       end)).
Proof.
  intros Hurl call raw useRawBody. subst call raw useRawBody.
  unfold KeyValueStores.getRecord. js_beta.
  repeat match goal with
  | |- context [checkParamOrThrow ?v ?n ?ty] =>
      destruct (checkParamOrThrow v n ty) as [[]|?] eqn:?; js_beta
  end;
  try (split; [apply issuesOne_Throw|repeat split; intros; reflexivity]).
  rewrite Hurl. split; [|split; [|split; [|split]]].
  - eapply issuesOne_single; [by one_request|].
    unfold readsRecord. destruct (truthy (options !!! "raw")); cbn [negb fieldsOf].
    + repeat split; by simplify_map_eq.
    + repeat split; by simplify_map_eq.
  - intros e ->. unfold observes. rewrite observed_Ok, then2_settled, requestPromise_settled.
    unfold answerWith, catchNotFoundOrThrow. by destruct (isNotFound e).
  - intros response -> Hraw. unfold observes.
    rewrite observed_Ok, then2_settled, requestPromise_settled. unfold answerWith.
    by rewrite getRecord_parseResponse_raw.
  - intros response -> Hraw Huse. unfold observes.
    rewrite observed_Ok, then2_settled, requestPromise_settled. unfold answerWith.
    by rewrite getRecord_parseResponse_useRawBody.
  - intros response data -> Hraw Huse Hdata. unfold observes.
    rewrite observed_Ok, then2_settled, requestPromise_settled. unfold answerWith.
    rewrite (getRecord_parseResponse_decoded _ _ _ data) by done.
    by destruct (decodeBody _ _).
Qed.

Section GetRecordSigned.
Context `{Runtime}.
Implicit Types (t : Transport) (options : Obj).

(** [getRecord] with the [url] option, once its parameter checks are passed:
    the negotiation, then the download and what is made of its answer. *)
Lemma getRecord_signed t options :
  truthy (options !!! "url") = true ->
  returnsPromise (KeyValueStores.getRecord (requestPromise t) options) = true ->
  KeyValueStores.getRecord (requestPromise t) options
  = Ok (then_chain (requestPromise t (downloadNegotiation options))
      (fun response =>
         data ← getProp response "data";
         let meta := omit data "signedUrl" in
         data ← getProp response "data";
         signedUrl ← getProp data "signedUrl";
         Ok (then2 (then_ (requestPromise t (signedDownload signedUrl))
                     (fun body =>
                        if truthy (options !!! "raw") then body
                        else JObj {[ "data" :=
                               JObj ({[ "body" := body ]}
                                     ∪ fieldsOf (omit meta "contentEncoding")) ]}))
                   (KeyValueStores.getRecord_parseResponse
                      (options !!! "raw") (options !!! "useRawBody"))
                   catchNotFoundOrThrow))).
Proof.
  intros Hurl. unfold KeyValueStores.getRecord. js_beta.
  repeat match goal with
  | |- context [checkParamOrThrow ?v ?n ?ty] =>
      destruct (checkParamOrThrow v n ty) as [[]|?] eqn:?; js_beta
  end; try discriminate.
  rewrite Hurl. intros _. unfold downloadNegotiation.
  do 3 f_equal.
  destruct (truthy (options !!! "raw")); [|done].
  rewrite lookup_total_insert_eq. cbn [fieldsOf].
  rewrite lookup_total_insert_ne by done.
  rewrite !lookup_total_alt. by simplify_map_eq.
Qed.

End GetRecordSigned.

(** X13. With the [url] option, [getRecord] first asks the API for a signed
    URL and then downloads from it.  A failure of the negotiation is raised
    to the caller as it is, HTTP 404 included, and nothing is downloaded;
    a failure of the download resolves to null when it is HTTP 404 and is
    raised otherwise. *)
Theorem getRecord_negotiates_a_signed_url `{Runtime} (t : Transport) (options : Obj) :
  truthy (options !!! "url") = true ->
  returnsPromise (KeyValueStores.getRecord (requestPromise t) options) = true ->
  let call := KeyValueStores.getRecord (requestPromise t) options in
  let negotiation := downloadNegotiation options in
  (forall e, t [] negotiation = Rejected e ->
     dispatch call = (RejectedWith e, [negotiation]))
  /\ (forall response signedUrl e,
        t [] negotiation = Fulfilled response ->
        signedUrlOf response = Ok signedUrl ->
        t [negotiation] (signedDownload signedUrl) = Rejected e ->
        dispatch call = (if isNotFound e then Resolved JNull else RejectedWith e,
                         [negotiation; signedDownload signedUrl])).
Proof.
  intros Hurl Hret call negotiation. subst call negotiation.
  rewrite (getRecord_signed t options Hurl Hret). split.
  - intros e He. unfold dispatch, then_chain, then_full, requestPromise.
    by rewrite He.
  - intros response signedUrl e Hresponse Hsigned Hdownload.
    unfold dispatch, then_chain, then_full, requestPromise. cbn [app].
    rewrite Hresponse. unfold signedUrlOf in Hsigned. revert Hsigned. js_beta.
    destruct (getProp response "data") as [data|?]; [|discriminate]. js_beta.
    intros ->. cbn [adopt]. unfold then2, then_, then_full. cbn [app].
    rewrite Hdownload. unfold catchNotFoundOrThrow.
    cbv beta iota delta [adopt reject resolve liftOutcome].
    by destruct (isNotFound e).
Qed.

(** X14. With the [url] option, a record that was downloaded is put together
    from the answer to the negotiation and from the downloaded body: with
    [raw] the body alone; otherwise the [data] of the negotiation without
    [signedUrl] and [contentEncoding], with the body as downloaded when
    [useRawBody] is set and decoded by the content type of the negotiation
    when it is not. *)
Theorem getRecord_assembles_the_signed_record `{Runtime}
    (t : Transport) (options response meta : Obj) (body : JsVal) :
  truthy (options !!! "url") = true ->
  returnsPromise (KeyValueStores.getRecord (requestPromise t) options) = true ->
  t [] (downloadNegotiation options) = Fulfilled (JObj response) ->
  response !!! "data" = JObj meta ->
  t [downloadNegotiation options] (signedDownload (meta !!! "signedUrl")) = Fulfilled body ->
  let call := KeyValueStores.getRecord (requestPromise t) options in
  let raw := truthy (options !!! "raw") in
  let useRawBody := truthy (options !!! "useRawBody") in
  sent call = [downloadNegotiation options; signedDownload (meta !!! "signedUrl")]
  /\ observed call
     = if raw then Resolved body
       else if useRawBody then Resolved (signedRecord meta body)
       else match decodeBody body (meta !!! "contentType") with
            | Ok decoded => Resolved (signedRecord meta decoded)
            | Throw e => RejectedWith e
            end.
Proof.
  intros Hurl Hret Hresponse Hdata Hdownload call raw useRawBody.
  subst call raw useRawBody.
  rewrite (getRecord_signed t options Hurl Hret).
  unfold sent, observed, dispatch, then_chain, then_full, requestPromise. cbn [app].
  rewrite Hresponse. cbn [getProp]. js_beta. rewrite Hdata. cbn [getProp adopt]. js_beta.
  unfold then2, then_, then_full. cbn [app]. rewrite Hdownload.
  unfold KeyValueStores.getRecord_parseResponse.
  destruct (truthy (options !!! "raw")); [done|].
  cbv beta iota delta [adopt resolve].
  assert (pluckData (JObj {[ "data" :=
            JObj ({[ "body" := body ]}
                  ∪ fieldsOf (omit (omit (JObj meta) "signedUrl") "contentEncoding")) ]})
          = signedRecord meta body) as ->.
  { unfold pluckData, signedRecord. rewrite lookup_singleton_eq. cbn [omit fieldsOf].
    by rewrite insert_union_singleton_l. }
  destruct (truthy (options !!! "useRawBody")); cbn [negb]; [done|].
  unfold signedRecord. cbn [getProp liftOutcome]. js_beta.
  rewrite lookup_total_insert_eq.
  rewrite lookup_total_insert_ne by done.
  assert (delete "contentEncoding" (delete "signedUrl" meta) !!! "contentType"
          = meta !!! "contentType") as ->.
  { rewrite !lookup_total_alt. by rewrite !lookup_delete_ne. }
  destruct (decodeBody body _) as [decoded|e]; [|done].
  cbn [setProp]. by rewrite insert_insert_eq.
Qed.

(** ** Items of a dataset *)

Ltac in_list := repeat first [apply list_elem_of_here | apply list_elem_of_further].

(** X15. [getItems] sends as its query the options among format, fields,
    omit, unwind, offset, limit, desc, attachment, delimiter, bom, xmlRoot
    and xmlRow that the caller gave, with their values, except that the
    array of [fields] is sent joined by commas (the array of [omit] is sent
    as it is); no other option, the token included, is ever part of the
    query. *)
Theorem getItems_joins_the_fields `{Runtime} (t : Transport) (options : Obj) :
  (forall fields : list JsVal,
     Forall (fun v => exists s, v = JStr s) fields ->
     toStr (JArr fields) = String.concat "," (toStr <$> fields))
  /\ issuesOne (hasQuery (itemsQuery options))
               (Datasets.getItems (requestPromise t) options).
Proof.
  split.
  { intros fields Hstrings. cbn [toStr]. f_equal.
    induction Hstrings as [|v fields [s ->] _ IH]; [done|].
    cbn [map fmap list_fmap]. by f_equal. }
  unfold Datasets.getItems. step_checks; try apply issuesOne_Throw.
  match goal with
  | Hf : checkParamOrThrow (options !!! "fields") _ _ = Ok tt |- _ => rename Hf into Hfields
  end.
  fold itemsQueryKeys.
  destruct (isEmpty (JObj (pick options itemsQueryKeys))) eqn:Hempty.
  - eapply issuesOne_single; [by one_request|].
    exists ∅. split; [by simplify_map_eq|]. intros k. rewrite lookup_empty.
    unfold itemsQuery. case_bool_decide as Hk; [|done].
    rewrite (proj1 (pick_empty _ _) Hempty) by (unfold itemsQueryKeys; in_list).
    rewrite (proj1 (pick_empty _ _) Hempty k Hk). by case_bool_decide.
  - rewrite pick_lookup_total by (unfold itemsQueryKeys; in_list).
    assert (forall k, pick options itemsQueryKeys !! k
                      = if bool_decide (k ∈ itemsQueryKeys) then options !! k else None)
      as Hpick by (intros k; apply pick_lookup).
    revert Hfields.
    destruct (options !!! "fields") as [| | | | | | |fields|] eqn:Hf; intros Hfields;
      try discriminate;
      cbn [truthy Datasets.getItems_joinFields]; js_beta;
      (eapply issuesOne_single; [by one_request|]);
      (eexists; split; [by simplify_map_eq|]); intros k; unfold itemsQuery.
    + rewrite Hpick. case_bool_decide; [|done]. case_bool_decide as Hk; [|done].
      subst k. rewrite lookup_total_alt in Hf.
      by destruct (options !! "fields") as [[]|].
    + rewrite Hpick. case_bool_decide; [|done]. case_bool_decide as Hk; [|done].
      subst k. rewrite lookup_total_alt in Hf.
      by destruct (options !! "fields") as [[]|].
    + assert (options !! "fields" = Some (JArr fields)) as Hsome.
      { rewrite lookup_total_alt in Hf. by destruct (options !! "fields") as [?|]; cbn in Hf; subst. }
      destruct (decide (k = "fields")) as [->|Hk].
      * rewrite lookup_insert_eq, Hsome.
        rewrite bool_decide_eq_true_2 by (unfold itemsQueryKeys; in_list).
        by rewrite bool_decide_eq_true_2.
      * rewrite lookup_insert_ne by done. rewrite Hpick.
        case_bool_decide; [|done]. by rewrite bool_decide_eq_false_2.
Qed.

(** X16. What [getItems] makes of the answer of the server: HTTP 404
    resolves to null and any other failure is raised; of a response it
    resolves to the body as it is when [disableBodyParser] is set and to the
    body parsed by its content type otherwise.  The content type is read
    before the flag is looked at, so a response without headers is rejected
    with a [TypeError] even with [disableBodyParser], and the rejection
    handler comes after the parser, so it sees the errors of the parser
    too. *)
Theorem getItems_results_follow_the_answer `{Runtime}
    (answer : Settled JsVal) (options : Obj) :
  let call := Datasets.getItems (requestPromise (answerWith answer)) options in
  let disableBodyParser := truthy (options !!! "disableBodyParser") in
  (forall e, answer = Rejected e ->
     observes call (if isNotFound e then Resolved JNull else RejectedWith e))
  /\ (forall response headers : Obj,
        answer = Fulfilled (JObj response) ->
        response !!! "headers" = JObj headers ->
        observes call
          (if disableBodyParser then Resolved (response !!! "body")
           else caughtResult (parseBody (response !!! "body") (headers !!! "content-type"))))
  /\ (forall response : Obj,
        answer = Fulfilled (JObj response) ->
        response !!! "headers" = JUndefined ->
        exists message, observes call (RejectedWith (TypeError message))).
Proof.
  intros call disableBodyParser. subst call disableBodyParser.
  assert (forall requestOpts : Obj,
            observed (Ok (catch_ (then_try (requestPromise (answerWith answer) requestOpts)
                                    (Datasets.getItems_parseResponse
                                       (options !!! "disableBodyParser")))
                            catchNotFoundOrThrow))
            = match answer with
              | Rejected e => if isNotFound e then Resolved JNull else RejectedWith e
              | Fulfilled response =>
                  caughtResult (Datasets.getItems_parseResponse
                                  (options !!! "disableBodyParser") response)
              end) as Hobserved.
  { intros requestOpts.
    rewrite observed_Ok, catch__settled, then_try_settled, requestPromise_settled.
    unfold answerWith, catchNotFoundOrThrow, caughtResult.
    destruct answer as [response|e].
    - destruct (Datasets.getItems_parseResponse _ response) as [v|e]; [done|].
      by destruct (isNotFound e).
    - by destruct (isNotFound e). }
  assert (exists requestOpts : Obj,
            Datasets.getItems (requestPromise (answerWith answer)) options
            = Ok (catch_ (then_try (requestPromise (answerWith answer) requestOpts)
                            (Datasets.getItems_parseResponse
                               (options !!! "disableBodyParser")))
                    catchNotFoundOrThrow)
          \/ exists e, Datasets.getItems (requestPromise (answerWith answer)) options = Throw e)
    as [requestOpts [Hcall|[e Hcall]]].
  { unfold Datasets.getItems. js_beta.
    repeat match goal with
    | |- context [checkParamOrThrow ?v ?n ?ty] =>
        destruct (checkParamOrThrow v n ty) as [[]|?] eqn:?; js_beta
    end; try (exists ∅; right; eexists; reflexivity).
    destruct (isEmpty _); [eexists; left; reflexivity|].
    destruct (truthy _); [|eexists; left; reflexivity].
    destruct (Datasets.getItems_joinFields _); js_beta;
      [eexists; left; reflexivity|exists ∅; right; eexists; reflexivity]. }
  2: { rewrite Hcall. repeat split; intros; try reflexivity. by exists "". }
  rewrite Hcall. unfold observes. rewrite Hobserved. split; [|split].
  - by intros e ->.
  - intros response headers -> Hheaders. unfold Datasets.getItems_parseResponse.
    cbn [getProp]. js_beta. rewrite Hheaders. cbn [getProp]. js_beta.
    by destruct (truthy (options !!! "disableBodyParser")).
  - intros response -> Hheaders. unfold Datasets.getItems_parseResponse.
    cbn [getProp]. js_beta. rewrite Hheaders. cbn [getProp]. js_beta.
    eexists. reflexivity.
Qed.

(** ** The client and its decorated methods *)

Lemma alter_allocated (f : Obj -> Obj) (l : ApifyClient.Loc) (o : Obj) (h : ApifyClient.Heap) :
  h !! l = Some o -> alter f l h = <[l := f o]> h.
Proof.
  intros Hl. apply map_eq. intros l'. destruct (decide (l' = l)) as [->|Hne].
  - by rewrite lookup_alter_eq, lookup_insert_eq, Hl.
  - by rewrite lookup_alter_ne, lookup_insert_ne.
Qed.

(** X17. [new ApifyClient(options)] fails exactly when the options, without
    [_overrideMethodGroups], name no promise implementation and the platform
    has none.  Whether it fails or not, it deletes [_overrideMethodGroups]
    from the object the caller passed and writes to no other object that
    existed before.  When it succeeds, the instance options are a new object
    in which every remaining option of the caller stands over the defaults
    (https, api.apifier.com, an empty base path and the run id as store id),
    and [promise] is set.  Called with no options, it does what it does with
    a new empty object. *)
Theorem new_client_merges_options_over_defaults
    (nativePromise : bool) (APIFY_ACT_RUN_ID : JsVal) (t : Transport)
    (options : ApifyClient.Loc) (given : Obj) (h : ApifyClient.Heap) :
  h !! options = Some given ->
  let created := ApifyClient.new nativePromise APIFY_ACT_RUN_ID t (Some options) h in
  let kept := delete "_overrideMethodGroups" given in
  ((exists e, created.1 = Throw e)
   <-> truthy (kept !!! "promise") = false /\ nativePromise = false)
  /\ created.2 !! options = Some kept
  /\ (forall l, l <> options -> l <> fresh (dom h) -> created.2 !! l = h !! l)
  /\ (forall this, created.1 = Ok this ->
        ApifyClient.instanceOpts this = fresh (dom h)
        /\ exists instanceOpts : Obj,
             created.2 !! ApifyClient.instanceOpts this = Some instanceOpts
             /\ truthy (instanceOpts !!! "promise") = true
             /\ instanceOpts !! "_overrideMethodGroups" = None
             /\ forall k, k <> "promise" ->
                  instanceOpts !! k
                  = match kept !! k with
                    | Some v => Some v
                    | None => ApifyClient.getDefaultOptions APIFY_ACT_RUN_ID !! k
                    end)
  /\ ApifyClient.new nativePromise APIFY_ACT_RUN_ID t None h
     = ApifyClient.new nativePromise APIFY_ACT_RUN_ID t (Some (fresh (dom h)))
         (<[fresh (dom h) := ∅]> h).
Proof.
  intros Hgiven created kept. subst created.
  assert (options <> fresh (dom h)) as Hfresh
    by (apply fresh_loc_allocated; by eexists).
  unfold ApifyClient.new, ApifyClient.alloc.
  rewrite (alter_allocated _ _ _ _ Hgiven). fold kept.
  rewrite lookup_total_insert_eq.
  assert (dom (<[options := kept]> h) = dom h) as ->.
  { apply dom_insert_lookup_L. by eexists. }
  assert ((kept ∪ ApifyClient.getDefaultOptions APIFY_ACT_RUN_ID) !!! "promise"
          = kept !!! "promise") as Hpromise.
  { rewrite !lookup_total_alt, lookup_union.
    unfold ApifyClient.getDefaultOptions. simplify_map_eq.
    by destruct (kept !! "promise"). }
  assert (forall k, (kept ∪ ApifyClient.getDefaultOptions APIFY_ACT_RUN_ID) !! k
                    = match kept !! k with
                      | Some v => Some v
                      | None => ApifyClient.getDefaultOptions APIFY_ACT_RUN_ID !! k
                      end) as Hunion.
  { intros k. rewrite lookup_union.
    by destruct (kept !! k), (ApifyClient.getDefaultOptions _ !! k). }
  assert ((kept ∪ ApifyClient.getDefaultOptions APIFY_ACT_RUN_ID) !! "_overrideMethodGroups"
          = None) as Hoverride.
  { rewrite Hunion. unfold kept. rewrite lookup_delete_eq.
    unfold ApifyClient.getDefaultOptions. by simplify_map_eq. }
  rewrite Hpromise.
  split; [|split; [|split; [|split]]].
  - destruct (truthy (kept !!! "promise")); [|destruct nativePromise]; cbn [fst snd].
    + split; [by intros [e ?]|by intros [? _]].
    + split; [by intros [e ?]|by intros [_ ?]].
    + split; [done|by eexists].
  - destruct (truthy (kept !!! "promise")); [|destruct nativePromise]; cbn [fst snd];
      rewrite ?lookup_insert_ne by done; by rewrite lookup_insert_eq.
  - intros l Hl Hl'.
    destruct (truthy (kept !!! "promise")); [|destruct nativePromise]; cbn [fst snd];
      by rewrite !lookup_insert_ne.
  - intros this.
    destruct (truthy (kept !!! "promise")) eqn:Hkept; [|destruct nativePromise];
      cbn [fst snd]; [| |done]; intros [= <-]; cbn [ApifyClient.instanceOpts];
      (split; [done|]); eexists; (split; [by rewrite lookup_insert_eq|]).
    + split; [by rewrite Hpromise|]. split; [done|]. by intros k _.
    + split; [by rewrite lookup_total_insert_eq|].
      split; [by rewrite lookup_insert_ne|].
      intros k Hk. by rewrite lookup_insert_ne.
  - unfold ApifyClient.new, ApifyClient.alloc. reflexivity.
Qed.

(** X18. A decorated method checks [protocol], [host] and [promise] in the
    instance options, not in the options merged for the call: when one of
    them is missing there, the call throws an error that names the first
    missing one, whatever the call options hold, and the method is not
    called.  When none is missing, the method is called with the merged
    options and what it throws is thrown to the caller, with or without a
    callback. *)
Theorem decorated_call_checks_the_instance_options
    (this : ApifyClient.Client) (method : Method) (callOpts : Obj)
    (callback : option ApifyClient.Callback) (h : ApifyClient.Heap) :
  let instanceOpts : Obj := h !!! ApifyClient.instanceOpts this in
  (ApifyClient.methodDecorator this method callOpts callback h).1
  = match firstMissing instanceOpts with
    | Some key =>
        Throw (Error (dq +:+ "options." +:+ key +:+ dq +:+ " parameter is required"))
    | None =>
        match method (ApifyClient.preconfiguredRequest this)
                     (mergedOptsOf instanceOpts callOpts) with
        | Throw e => Throw e
        | Ok promise => Ok (fresh (dom h), returned callback promise)
        end
    end.
Proof.
  intros instanceOpts. rewrite methodDecorator_unfold. cbv zeta. fold instanceOpts.
  unfold firstMissing. cbn [ApifyClient.checkRequired List.find].
  destruct (negb (truthy (instanceOpts !!! "protocol"))); [done|].
  destruct (negb (truthy (instanceOpts !!! "host"))); [done|].
  destruct (negb (truthy (instanceOpts !!! "promise"))); [done|].
  by destruct (method _ _).
Qed.

Lemma baseUrlOf_insert (baseUrl : JsVal) (o : Obj) :
  ApifyClient.baseUrlOf (<["baseUrl" := baseUrl]> o) = ApifyClient.baseUrlOf o.
Proof. unfold ApifyClient.baseUrlOf. by rewrite !lookup_total_insert_ne. Qed.

Lemma baseUrlOf_delete (o : Obj) :
  ApifyClient.baseUrlOf (delete "baseUrl" o) = ApifyClient.baseUrlOf o.
Proof.
  unfold ApifyClient.baseUrlOf. rewrite !lookup_total_alt. by rewrite !lookup_delete_ne.
Qed.

Lemma mergedOptsOf_baseUrl (instanceOpts callOpts : Obj) (baseUrl : JsVal) :
  mergedOptsOf instanceOpts (<["baseUrl" := baseUrl]> callOpts)
  = mergedOptsOf instanceOpts (delete "baseUrl" callOpts).
Proof.
  unfold mergedOptsOf.
  assert (<["baseUrl" := baseUrl]> callOpts ∪ instanceOpts
          = <["baseUrl" := baseUrl]> (delete "baseUrl" callOpts ∪ instanceOpts)) as ->.
  { by rewrite insert_union_l, insert_delete_eq. }
  by rewrite baseUrlOf_insert, insert_insert_eq.
Qed.

(** X19. A decorated method computes [baseUrl] from the protocol, host, port
    and base path of the merged options and overwrites whatever [baseUrl] the
    caller passed: a call with a [baseUrl] among its options does what the
    call without it does. *)
Theorem decorated_call_ignores_a_given_base_url
    (this : ApifyClient.Client) (method : Method) (callOpts : Obj) (baseUrl : JsVal)
    (callback : option ApifyClient.Callback) (h : ApifyClient.Heap) :
  (ApifyClient.methodDecorator this method (<["baseUrl" := baseUrl]> callOpts) callback h).1
  = (ApifyClient.methodDecorator this method (delete "baseUrl" callOpts) callback h).1
  /\ forall promise loc,
       (ApifyClient.methodDecorator this method callOpts None h).1
       = Ok (loc, ApifyClient.ReturnedPromise promise) ->
       let merged : Obj := callOpts ∪ (h !!! ApifyClient.instanceOpts this) in
       method (ApifyClient.preconfiguredRequest this)
              (<["baseUrl" := JStr (toStr (merged !!! "protocol") +:+ "://"
                                    +:+ toStr (merged !!! "host")
                                    +:+ (if truthy (merged !!! "port")
                                         then ":" +:+ toStr (merged !!! "port") else "")
                                    +:+ toStr (merged !!! "basePath"))]> merged)
       = Ok promise.
Proof.
  split.
  - rewrite !methodDecorator_unfold. cbv zeta. rewrite mergedOptsOf_baseUrl.
    destruct (ApifyClient.checkRequired _ _); [|done].
    by destruct (method _ _).
  - intros promise loc. rewrite methodDecorator_unfold. cbv zeta.
    destruct (ApifyClient.checkRequired _ _); [|done].
    unfold mergedOptsOf, ApifyClient.baseUrlOf.
    destruct (method _ _); [|done]. by intros [= _ ->].
Qed.

(** X20. Successive [setOptions] calls accumulate: setting [a] and then [b]
    leaves the instance options as one call with [b] merged over [a] does, so
    a later value replaces an earlier one key by key and the other keys
    stay; setting the same options twice, or setting none on an existing
    instance, changes nothing further. *)
Theorem setOptions_accumulates
    (this : ApifyClient.Client) (a b : Obj) (h : ApifyClient.Heap) :
  ApifyClient.setOptions this b (ApifyClient.setOptions this a h)
  = ApifyClient.setOptions this (b ∪ a) h
  /\ ApifyClient.setOptions this a (ApifyClient.setOptions this a h)
     = ApifyClient.setOptions this a h
  /\ (is_Some (h !! ApifyClient.instanceOpts this) -> ApifyClient.setOptions this ∅ h = h)
  /\ forall k,
       (ApifyClient.setOptions this b (ApifyClient.setOptions this a h)
          !!! ApifyClient.instanceOpts this : Obj) !! k
       = match b !! k with
         | Some v => Some v
         | None => match a !! k with
                   | Some v => Some v
                   | None => (h !!! ApifyClient.instanceOpts this : Obj) !! k
                   end
         end.
Proof.
  assert (ApifyClient.setOptions this b (ApifyClient.setOptions this a h)
          = ApifyClient.setOptions this (b ∪ a) h) as Hcompose.
  { unfold ApifyClient.setOptions.
    by rewrite lookup_total_insert_eq, insert_insert_eq, (assoc_L (∪)). }
  split; [exact Hcompose|]. split; [|split].
  - unfold ApifyClient.setOptions.
    rewrite lookup_total_insert_eq, insert_insert_eq, (assoc_L (∪)).
    by rewrite (idemp_L (∪)).
  - intros [o Ho]. unfold ApifyClient.setOptions.
    rewrite (left_id_L ∅ (∪)). apply insert_id.
    by rewrite lookup_total_alt, Ho.
  - intros k. rewrite Hcompose. unfold ApifyClient.setOptions.
    rewrite lookup_total_insert_eq, !lookup_union.
    destruct (b !! k), (a !! k), (_ !! k); done.
Qed.

(** X21. A client created with no options inside an act run works on the
    key-value store of the run: its decorated [getStore], called with no
    options, asks [https://api.apifier.com] for the store whose id is the
    run id. *)
Theorem default_store_is_the_store_of_the_run
    (t : Transport) (runId : string) (h : ApifyClient.Heap) :
  exists (this : ApifyClient.Client) (h1 : ApifyClient.Heap) (promise : Promise JsVal),
    ApifyClient.new true (JStr runId) t None h = (Ok this, h1)
    /\ (ApifyClient.methodDecorator this KeyValueStoresFirst.getStore ∅ None h1).1
       = Ok (fresh (dom h1), ApifyClient.ReturnedPromise promise)
    /\ sent (Ok promise)
       = [ {[ "url" := JStr ("https://api.apifier.com/v2/key-value-stores/" +:+ runId);
              "json" := JBool true;
              "method" := JStr "GET" ]} ].
Proof.
  unfold ApifyClient.new, ApifyClient.alloc.
  rewrite (alter_allocated _ _ ∅) by (by rewrite lookup_insert_eq).
  rewrite delete_empty, insert_insert_eq, lookup_total_insert_eq, (left_id_L ∅ (∪)).
  assert (truthy (ApifyClient.getDefaultOptions (JStr runId) !!! "promise") = false) as ->
    by (by rewrite lookup_total_alt; unfold ApifyClient.getDefaultOptions; simplify_map_eq).
  eexists _, _, _. split; [reflexivity|].
  rewrite methodDecorator_unfold. cbv zeta. cbn [ApifyClient.instanceOpts].
  rewrite !lookup_total_insert_eq.
  set (instanceOpts := <["promise" := JFunc "Promise"]>
                         (ApifyClient.getDefaultOptions (JStr runId))).
  assert (mergedOptsOf instanceOpts ∅ !!! "baseUrl" = JStr "https://api.apifier.com")
    as HbaseUrl.
  { unfold mergedOptsOf. rewrite lookup_total_insert_eq, (left_id_L ∅ (∪)).
    unfold ApifyClient.baseUrlOf, instanceOpts, ApifyClient.getDefaultOptions.
    rewrite !lookup_total_alt. by simplify_map_eq. }
  assert (mergedOptsOf instanceOpts ∅ !!! "storeId" = JStr runId) as HstoreId.
  { unfold mergedOptsOf, instanceOpts, ApifyClient.getDefaultOptions.
    rewrite (left_id_L ∅ (∪)). rewrite !lookup_total_alt. by simplify_map_eq. }
  assert (ApifyClient.checkRequired instanceOpts ["protocol"; "host"; "promise"] = Ok tt)
    as ->.
  { unfold ApifyClient.checkRequired, instanceOpts, ApifyClient.getDefaultOptions.
    rewrite !lookup_total_alt. by simplify_map_eq. }
  unfold KeyValueStoresFirst.getStore. rewrite HbaseUrl, HstoreId.
  cbn [toStr fst snd]. split; [reflexivity|]. by rewrite sent_Ok.
Qed.

(** ** Runs of a task *)

(** X22. What [runTask] makes of the answer of the server: with an [input]
    the request asks for JSON and the response is unwrapped as it is;
    without one the response is text, which is parsed before it is
    unwrapped, and a text that is not JSON rejects the promise with the
    error of the parser. *)
Theorem runTask_parses_text_responses `{Runtime} (answer : Settled JsVal) (options : Obj) :
  observes (Tasks.runTask (requestPromise (answerWith answer)) options)
    (match answer with
     | Rejected e => RejectedWith e
     | Fulfilled response =>
         if truthy (options !!! "input")
         then Resolved (parseDateFields (pluckData response))
         else match JSON_parse response with
              | Ok parsed => Resolved (parseDateFields (pluckData parsed))
              | Throw e => RejectedWith e
              end
     end).
Proof.
  unfold Tasks.runTask. js_beta. forget_query.
  repeat match goal with
  | |- context [checkParamOrThrow ?v ?n ?ty] =>
      destruct (checkParamOrThrow v n ty) as [[]|?] eqn:?; js_beta
  | |- context [Tasks.replaceSlashWithTilde ?v] =>
      destruct (Tasks.replaceSlashWithTilde v) eqn:?; js_beta
  end; try reflexivity.
  all: destruct (truthy (options !!! "body")) eqn:Hbody; js_beta.
  all: destruct (truthy (options !!! "input")) eqn:Hinput; js_beta; try reflexivity.
  all: repeat match goal with
  | |- context [checkParamOrThrow ?v ?n ?ty] =>
      destruct (checkParamOrThrow v n ty) as [[]|?] eqn:?; js_beta
  end; try reflexivity.
  all: try destruct (truthy (options !!! "contentType")) eqn:HcontentType.
  all: unfold observes; rewrite observed_Ok, !then__settled, then_try_settled,
         requestPromise_settled; unfold answerWith.
  all: destruct answer as [response|failure]; [|reflexivity].
  all: rewrite !lookup_total_alt; simplify_map_eq; cbn [truthy].
  all: try reflexivity.
  all: by destruct (JSON_parse response).
Qed.

(** ** The collection clients and the dataset client *)

Lemma listShape_unnamed (o : Obj) (v : JsVal) :
  o !! "unnamed" = Some v -> listShape (JObj o) = false.
Proof.
  intros Ho. unfold listShape, Ow.object_exactShape.
  apply andb_false_iff. right. apply not_true_iff_false. intros Hall.
  rewrite forallb_forall in Hall.
  specialize (Hall ("unnamed", v)).
  rewrite bool_decide_eq_true in Hall.
  assert (In ("unnamed", v) (map_to_list o)) as Hin
    by (by apply list_elem_of_In, elem_of_map_to_list).
  specialize (Hall Hin). cbn in Hall.
  repeat (apply elem_of_cons in Hall as [?|Hall]; [discriminate|]).
  by apply elem_of_nil in Hall.
Qed.

(** X23. The [list] of a collection client never throws at the call site.
    It rejects with an [ArgumentError], without calling the inherited
    [list], when its options are not of its shape, and otherwise does what
    the inherited [list] does with them; omitted options count as an empty
    object.  The shape admits no key besides limit, offset and desc: the
    [unnamed] option is accepted by the dataset collection alone, and the
    build, task and schedule collections reject any options that hold it. *)
Theorem collection_lists_validate_their_options
    (inherited : JsVal -> Outcome (Promise JsVal)) (options : JsVal) :
  validatesBefore listShape inherited options (BuildCollectionClient.list inherited options)
  /\ validatesBefore listShape inherited options (TaskCollectionClient.list inherited options)
  /\ validatesBefore listShape inherited options
       (ScheduleCollectionClient.list inherited options)
  /\ validatesBefore datasetListShape inherited options
       (DatasetCollectionClient.list inherited options)
  /\ listShape (orDefault JUndefined (JObj ∅)) = true
  /\ datasetListShape (JObj {[ "unnamed" := JBool true ]}) = true
  /\ (forall (o : Obj) (v : JsVal), o !! "unnamed" = Some v -> listShape (JObj o) = false).
Proof.
  assert (forall shape,
            validatesBefore shape inherited options
              (async (Ow.ow (orDefault options (JObj ∅)) shape ;;
                      inherited (orDefault options (JObj ∅))))) as Hlist.
  { intros shape. unfold validatesBefore, async, Ow.ow. split; [done|].
    destruct (shape _); js_beta; [done|]. eexists. reflexivity. }
  split; [apply Hlist|]. split; [apply Hlist|]. split; [apply Hlist|].
  split; [apply Hlist|]. split; [by vm_compute|]. split; [by vm_compute|].
  apply listShape_unnamed.
Qed.

(** X24. [pushItems] never throws at the call site.  It rejects null,
    undefined, booleans and numbers with an [ArgumentError] before any
    request; every object, string and array, whatever the array holds, is
    posted as it is in one request, and the call resolves to [undefined]
    whatever the server answers with. *)
Theorem pushItems_posts_objects_strings_and_arrays
    (answer : Settled JsVal) (_url : string -> JsVal) (_params : JsVal -> JsVal)
    (items : JsVal) :
  let call := DatasetClient.pushItems (requestPromise (answerWith answer)) _url _params items in
  returnsPromise call = true
  /\ match items with
     | JUndefined | JNull | JBool _ | JNum _ =>
         exists message, dispatch call = (RejectedWith (ArgumentError message), [])
     | _ =>
         dispatch call
         = (match answer with
            | Fulfilled _ => Resolved JUndefined
            | Rejected e => RejectedWith e
            end, [itemsPush _url _params items])
     end.
Proof.
  intros call. subst call. split; [done|].
  unfold DatasetClient.pushItems, async, Ow.ow.
  destruct items; cbn [Ow.any existsb Ow.object Ow.string Ow.array_ofType orb];
    js_beta; try (eexists; reflexivity);
    unfold dispatch, adopt, then_, then_full, requestPromise, answerWith, itemsPush;
    cbn [app]; by destruct answer.
Qed.

(** Settle what a method of the tasks group makes of the answer. *)
Ltac settle_unwrapped answer :=
  cbn [fst snd]; js_beta; forget_query;
  repeat match goal with
  | |- context [checkParamOrThrow ?v ?n ?ty] =>
      destruct (checkParamOrThrow v n ty) as [[]|?] eqn:?; js_beta
  | |- context [getProp ?v ?k] => destruct (getProp v k) eqn:?; js_beta
  | |- context [Tasks.replaceSlashWithTilde ?v] =>
      destruct (Tasks.replaceSlashWithTilde v) eqn:?; js_beta
  | |- context [if truthy ?v then _ else _] => destruct (truthy v) eqn:?; js_beta
  end;
  unfold observes; try reflexivity;
  rewrite observed_Ok;
  rewrite ?then__settled, ?catch__settled, ?then__settled, ?then__settled,
    ?requestPromise_settled;
  unfold answerWith, lookupResult, plainResult, catchNotFoundOrThrow;
  destruct answer as [?response|?e]; try reflexivity;
  repeat match goal with
  | |- context [isNotFound ?e] => destruct (isNotFound e)
  end; reflexivity.

(** X25. What the methods of the tasks, request queues, key-value stores and
    datasets groups make of the answer of the server.  The methods of the
    tasks and request queues groups that unwrap the [data] of the response
    also convert its date fields; [deleteTask] converts the date fields of
    the response itself; [getInput], [updateInput] and the deletions of the
    other groups resolve to the response as it is.  The lookups resolve to
    null on HTTP 404; every other method is rejected with every error. *)
Theorem results_are_unwrapped_as_the_method_declares `{Runtime}
    (answer : Settled JsVal) (options : Obj) :
  Forall (fun entry : Method * ((JsVal -> JsVal) * bool) =>
            observes (entry.1 (requestPromise (answerWith answer)) options)
                     (if entry.2.2 then lookupResult entry.2.1 answer
                      else plainResult entry.2.1 answer))
         unwrappingMethods.
Proof.
  unfold unwrappingMethods. cbv zeta.
  repeat apply Forall_cons_2; [..|apply Forall_nil_2].
  - unfold Tasks.listTasks. settle_unwrapped answer.
  - unfold Tasks.createTask. settle_unwrapped answer.
  - unfold Tasks.updateTask. settle_unwrapped answer.
  - unfold Tasks.deleteTask. settle_unwrapped answer.
  - unfold Tasks.getTask. settle_unwrapped answer.
  - unfold Tasks.listRuns. settle_unwrapped answer.
  - unfold Tasks.listWebhooks. settle_unwrapped answer.
  - unfold Tasks.getInput. settle_unwrapped answer.
  - unfold Tasks.updateInput. settle_unwrapped answer.
  - unfold RequestQueues.getOrCreateQueue. settle_unwrapped answer.
  - unfold RequestQueues.listQueues. settle_unwrapped answer.
  - unfold RequestQueues.getQueue. settle_unwrapped answer.
  - unfold RequestQueues.deleteQueue. settle_unwrapped answer.
  - unfold RequestQueues.addRequest. settle_unwrapped answer.
  - unfold RequestQueues.getRequest. settle_unwrapped answer.
  - unfold RequestQueues.deleteRequest. settle_unwrapped answer.
  - unfold RequestQueues.updateRequest. settle_unwrapped answer.
  - unfold RequestQueues.getHead. settle_unwrapped answer.
  - unfold KeyValueStores.getOrCreateStore. settle_unwrapped answer.
  - unfold KeyValueStores.listStores. settle_unwrapped answer.
  - unfold KeyValueStores.getStore. settle_unwrapped answer.
  - unfold KeyValueStores.deleteStore. settle_unwrapped answer.
  - unfold KeyValueStores.deleteRecord. settle_unwrapped answer.
  - unfold KeyValueStores.listKeys. settle_unwrapped answer.
  - unfold Datasets.getOrCreateDataset. settle_unwrapped answer.
  - unfold Datasets.listDatasets. settle_unwrapped answer.
  - unfold Datasets.getDataset. settle_unwrapped answer.
  - unfold Datasets.deleteDataset. settle_unwrapped answer.
Qed.

(** ** The codec of the earlier key-value stores module *)

(** X26. The [encodeBody] and [parseBody] of the earlier key-value stores
    module compare the content type with [application/json] exactly: under
    any other content type, a JSON type with a charset parameter included,
    both hand the body on unchanged; under [application/json] they are
    [JSON.stringify] and [JSON.parse].  So a body that [JSON.parse] reads
    back from its [JSON.stringify] text is read back by [parseBody] from
    what [encodeBody] produced, under every content type. *)
Theorem legacy_codec_reads_back_what_it_wrote `{Runtime} (body contentType : JsVal) :
  JSON_parse (JSON_stringify body) = Ok body ->
  KeyValueStoresUrlOption.parseBody
    (KeyValueStoresUrlOption.encodeBody body contentType) contentType = Ok body
  /\ (contentType <> JStr "application/json" ->
      KeyValueStoresUrlOption.encodeBody body contentType = body
      /\ KeyValueStoresUrlOption.parseBody body contentType = Ok body)
  /\ KeyValueStoresUrlOption.encodeBody body (JStr "application/json") = JSON_stringify body
  /\ KeyValueStoresUrlOption.parseBody body (JStr "application/json") = JSON_parse body.
Proof.
  intros Hjson. unfold KeyValueStoresUrlOption.parseBody, KeyValueStoresUrlOption.encodeBody,
    KeyValueStoresUrlOption.CONTENT_TYPE_JSON.
  split; [|split; [|done]].
  - destruct contentType as [| | | |type| | | |]; try done.
    by destruct (String.eqb type "application/json").
  - intros Hother. destruct contentType as [| | | |type| | | |]; try done.
    destruct (String.eqb type "application/json") eqn:Htype; [|done].
    apply String.eqb_eq in Htype as ->. done.
Qed.

(** ** The earlier versions of the key-value stores module *)

(** X27. The first version of the key-value stores methods checks no
    parameter: every call returns a promise and issues one JSON request, a
    missing store id being spelled [undefined] in the URL.  The result is
    the response as it is, and every failure, HTTP 404 included, is raised.
    [putRecord] sends the body and the content type as the caller gave them;
    there is no default content type. *)
Theorem first_version_checks_nothing (answer : Settled JsVal) (options : Obj) :
  Forall (fun m : Method =>
            exists r : Obj,
              dispatch (m (requestPromise (answerWith answer)) options)
              = (plainResult (fun response => response) answer, [r])
              /\ r !! "json" = Some (JBool true))
         firstVersion
  /\ (options !! "storeId" = None ->
      issuesOne (fun r => r !! "url"
                          = Some (JStr (toStr (options !!! "baseUrl")
                                        +:+ "/v2/key-value-stores/undefined")))
                (KeyValueStoresFirst.getStore (requestPromise (answerWith answer)) options))
  /\ issuesOne (fun r => r !! "body" = Some (options !!! "body")
                         /\ r !! "headers"
                            = Some (JObj {[ "Content-Type" := options !!! "contentType" ]}))
               (KeyValueStoresFirst.putRecord (requestPromise (answerWith answer)) options).
Proof.
  split; [|split].
  - unfold firstVersion. repeat apply Forall_cons_2; [..|apply Forall_nil_2];
      (eexists; split;
       [unfold dispatch, requestPromise, answerWith, plainResult; cbn [app];
        by destruct answer
       |by simplify_map_eq]).
  - intros Hstore. unfold KeyValueStoresFirst.getStore.
    eapply issuesOne_single; [by one_request|].
    rewrite (lookup_total_alt options "storeId"), Hstore. by simplify_map_eq.
  - unfold KeyValueStoresFirst.putRecord.
    eapply issuesOne_single; [by one_request|]. by simplify_map_eq.
Qed.

(** X28. The earlier [getRecord] with the [url] option negotiates on the
    record endpoint itself, with [url=1] in the query, and then downloads
    from the signed URL of the answer.  A failure of the negotiation is
    raised as it is, HTTP 404 included; a failure of the download resolves
    to null when it is HTTP 404 and is raised otherwise. *)
Theorem legacy_getRecord_negotiates_on_the_record_endpoint `{Runtime}
    (first second : Settled JsVal) (options : Obj) :
  truthy (options !!! "url") = true ->
  returnsPromise (KeyValueStoresUrlOption.getRecord
                    (requestPromise (answersInOrder first second)) options) = true ->
  let call := KeyValueStoresUrlOption.getRecord
                (requestPromise (answersInOrder first second)) options in
  exists negotiation : Obj,
    negotiatesOnTheRecord options negotiation
    /\ match first with
       | Rejected e => dispatch call = (RejectedWith e, [negotiation])
       | Fulfilled response =>
           match signedUrlOf response with
           | Throw e => dispatch call = (RejectedWith e, [negotiation])
           | Ok signedUrl =>
               sent call = [negotiation; signedDownload signedUrl]
               /\ forall e, second = Rejected e ->
                    observed call = if isNotFound e then Resolved JNull else RejectedWith e
           end
       end.
Proof.
  intros Hurl. unfold KeyValueStoresUrlOption.getRecord. js_beta.
  repeat match goal with
  | |- context [checkParamOrThrow ?v ?n ?ty] =>
      destruct (checkParamOrThrow v n ty) as [[]|?] eqn:?; js_beta
  end; try discriminate.
  rewrite Hurl. intros _. cbv zeta. eexists. split; cycle 1.
  - unfold sent, observed, dispatch, then_chain, then_full, requestPromise, answersInOrder,
      signedUrlOf.
    cbn [app]. destruct first as [response|e]; [|done]. js_beta.
    destruct (getProp response "data") as [data|e]; [|done]. js_beta.
    destruct (getProp data "signedUrl") as [signedUrl|e]; [|done]. js_beta.
    cbn [adopt]. unfold then2, then_, then_full, signedDownload. cbn [app].
    destruct second as [body|e].
    + cbv beta iota delta [adopt resolve liftOutcome].
      split; [|done].
      by destruct (KeyValueStoresUrlOption.getRecord_parseResponse _ _ _).
    + unfold catchNotFoundOrThrow. cbv beta iota delta [adopt reject resolve liftOutcome].
      split; [by destruct (isNotFound e)|].
      intros e' [= <-]. by destruct (isNotFound e).
  - unfold negotiatesOnTheRecord.
    destruct (truthy (options !!! "raw")); cbn [fieldsOf]; repeat split; by simplify_map_eq.
Qed.

(** X29. The earlier [putRecord] compresses only on its signed-URL path.
    Without the [url] option it issues one request that carries the encoded
    body as it is, with a [Content-Type] header and no [Content-Encoding].
    With the option it first repeats the upload request without a body and
    with [url=1] in the query, and then, when the answer holds a signed URL
    and the compression succeeds, uploads the compressed body to that URL
    with [Content-Encoding: gzip]; a failure of the negotiation or of the
    compression is raised after the one request. *)
Theorem legacy_putRecord_compresses_only_for_signed_urls `{Runtime}
    (first second : Settled JsVal) (options : Obj) :
  returnsPromise (KeyValueStoresUrlOption.putRecord
                    (requestPromise (answersInOrder first second)) options) = true ->
  let call := KeyValueStoresUrlOption.putRecord
                (requestPromise (answersInOrder first second)) options in
  (truthy (options !!! "url") = false ->
   exists upload : Obj,
     sent call = [upload]
     /\ upload !! "body" = Some (legacyBodyOf options)
     /\ upload !! "headers" = Some (JObj {[ "Content-Type" := contentTypeOf options ]}))
  /\ (truthy (options !!! "url") = true ->
      exists negotiation : Obj,
        negotiatesTheUpload options negotiation
        /\ match first with
           | Rejected e => dispatch call = (RejectedWith e, [negotiation])
           | Fulfilled response =>
               match signedUrlOf response, options !!! "promise" with
               | Throw e, _ => dispatch call = (RejectedWith e, [negotiation])
               | Ok signedUrl, JFunc _ =>
                   match gzip (legacyBodyOf options) with
                   | Throw e => dispatch call = (RejectedWith e, [negotiation])
                   | Ok gzipedBody =>
                       exists upload : Obj,
                         sent call = [negotiation; upload]
                         /\ upload !! "url" = Some signedUrl
                         /\ upload !! "body" = Some (JBuffer gzipedBody)
                         /\ upload !! "headers"
                            = Some (JObj {[ "Content-Type" := contentTypeOf options;
                                            "Content-Encoding" := JStr "gzip" ]})
                   end
               | Ok _, _ =>
                   exists message,
                     dispatch call = (RejectedWith (TypeError message), [negotiation])
               end
           end).
Proof.
  unfold KeyValueStoresUrlOption.putRecord, legacyBodyOf, contentTypeOf. js_beta.
  repeat match goal with
  | |- context [checkParamOrThrow ?v ?n ?ty] =>
      destruct (checkParamOrThrow v n ty) as [[]|?] eqn:?; js_beta
  end; try discriminate.
  intros _. cbv zeta. split.
  - intros ->. eexists. split; [by one_request|]. by simplify_map_eq.
  - intros ->. cbn [negb]. eexists. split; cycle 1.
    + unfold sent, dispatch, then_chain, then_full, requestPromise, answersInOrder,
        signedUrlOf.
      cbn [app]. destruct first as [response|e]; [|done]. js_beta.
      destruct (getProp response "data") as [data|e]; [|done]. js_beta.
      destruct (getProp data "signedUrl") as [signedUrl|e]; [|done]. js_beta.
      unfold KeyValueStoresUrlOption.gzipPromise.
      rewrite (lookup_total_insert_ne _ "url" "body") by done.
      rewrite (lookup_total_insert_ne _ "method" "body") by done.
      rewrite lookup_total_insert_eq.
      destruct (options !!! "promise"); js_beta; cbn [adopt];
        try (eexists; reflexivity).
      destruct (gzip _) as [gzipedBody|e]; cbv beta iota delta [resolve reject adopt];
        [|done].
      eexists. split; [by destruct second|]. by simplify_map_eq.
    + unfold negotiatesTheUpload. repeat split; by simplify_map_eq.
Qed.

(** X30. With a callback, a decorated method hands no promise back.  The
    callback is attached to the promise of the method with both handlers in
    one [then]: it receives the result when the promise fulfils and the error
    when it rejects, after the same requests, and an error that the callback
    throws while it handles a result is not handed to it again. *)
Theorem callback_receives_the_result_or_the_error
    (this : ApifyClient.Client) (method : Method) (callOpts : Obj)
    (callback : ApifyClient.Callback) (h : ApifyClient.Heap)
    (loc : nat) (handed : ApifyClient.Returned) :
  (ApifyClient.methodDecorator this method callOpts (Some callback) h).1 = Ok (loc, handed) ->
  exists promise attached : Promise JsVal,
    method (ApifyClient.preconfiguredRequest this)
           (mergedOptsOf (h !!! ApifyClient.instanceOpts this) callOpts) = Ok promise
    /\ handed = ApifyClient.ReturnedUndefined attached
    /\ forall tr : Trace,
         (attached tr).2 = (promise tr).2
         /\ (attached tr).1
            = match (promise tr).1 with
              | Fulfilled result => settles (callback None result)
              | Rejected error => settles (callback (Some error) JUndefined)
              end.
Proof.
  rewrite methodDecorator_unfold. cbv zeta.
  destruct (ApifyClient.checkRequired _ _); [|done].
  destruct (method _ _) as [promise|e]; [|done].
  intros [= _ <-]. exists promise. eexists. split; [done|]. split; [done|].
  intros tr. split; [apply then2_trace|].
  rewrite then2_settled. unfold settles. by destruct ((promise tr).1).
Qed.

(** ** The further properties at concrete calls *)

Lemma updateAct_moves_the_id_into_the_path_witness :
  sent (Acts.updateAct (requestPromise (respondWith JUndefined)) actUpdate)
  = [ {[ "url" := JStr "https://api.apifier.com/v2/acts/E2jjCZBezvAZnX8Rb";
         "json" := JBool true;
         "method" := JStr "PUT";
         "qs" := JObj {[ "token" := JStr "f5J7XsdaKDyRywwuGGo9" ]};
         "body" := JObj (delete "id" {[ "id" := JStr "E2jjCZBezvAZnX8Rb";
                                        "name" := JStr "my-act" ]}) ]} ].
Proof.
  apply (updateAct_moves_the_id_into_the_path
           (respondWith JUndefined) actUpdate
           {[ "id" := JStr "E2jjCZBezvAZnX8Rb"; "name" := JStr "my-act" ]}
           "https://api.apifier.com" "f5J7XsdaKDyRywwuGGo9" "E2jjCZBezvAZnX8Rb");
    vm_compute; reflexivity.
Defined.

Lemma updateAct_without_id_and_act_is_a_type_error_witness :
  exists message,
    dispatch (Acts.updateAct (requestPromise (respondWith JUndefined))
                {[ "baseUrl" := JStr "https://api.apifier.com";
                   "token" := JStr "f5J7XsdaKDyRywwuGGo9" ]})
    = (ThrewSynchronously (TypeError message), []).
Proof.
  apply updateAct_without_id_and_act_is_a_type_error.
  - vm_compute; reflexivity.
  - left. vm_compute; reflexivity.
Defined.

Lemma updateRequest_falls_back_to_the_id_of_the_request_witness :
  sent (RequestQueues.updateRequest (H:=plainRuntime)
          (requestPromise (respondWith JUndefined)) requestUpdate)
  = [ {[ "url" := JStr ("https://api.apify.com/v2/request-queues/some-queue/requests/"
                        +:+ "dnjkDMKLmdlkmlkmld");
         "json" := JBool true;
         "method" := JStr "PUT";
         "body" := JObj {[ "id" := JStr "dnjkDMKLmdlkmlkmld";
                           "url" := JStr "http://example.com" ]};
         "qs" := JObj {[ "forefront" := JBool false;
                         "token" := JStr "f5J7XsdaKDyRywwuGGo9" ]};
         "expBackOffMaxRepeats" := JNum 9 ]} ].
Proof.
  apply (updateRequest_falls_back_to_the_id_of_the_request (H:=plainRuntime)
           (respondWith JUndefined) requestUpdate
           {[ "id" := JStr "dnjkDMKLmdlkmlkmld"; "url" := JStr "http://example.com" ]}
           "https://api.apify.com" "some-queue" "f5J7XsdaKDyRywwuGGo9" "dnjkDMKLmdlkmlkmld"
           false);
    vm_compute; reflexivity.
Defined.

Lemma updateTask_with_an_empty_id_is_a_type_error_witness :
  exists message,
    dispatch (Tasks.updateTask (H:=plainRuntime) (requestPromise (respondWith JUndefined))
                taskUpdate)
    = (ThrewSynchronously (TypeError message), []).
Proof.
  apply (updateTask_with_an_empty_id_is_a_type_error (H:=plainRuntime)
           (requestPromise (respondWith JUndefined)) taskUpdate
           {[ "id" := JStr ""; "name" := JStr "my-task" ]}
           "https://api.apify.com" "f5J7XsdaKDyRywwuGGo9");
    try (vm_compute; reflexivity).
  intros s. vm_compute. discriminate.
Defined.

Lemma getRecord_reads_through_the_api_witness :
  truthy (plainRecord !!! "url") = false
  /\ issuesOne (readsRecord plainRecord)
       (KeyValueStores.getRecord (H:=plainRuntime)
          (requestPromise (answerWith (Rejected (RequestFailedError 404)))) plainRecord)
  /\ observes
       (KeyValueStores.getRecord (H:=plainRuntime)
          (requestPromise (answerWith (Rejected (RequestFailedError 404)))) plainRecord)
       (Resolved JNull).
Proof.
  assert (truthy (plainRecord !!! "url") = false) as Hurl by (vm_compute; reflexivity).
  destruct (getRecord_reads_through_the_api (H:=plainRuntime)
              (Rejected (RequestFailedError 404)) plainRecord Hurl)
    as (Hone & Hrejected & _).
  split; [exact Hurl|]. split; [exact Hone|].
  exact (Hrejected (RequestFailedError 404) eq_refl).
Defined.

Lemma getRecord_negotiates_a_signed_url_witness :
  dispatch (KeyValueStores.getRecord (H:=plainRuntime)
              (requestPromise (failWith 404)) signedRead)
  = (RejectedWith (RequestFailedError 404), [downloadNegotiation signedRead])
  /\ dispatch (KeyValueStores.getRecord (H:=plainRuntime)
                 (requestPromise (expiredServer 404)) signedRead)
     = (Resolved JNull,
        [downloadNegotiation signedRead;
         signedDownload (JStr "https://s3.amazonaws.com/bucket/foo")]).
Proof.
  split.
  - refine (proj1 (getRecord_negotiates_a_signed_url (H:=plainRuntime)
                     (failWith 404) signedRead _ _) (RequestFailedError 404) _);
      vm_compute; reflexivity.
  - refine (proj2 (getRecord_negotiates_a_signed_url (H:=plainRuntime)
                     (expiredServer 404) signedRead _ _)
                  (JObj {[ "data" := JObj recordMeta ]})
                  (JStr "https://s3.amazonaws.com/bucket/foo")
                  (RequestFailedError 404) _ _ _);
      vm_compute; reflexivity.
Defined.

Lemma getRecord_assembles_the_signed_record_witness :
  observed (KeyValueStores.getRecord (H:=plainRuntime) (requestPromise storeServer) signedRead)
  = Resolved (JObj (<["body" := JStr "bar"]>
                      (delete "contentEncoding" (delete "signedUrl" recordMeta)))).
Proof.
  refine (proj2 (getRecord_assembles_the_signed_record (H:=plainRuntime)
                   storeServer signedRead {[ "data" := JObj recordMeta ]} recordMeta
                   (JStr "bar") _ _ _ _ _));
    vm_compute; reflexivity.
Defined.

Lemma new_client_merges_options_over_defaults_witness :
  callerHeap !! 0%nat = Some overridingOptions
  /\ (ApifyClient.new true JUndefined (respondWith JUndefined) (Some 0%nat) callerHeap).2 !! 0%nat
     = Some (delete "_overrideMethodGroups" overridingOptions)
  /\ ~ (exists e,
          (ApifyClient.new true JUndefined (respondWith JUndefined) (Some 0%nat) callerHeap).1
          = Throw e).
Proof.
  assert (callerHeap !! 0%nat = Some overridingOptions) as Hgiven by reflexivity.
  destruct (new_client_merges_options_over_defaults true JUndefined (respondWith JUndefined)
              0%nat overridingOptions callerHeap Hgiven) as (Hthrows & Hcaller & _).
  split; [exact Hgiven|]. split; [exact Hcaller|].
  intros Hthrown. apply Hthrows in Hthrown as [_ Hnative]. discriminate Hnative.
Defined.

Lemma legacy_codec_reads_back_what_it_wrote_witness :
  KeyValueStoresUrlOption.parseBody (H:=plainRuntime)
    (KeyValueStoresUrlOption.encodeBody (H:=plainRuntime)
       (JStr "bar") (JStr "application/json")) (JStr "application/json")
  = Ok (JStr "bar").
Proof.
  refine (proj1 (legacy_codec_reads_back_what_it_wrote (H:=plainRuntime)
                   (JStr "bar") (JStr "application/json") _)).
  vm_compute; reflexivity.
Defined.

Lemma legacy_getRecord_negotiates_on_the_record_endpoint_witness :
  exists negotiation : Obj,
    negotiatesOnTheRecord signedRead negotiation
    /\ sent (KeyValueStoresUrlOption.getRecord (H:=plainRuntime)
               (requestPromise (answersInOrder
                                  (Fulfilled (JObj {[ "data" := JObj recordMeta ]}))
                                  (Rejected (RequestFailedError 404))))
               signedRead)
       = [negotiation; signedDownload (JStr "https://s3.amazonaws.com/bucket/foo")]
    /\ observed (KeyValueStoresUrlOption.getRecord (H:=plainRuntime)
                   (requestPromise (answersInOrder
                                      (Fulfilled (JObj {[ "data" := JObj recordMeta ]}))
                                      (Rejected (RequestFailedError 404))))
                   signedRead)
       = Resolved JNull.
Proof.
  assert (truthy (signedRead !!! "url") = true) as Hurl by (vm_compute; reflexivity).
  destruct (legacy_getRecord_negotiates_on_the_record_endpoint (H:=plainRuntime)
              (Fulfilled (JObj {[ "data" := JObj recordMeta ]}))
              (Rejected (RequestFailedError 404)) signedRead Hurl eq_refl)
    as (negotiation & Hnegotiation & Hsent & Hobserved).
  exists negotiation. split; [exact Hnegotiation|]. split; [exact Hsent|].
  exact (Hobserved (RequestFailedError 404) eq_refl).
Defined.

Lemma legacy_putRecord_compresses_only_for_signed_urls_witness :
  exists negotiation upload : Obj,
    negotiatesTheUpload signedWrite negotiation
    /\ sent (KeyValueStoresUrlOption.putRecord (H:=plainRuntime)
               (requestPromise (answersInOrder (Fulfilled signedUrlResponse)
                                               (Fulfilled JUndefined)))
               signedWrite)
       = [negotiation; upload]
    /\ upload !! "url" = Some (JStr "https://s3.amazonaws.com/bucket/foo")
    /\ upload !! "body" = Some (JBuffer (list_byte_of_string "bar")).
Proof.
  destruct (legacy_putRecord_compresses_only_for_signed_urls (H:=plainRuntime)
              (Fulfilled signedUrlResponse) (Fulfilled JUndefined) signedWrite eq_refl)
    as (_ & Hsigned).
  destruct (Hsigned eq_refl) as (negotiation & Hnegotiation & upload & Hsent & Hurl & Hbody & _).
  exists negotiation, upload.
  split; [exact Hnegotiation|]. split; [exact Hsent|]. split; [exact Hurl|exact Hbody].
Defined.

Lemma callback_receives_the_result_or_the_error_witness :
  exists promise attached : Promise JsVal,
    ping (requestPromise (respondWith JUndefined)) (mergedOptsOf instanceObject ∅)
    = Ok promise
    /\ (ApifyClient.methodDecorator client ping ∅ (Some echo) clientHeap).1
       = Ok (1%nat, ApifyClient.ReturnedUndefined attached)
    /\ (attached []).2 = (promise []).2.
Proof.
  assert (exists handed,
            (ApifyClient.methodDecorator client ping ∅ (Some echo) clientHeap).1
            = Ok (1%nat, handed)) as [handed Hhanded]
    by (eexists; vm_compute; reflexivity).
  destruct (callback_receives_the_result_or_the_error client ping ∅ echo clientHeap
              1%nat handed Hhanded) as (promise & attached & Hpromise & -> & Hattached).
  exists promise, attached. split; [exact Hpromise|]. split; [exact Hhanded|].
  exact (proj1 (Hattached [])).
Defined.
